(** * CalonPelanggan: the browser glue of [script.js]

    A shallow embedding of [src/script.js]: the sign-in sequencing, the
    signed-in / signed-out view switch and the three row operations on the
    spreadsheet (add, edit, delete).

    The script is a set of event handlers over shared mutable state.  The
    state is the record [World]: the script's globals, the part of the page
    the handlers read and write, the two browser stores, the pending timers
    and a [trace] of every call made to a collaborator (console, identity
    service, spreadsheet client, dashboard object).  A handler is a
    computation in the state-and-exception monad [Js]; [try]/[catch] is
    [try_catch], so an exception raised half way keeps the writes made
    before it, as in the source.

    Conventions of the embedding.
    - JavaScript numbers are [Z]; every number the script computes is an
      integer (a counter, a row index, a delay), so this is exact as long
      as the values stay inside the safe-integer range, up to
      [MAX_SAFE_INTEGER].  Beyond it the source rounds to the nearest
      double and prints large numbers in exponent notation; theorems about
      the row arithmetic carry the bound as a hypothesis.
    - A string is the sequence of bytes of its UTF-8 encoding.
    - A value that may be [undefined] or [null] is an [option].
    - The timestamp that [ErrorHandler.log] puts in front of a message is
      left out of the trace: wall-clock time is not part of the model.
    - An [await] is resolved by an [Outcome] the caller passes in.  The
      handler's continuation runs right after the call; everything a
      handler writes before its first [await] is therefore written in the
      same order as in the source. *)

From Stdlib Require Import ZArith String Ascii Lia DecimalString DecimalFacts DecimalZ.
From stdpp Require Import gmap strings list.

Open Scope Z_scope.

(** ** JavaScript values used by the script *)

(** [error.message] is all the script ever reads of an exception. *)
Record JsError := mkError { message : string }.

Definition ReferenceError (ident : string) : JsError :=
  mkError (ident +:+ " is not defined").

Definition TypeError_null (prop : string) : JsError :=
  mkError ("Cannot read properties of null (reading '" +:+ prop +:+ "')").

Definition TypeError_undefined (prop : string) : JsError :=
  mkError ("Cannot read properties of undefined (reading '" +:+ prop +:+ "')").

(** Truthiness of a string that may be [undefined]/[null]. *)
Definition truthy (v : option string) : bool :=
  match v with
  | Some s => negb (String.eqb s "")
  | None => false
  end.

(** [Number.MAX_SAFE_INTEGER]: up to this magnitude the integers are
    doubles and their sums and differences are computed exactly. *)
Definition MAX_SAFE_INTEGER : Z := 2 ^ 53 - 1.

(** [`${n}`] for an integer [n] below [1e21] in magnitude, where the
    template prints plain decimal digits. *)
Definition show_Z (z : Z) : string := NilZero.string_of_int (Z.to_int z).

(** [`${n}`] for a number that may be [NaN]. *)
Definition show_num (n : option Z) : string :=
  match n with
  | Some z => show_Z z
  | None => "NaN"
  end.

Definition show_bool (b : bool) : string := if b then "true" else "false".

(** *** [parseInt(string)] with no radix argument

    Leading white space is skipped, one sign is read, a [0x]/[0X] prefix
    selects radix 16, and the longest prefix of digits is converted; no
    digit at all gives [NaN], here [None].  The value is exact up to
    [MAX_SAFE_INTEGER]. *)

(** The white space and line terminators of ASCII: U+0009 to U+000D and
    U+0020. *)
Definition is_space (c : ascii) : bool :=
  let n := nat_of_ascii c in
  ((9 <=? n) && (n <=? 13))%nat || (n =? 32)%nat.

(** U+00A0, two bytes. *)
Definition is_space2 (c1 c2 : ascii) : bool :=
  ((nat_of_ascii c1 =? 194) && (nat_of_ascii c2 =? 160))%nat.

(** The white space and line terminators of three bytes: U+1680, U+2000 to
    U+200A, U+2028, U+2029, U+202F, U+205F, U+3000 and U+FEFF. *)
Definition is_space3 (c1 c2 c3 : ascii) : bool :=
  let a := nat_of_ascii c1 in
  let b := nat_of_ascii c2 in
  let c := nat_of_ascii c3 in
  ((a =? 225) && (b =? 154) && (c =? 128)
   || (a =? 226) && (b =? 128)
      && ((128 <=? c) && (c <=? 138) || (c =? 168) || (c =? 169) || (c =? 175))
   || (a =? 226) && (b =? 129) && (c =? 159)
   || (a =? 227) && (b =? 128) && (c =? 128)
   || (a =? 239) && (b =? 187) && (c =? 191))%nat.

Fixpoint skip_spaces (s : string) : string :=
  match s with
  | String c1 r1 =>
      if is_space c1 then skip_spaces r1
      else if (nat_of_ascii c1 <? 128)%nat then s
      else
        match r1 with
        | String c2 r2 =>
            if is_space2 c1 c2 then skip_spaces r2
            else
              match r2 with
              | String c3 r3 => if is_space3 c1 c2 c3 then skip_spaces r3 else s
              | EmptyString => s
              end
        | EmptyString => s
        end
  | EmptyString => s
  end.

Definition digit_value (radix : Z) (c : ascii) : option Z :=
  let n := Z.of_nat (nat_of_ascii c) in
  let v :=
    if (48 <=? n) && (n <=? 57) then Some (n - 48)
    else if (97 <=? n) && (n <=? 122) then Some (n - 87)
    else if (65 <=? n) && (n <=? 90) then Some (n - 55)
    else None in
  match v with
  | Some d => if d <? radix then Some d else None
  | None => None
  end.

Fixpoint parse_digits (radix : Z) (s : string) (acc : Z) : Z :=
  match s with
  | String c r =>
      match digit_value radix c with
      | Some d => parse_digits radix r (acc * radix + d)
      | None => acc
      end
  | EmptyString => acc
  end.

Definition starts_with_digit (radix : Z) (s : string) : bool :=
  match s with
  | String c _ => match digit_value radix c with Some _ => true | None => false end
  | EmptyString => false
  end.

Definition parse_magnitude (s : string) : option Z :=
  let '(radix, body) :=
    match s with
    | String "0" (String "x" r) => (16, r)
    | String "0" (String "X" r) => (16, r)
    | _ => (10, s)
    end in
  if starts_with_digit radix body then Some (parse_digits radix body 0) else None.

Definition parseInt (s : string) : option Z :=
  match skip_spaces s with
  | String "-" r => Z.opp <$> parse_magnitude r
  | String "+" r => parse_magnitude r
  | r => parse_magnitude r
  end.

(** *** The two string operations on [CONFIG.DATA_RANGE] *)

(** [s.split('!')[0]]: the text before the first [!]. *)
Fixpoint split_bang_0 (s : string) : string :=
  match s with
  | String c r => if Ascii.eqb c "!" then EmptyString else String c (split_bang_0 r)
  | EmptyString => EmptyString
  end.

(** [s.replace(/'/g, "")]: every apostrophe removed. *)
Fixpoint remove_apostrophes (s : string) : string :=
  match s with
  | String c r =>
      if Ascii.eqb c "'" then remove_apostrophes r else String c (remove_apostrophes r)
  | EmptyString => EmptyString
  end.

(** ** The world the handlers run in *)

Inductive Level := LvlLog | LvlInfo | LvlWarn | LvlError.

(** The value handed to [gapi.client.setToken]. *)
Inductive Token :=
  | NoToken
  | TokenObj (access_token : string)
  | TokenStr (s : string).

(** Markup the script assigns to [innerHTML]; the texts are kept, the tags
    around them are named by the constructor. *)
Inductive Html :=
  | HtmlStatic
  | HtmlAlert (text : string)
  | HtmlSaving
  | HtmlSaveLabel.

Record Element := mkElement {
  display : string;
  innerHTML : Html;
  value : string;
  disabled : bool;
  classList : list string
}.

(** [config.js] is not part of the script: its object is a field of the
    world.  A property that is not set is [None]. *)
Record Config := mkConfig {
  API_KEY : option string;
  SCOPES : option string;
  CLIENT_ID : option string;
  SPREADSHEET_ID : option string;
  DATA_RANGE : option string
}.

(** The dashboard object of another script: not declared yet, declared
    without a value, or an object that may already carry [refreshData]. *)
Inductive Integration :=
  | Undeclared
  | Undefined
  | Dashboard (refreshData isInitialized : bool).

Inductive Callback :=
  | CbInitializeGapiClient
  | CbSafeRefreshData
  | CbInitializeGoogleSheetsIntegration
  | CbSetupRefreshDataOverride.

Record UpdateRequest := mkUpdate {
  upd_spreadsheetId : option string;
  upd_range : string;
  upd_valueInputOption : string;
  upd_values : list (list string)
}.

Record DeleteDimension := mkDelete {
  del_spreadsheetId : option string;
  del_sheetId : Z;
  del_dimension : string;
  del_startIndex : Z;
  del_endIndex : Z
}.

(** Calls that leave the script.  [FormReset] is [form.reset()]: the
    browser puts every control of the form back to its default value;
    which controls those are and what their defaults are is not part of
    the model, so the call is recorded and nothing is stated about the
    [value] of an element after it. *)
Inductive Effect :=
  | Console (level : Level) (text : string)
  | GapiLoad
  | GapiClientInit (apiKey scope : string)
  | GisInitialize (client_id : string)
  | RenderButton (container : string)
  | DisableAutoSelect
  | SetToken (t : Token)
  | DashboardInit
  | RefreshData
  | SetTimeout (cb : Callback) (delay : Z)
  | ValuesGet (spreadsheetId range : option string)
  | ValuesUpdate (req : UpdateRequest)
  | BatchUpdate (reqs : list DeleteDimension)
  | FormReset (form : string)
  | ListenersWired
  | RefreshDataWrapped.

Record World := mkWorld {
  (* globals of the script *)
  gapiInited : bool;
  gisLoadedFlag : bool;
  currentIdToken : option string;
  initializationAttempts : Z;
  (* other scripts and libraries *)
  CONFIG : option Config;           (* [None]: the identifier is not declared *)
  gapi_defined : bool;              (* [gapi] with [gapi.client] is loaded *)
  sheets_defined : bool;            (* [gapi.client.sheets] is there *)
  google_defined : bool;            (* [google.accounts.id] is there *)
  googleSheetsIntegration : Integration;
  token : Token;                    (* what [gapi.client] holds *)
  (* the page and the browser *)
  document : gmap string Element;
  sessionStorage : gmap string string;
  localStorage : gmap string string;
  timers : list (Callback * Z);
  trace : list Effect
}.

Definition MAX_INITIALIZATION_ATTEMPTS : Z := 3.

(** Field updates. *)
Definition set_gapiInited (b : bool) (w : World) : World :=
  mkWorld b (gisLoadedFlag w) (currentIdToken w) (initializationAttempts w)
    (CONFIG w) (gapi_defined w) (sheets_defined w) (google_defined w)
    (googleSheetsIntegration w) (token w) (document w) (sessionStorage w)
    (localStorage w) (timers w) (trace w).

Definition set_gisLoadedFlag (b : bool) (w : World) : World :=
  mkWorld (gapiInited w) b (currentIdToken w) (initializationAttempts w)
    (CONFIG w) (gapi_defined w) (sheets_defined w) (google_defined w)
    (googleSheetsIntegration w) (token w) (document w) (sessionStorage w)
    (localStorage w) (timers w) (trace w).

Definition set_currentIdToken (t : option string) (w : World) : World :=
  mkWorld (gapiInited w) (gisLoadedFlag w) t (initializationAttempts w)
    (CONFIG w) (gapi_defined w) (sheets_defined w) (google_defined w)
    (googleSheetsIntegration w) (token w) (document w) (sessionStorage w)
    (localStorage w) (timers w) (trace w).

Definition set_initializationAttempts (n : Z) (w : World) : World :=
  mkWorld (gapiInited w) (gisLoadedFlag w) (currentIdToken w) n
    (CONFIG w) (gapi_defined w) (sheets_defined w) (google_defined w)
    (googleSheetsIntegration w) (token w) (document w) (sessionStorage w)
    (localStorage w) (timers w) (trace w).

Definition set_token (t : Token) (w : World) : World :=
  mkWorld (gapiInited w) (gisLoadedFlag w) (currentIdToken w) (initializationAttempts w)
    (CONFIG w) (gapi_defined w) (sheets_defined w) (google_defined w)
    (googleSheetsIntegration w) t (document w) (sessionStorage w)
    (localStorage w) (timers w) (trace w).

Definition set_document (d : gmap string Element) (w : World) : World :=
  mkWorld (gapiInited w) (gisLoadedFlag w) (currentIdToken w) (initializationAttempts w)
    (CONFIG w) (gapi_defined w) (sheets_defined w) (google_defined w)
    (googleSheetsIntegration w) (token w) d (sessionStorage w)
    (localStorage w) (timers w) (trace w).

Definition set_sessionStorage (s : gmap string string) (w : World) : World :=
  mkWorld (gapiInited w) (gisLoadedFlag w) (currentIdToken w) (initializationAttempts w)
    (CONFIG w) (gapi_defined w) (sheets_defined w) (google_defined w)
    (googleSheetsIntegration w) (token w) (document w) s
    (localStorage w) (timers w) (trace w).

Definition set_localStorage (s : gmap string string) (w : World) : World :=
  mkWorld (gapiInited w) (gisLoadedFlag w) (currentIdToken w) (initializationAttempts w)
    (CONFIG w) (gapi_defined w) (sheets_defined w) (google_defined w)
    (googleSheetsIntegration w) (token w) (document w) (sessionStorage w)
    s (timers w) (trace w).

Definition set_timers (t : list (Callback * Z)) (w : World) : World :=
  mkWorld (gapiInited w) (gisLoadedFlag w) (currentIdToken w) (initializationAttempts w)
    (CONFIG w) (gapi_defined w) (sheets_defined w) (google_defined w)
    (googleSheetsIntegration w) (token w) (document w) (sessionStorage w)
    (localStorage w) t (trace w).

Definition set_trace (t : list Effect) (w : World) : World :=
  mkWorld (gapiInited w) (gisLoadedFlag w) (currentIdToken w) (initializationAttempts w)
    (CONFIG w) (gapi_defined w) (sheets_defined w) (google_defined w)
    (googleSheetsIntegration w) (token w) (document w) (sessionStorage w)
    (localStorage w) (timers w) t.

(** ** The monad of handlers: state and exceptions *)

Inductive Completion (A : Type) :=
  | Normal (a : A)
  | Throw (e : JsError).
Arguments Normal {A} a.
Arguments Throw {A} e.

Definition Js (A : Type) : Type := World -> Completion A * World.

Definition ret {A} (a : A) : Js A := fun w => (Normal a, w).

Definition throw {A} (e : JsError) : Js A := fun w => (Throw e, w).

Definition bind {A B} (m : Js A) (k : A -> Js B) : Js B :=
  fun w =>
    match m w with
    | (Normal a, w') => k a w'
    | (Throw e, w') => (Throw e, w')
    end.

(** [try { m } catch (error) { h error }] *)
Definition try_catch {A} (m : Js A) (h : JsError -> Js A) : Js A :=
  fun w =>
    match m w with
    | (Normal a, w') => (Normal a, w')
    | (Throw e, w') => h e w'
    end.

(** [try { m } finally { f }] *)
Definition try_finally {A} (m : Js A) (f : Js unit) : Js A :=
  fun w =>
    match m w with
    | (r, w') =>
        match f w' with
        | (Normal _, w'') => (r, w'')
        | (Throw e, w'') => (Throw e, w'')
        end
    end.

Definition gets {A} (f : World -> A) : Js A := fun w => (Normal (f w), w).

Definition modify (f : World -> World) : Js unit := fun w => (Normal tt, f w).

Definition when (b : bool) (m : Js unit) : Js unit := if b then m else ret tt.

(** The world a handler leaves behind. *)
Definition exec {A} (m : Js A) (w : World) : World := snd (m w).

Declare Scope js_scope.
Delimit Scope js_scope with js.
Notation "x <- m ;; k" := (bind m (fun x => k))
  (at level 20, m at level 99, k at level 200, only parsing) : js_scope.
Notation "m ;; k" := (bind m (fun _ => k))
  (at level 100, k at level 200, right associativity, only parsing) : js_scope.
Open Scope js_scope.

(** ** Primitive operations *)

Definition present {A} (o : option A) : bool :=
  match o with Some _ => true | None => false end.

Definition effect (e : Effect) : Js unit :=
  modify (fun w => set_trace (trace w ++ [e]) w).

(** [console.log], [console.warn], [console.error] called directly. *)
Definition console (level : Level) (text : string) : Js unit :=
  effect (Console level text).

Definition getElementById (id : string) : Js (option Element) :=
  gets (fun w => document w !! id).

Definition with_display (v : string) (e : Element) : Element :=
  mkElement v (innerHTML e) (value e) (disabled e) (classList e).

Definition with_innerHTML (h : Html) (e : Element) : Element :=
  mkElement (display e) h (value e) (disabled e) (classList e).

Definition with_disabled (b : bool) (e : Element) : Element :=
  mkElement (display e) (innerHTML e) (value e) b (classList e).

Definition classList_remove (c : string) (e : Element) : Element :=
  mkElement (display e) (innerHTML e) (value e) (disabled e)
    (filter (fun x => x <> c) (classList e)).

(** A write through a reference obtained from [getElementById]. *)
Definition update_element (id : string) (f : Element -> Element) : Js unit :=
  modify (fun w => set_document (alter f id (document w)) w).

Definition set_display (id v : string) : Js unit := update_element id (with_display v).

(** [document.getElementById(id).value], a [TypeError] on a missing element. *)
Definition value_of (id : string) : Js string :=
  e <- getElementById id;;
  match e with
  | Some el => ret (value el)
  | None => throw (TypeError_null "value")
  end.

(** Reading the identifier [CONFIG]. *)
Definition read_CONFIG : Js Config :=
  c <- gets CONFIG;;
  match c with
  | Some cfg => ret cfg
  | None => throw (ReferenceError "CONFIG")
  end.

(** Reaching [gapi.client]. *)
Definition use_gapi : Js unit :=
  d <- gets gapi_defined;;
  if d then ret tt else throw (ReferenceError "gapi").

(** Reaching [gapi.client.sheets.spreadsheets]. *)
Definition use_sheets : Js unit :=
  use_gapi;;
  s <- gets sheets_defined;;
  if s then ret tt else throw (TypeError_undefined "spreadsheets").

(** Reaching [google.accounts.id]. *)
Definition use_google : Js unit :=
  d <- gets google_defined;;
  if d then ret tt else throw (ReferenceError "google").

(** [gapi.client.setToken(t)] *)
Definition gapi_client_setToken (t : Token) : Js unit :=
  use_gapi;;
  effect (SetToken t);;
  modify (set_token t).

(** [setTimeout(cb, delay)] *)
Definition setTimeout (cb : Callback) (delay : Z) : Js unit :=
  effect (SetTimeout cb delay);;
  modify (fun w => set_timers (timers w ++ [(cb, delay)]) w).

(** The result of a promise the handler awaits.  A rejection carries an
    object, of which the handlers read [message] only (a reason without
    one prints as [undefined], which is a [message] here); a rejection
    with [null] or [undefined], on which that read itself fails, is not a
    result of the calls modelled. *)
Inductive Outcome (A : Type) :=
  | Resolved (a : A)
  | Rejected (reason : JsError).
Arguments Resolved {A} a.
Arguments Rejected {A} reason.

Definition await {A} (o : Outcome A) : Js A :=
  match o with
  | Resolved a => ret a
  | Rejected e => throw e
  end.

(** ** [ErrorHandler] *)

Module ErrorHandler.

Definition log (text : string) (level : Level) : Js unit :=
  console level text.

Definition showUserError (text : string) : Js unit :=
  errorDisplay <- getElementById "errorDisplay";;
  when (present errorDisplay)
    (update_element "errorDisplay" (with_innerHTML (HtmlAlert text));;
     set_display "errorDisplay" "block").

Definition handleError (error : JsError) (context : string) : Js unit :=
  log ("Error in " +:+ context +:+ ": " +:+ message error) LvlError;;
  showUserError ("Terjadi kesalahan: " +:+ message error).

End ErrorHandler.

(** ** The view switch *)

Definition updateSigninStatus (isSignedIn : bool) : Js unit :=
  try_catch
    (ErrorHandler.log ("Updating sign-in status: " +:+ show_bool isSignedIn) LvlInfo;;
     loginContainer <- getElementById "sign-in-container";;
     mainContent <- getElementById "main-content";;
     signOutButton <- getElementById "sign-out-button";;
     if negb (present loginContainer) || negb (present mainContent)
        || negb (present signOutButton)
     then ErrorHandler.log "Required DOM elements not found" LvlInfo
     else if isSignedIn then
       set_display "sign-in-container" "none";;
       set_display "main-content" "block";;
       set_display "sign-out-button" "block";;
       tok <- gets currentIdToken;;
       when (truthy tok)
         (gapi_client_setToken (TokenObj (default "" tok));;
          ErrorHandler.log "GAPI client token set." LvlInfo);;
       gsi <- gets googleSheetsIntegration;;
       match gsi with
       | Undeclared => throw (ReferenceError "googleSheetsIntegration")
       | Undefined => ret tt
       | Dashboard _ _ => effect DashboardInit
       end;;
       modify (fun w => set_sessionStorage (<["isLoggedIn" := "true"]> (sessionStorage w)) w)
     else
       set_display "sign-in-container" "block";;
       set_display "main-content" "none";;
       set_display "sign-out-button" "none";;
       gapi_client_setToken (TokenStr "");;
       ErrorHandler.log "GAPI client token cleared." LvlInfo)
    (fun error => ErrorHandler.handleError error "updateSigninStatus").

(** The [.catch] attached to [googleSheetsIntegration.init()]. *)
Definition dashboard_init_rejected (error : JsError) : Js unit :=
  ErrorHandler.handleError error "googleSheetsIntegration.init".

(** ** Initialisation *)

(** [google.accounts.id.renderButton(container, options)]; the options are
    constants of the script. *)
Definition renderButton (container : string) : Js unit :=
  use_google;;
  effect (RenderButton container).

Definition maybeRenderSignInButton : Js unit :=
  console LvlLog "maybeRenderSignInButton called";;
  try_catch
    (inited <- gets gapiInited;;
     gis <- gets gisLoadedFlag;;
     if inited && gis then
       console LvlLog "gapiInited and gisLoadedFlag are true, rendering button";;
       signInButtonContainer <- getElementById "g_id_onload";;
       if present signInButtonContainer then
         console LvlLog "signInButtonContainer found";;
         renderButton "g_id_onload";;
         updateSigninStatus false
       else console LvlLog "signInButtonContainer not found"
     else console LvlLog "gapiInited or gisLoadedFlag is false")
    (fun error => ErrorHandler.handleError error "maybeRenderSignInButton").

(** [window.gapiLoaded]: [initializeGapiClient] is handed to [gapi.load]
    and runs as its callback. *)
Definition gapiLoaded : Js unit :=
  console LvlLog "gapiLoaded called";;
  ErrorHandler.log "gapiLoaded: Google API client library loaded." LvlInfo;;
  use_gapi;;
  effect GapiLoad.

Definition initializeGapiClient (init : Outcome unit) : Js unit :=
  console LvlLog "initializeGapiClient called";;
  try_catch
    (ErrorHandler.log "initializeGapiClient: Initializing gapi.client..." LvlInfo;;
     cfg <- read_CONFIG;;
     (if negb (truthy (API_KEY cfg)) || negb (truthy (SCOPES cfg))
      then throw (mkError "Configuration missing. Please check config.js")
      else ret tt);;
     use_gapi;;
     effect (GapiClientInit (default "" (API_KEY cfg)) (default "" (SCOPES cfg)));;
     await init;;
     modify (set_gapiInited true);;
     ErrorHandler.log "GAPI client initialized successfully" LvlInfo;;
     maybeRenderSignInButton)
    (fun error =>
       ErrorHandler.handleError error "initializeGapiClient";;
       modify (fun w => set_initializationAttempts (initializationAttempts w + 1) w);;
       attempts <- gets initializationAttempts;;
       when (attempts <? MAX_INITIALIZATION_ATTEMPTS)
         (ErrorHandler.log
            ("Retrying initialization... (" +:+ show_Z attempts +:+ "/"
               +:+ show_Z MAX_INITIALIZATION_ATTEMPTS +:+ ")") LvlInfo;;
          setTimeout CbInitializeGapiClient (2000 * attempts))).

Definition gisLoaded : Js unit :=
  console LvlLog "gisLoaded called";;
  try_catch
    (ErrorHandler.log "gisLoaded: Google Identity Services loaded." LvlInfo;;
     cfg <- read_CONFIG;;
     (if negb (truthy (CLIENT_ID cfg))
      then throw (mkError "CLIENT_ID missing in configuration")
      else ret tt);;
     use_google;;
     effect (GisInitialize (default "" (CLIENT_ID cfg)));;
     modify (set_gisLoadedFlag true);;
     ErrorHandler.log "GIS initialized successfully" LvlInfo;;
     maybeRenderSignInButton)
    (fun error => ErrorHandler.handleError error "gisLoaded").

(** [window.handleCredentialResponse]; the argument is the [credential]
    field of the response. *)
Definition handleCredentialResponse (credential : option string) : Js unit :=
  console LvlLog "handleCredentialResponse called";;
  try_catch
    (ErrorHandler.log "Credential response received" LvlInfo;;
     if truthy credential then
       modify (set_currentIdToken credential);;
       updateSigninStatus true;;
       ErrorHandler.log "Login successful" LvlInfo
     else throw (mkError "No credential in response"))
    (fun error =>
       ErrorHandler.handleError error "handleCredentialResponse";;
       updateSigninStatus false).

Definition handleSignoutClick : Js unit :=
  try_catch
    (console LvlLog "handleSignoutClick called";;
     g <- gets google_defined;;
     (if g then
        console LvlLog "google.accounts.id is defined. Attempting disableAutoSelect.";;
        effect DisableAutoSelect
      else
        console LvlLog "google.accounts.id is NOT defined. Skipping disableAutoSelect.");;
     modify (set_currentIdToken None);;
     updateSigninStatus false;;
     modify (fun w => set_sessionStorage (delete "isLoggedIn" (sessionStorage w)) w);;
     modify (fun w => set_localStorage (delete "isLoggedIn" (localStorage w)) w);;
     ErrorHandler.log "User signed out" LvlInfo)
    (fun error => ErrorHandler.handleError error "handleSignoutClick").

(** ** Refresh, modal and page load *)

Definition safeRefreshData : Js unit :=
  gsi <- gets googleSheetsIntegration;;
  match gsi with
  | Dashboard true _ => effect RefreshData
  | _ =>
      console LvlWarn "googleSheetsIntegration not ready, retrying...";;
      setTimeout CbSafeRefreshData 500
  end.

Definition closeEditModal : Js unit :=
  try_catch
    (editModal <- getElementById "editModal";;
     when (present editModal)
       (set_display "editModal" "none";;
        update_element "editModal" (classList_remove "show");;
        editForm <- getElementById "editForm";;
        when (present editForm) (effect (FormReset "editForm"));;
        errorDisplay <- getElementById "errorDisplay";;
        when (present errorDisplay) (set_display "errorDisplay" "none")))
    (fun error => ErrorHandler.handleError error "closeEditModal").

(** [initializeUIComponents] registers click, key and submit listeners and
    fills the two sales drop-downs.  Listener registration is not state of
    this model (every handler below can be invoked at any time).  The
    filling, [populateSalesDropdown], rewrites the options and the selected
    value of the elements [assignedSales] and [editSales] and of nothing
    else; these two writes are not part of the model, which records the
    call in the trace: what is stated about the page after a page load
    leaves the two elements out. *)
Definition initializeUIComponents : Js unit :=
  effect ListenersWired.

(** [sep]-joined list, [Array.prototype.join]. *)
Fixpoint join (sep : string) (l : list string) : string :=
  match l with
  | [] => ""
  | [x] => x
  | x :: r => x +:+ sep +:+ join sep r
  end.

(** The first [DOMContentLoaded] listener. *)
Definition onDOMContentLoaded : Js unit :=
  try_catch
    (ErrorHandler.log "DOM Content Loaded - Initializing application..." LvlInfo;;
     doc <- gets document;;
     let requiredElements := ["sign-in-container"; "main-content"; "errorDisplay"] in
     let missingElements :=
       filter (fun id => negb (present (doc !! id)) = true) requiredElements in
     if (0 <? Z.of_nat (length missingElements)) then
       ErrorHandler.log ("Missing elements: " +:+ join ", " missingElements) LvlInfo
     else
       stored <- gets (fun w => sessionStorage w !! "isLoggedIn");;
       let isLoggedIn := bool_decide (stored = Some "true") in
       ErrorHandler.log ("Login status: " +:+ show_bool isLoggedIn) LvlInfo;;
       when isLoggedIn (updateSigninStatus true);;
       initializeUIComponents)
    (fun error => ErrorHandler.handleError error "DOMContentLoaded").

(** ** Row operations *)

(** [CONFIG.DATA_RANGE.split('!')[0].replace(/'/g, "")] *)
Definition sheetName_of (cfg : Config) : Js string :=
  match DATA_RANGE cfg with
  | Some r => ret (remove_apostrophes (split_bang_0 r))
  | None => throw (TypeError_undefined "split")
  end.

(** [`${sheetName}!${c1}${row}:${c2}${row}`] *)
Definition row_range (sheetName c1 c2 : string) (row : option Z) : string :=
  sheetName +:+ "!" +:+ c1 +:+ show_num row +:+ ":" +:+ c2 +:+ show_num row.

(** The submit listener of [editForm].  [parseInt(index) + 2] is exact while
    it is a safe integer. *)
Definition editForm_submit (update : Outcome unit) : Js unit :=
  try_catch
    (index <- value_of "editRowIndex";;
     let rowToUpdate := (fun n => n + 2) <$> parseInt index in
     editOdp <- value_of "editOdp";;
     editNama <- value_of "editNama";;
     editAlamat <- value_of "editAlamat";;
     editTelepon <- value_of "editTelepon";;
     editSales <- value_of "editSales";;
     editVisit <- value_of "editVisit";;
     editKeterangan <- value_of "editKeterangan";;
     editStatus <- value_of "editStatus";;
     let values :=
       [[editOdp; editNama; editAlamat; editTelepon; editSales; editVisit;
         editKeterangan; editStatus]] in
     cfg <- read_CONFIG;;
     sheetName <- sheetName_of cfg;;
     let request :=
       mkUpdate (SPREADSHEET_ID cfg) (row_range sheetName "A" "H" rowToUpdate)
         "USER_ENTERED" values in
     use_sheets;;
     effect (ValuesUpdate request);;
     await update;;
     console LvlLog "✅ Row updated successfully in Google Sheets";;
     closeEditModal;;
     safeRefreshData)
    (fun error =>
       console LvlError "❌ Update row error:";;
       ErrorHandler.handleError error "editForm.submit").

(** [rowIndex + 2] and [sheetRowIndex - 1] are exact while [rowIndex + 2]
    is a safe integer. *)
Definition deleteCustomerRow (rowIndex : Z) (batch : Outcome unit) : Js unit :=
  try_catch
    (ErrorHandler.log ("Attempting to delete row at index: " +:+ show_Z rowIndex) LvlInfo;;
     let sheetRowIndex := rowIndex + 2 in
     cfg <- read_CONFIG;;
     let request :=
       [mkDelete (SPREADSHEET_ID cfg) 0 "ROWS" (sheetRowIndex - 1) sheetRowIndex] in
     use_sheets;;
     effect (BatchUpdate request);;
     await batch;;
     ErrorHandler.log
       ("Row " +:+ show_Z sheetRowIndex +:+ " deleted successfully from Google Sheets.")
       LvlInfo;;
     ErrorHandler.showUserError "Data pelanggan berhasil dihapus!";;
     safeRefreshData)
    (fun error =>
       ErrorHandler.handleError error
         ("deleteCustomerRow for index " +:+ show_Z rowIndex);;
       ErrorHandler.showUserError ("Gagal menghapus data: " +:+ message error)).

Definition resetAddCustomerForm : Js unit :=
  try_catch
    (form <- getElementById "addCustomerForm";;
     when (present form) (effect (FormReset "addCustomerForm"));;
     (* [form.querySelectorAll(...)]; the inputs it clears of the [error]
        class are not elements of this model *)
     if present form then ret tt else throw (TypeError_null "querySelectorAll"))
    (fun error => ErrorHandler.handleError error "resetAddCustomerForm").

(** [Object.fromEntries]: a later entry overwrites an earlier one. *)
Definition fromEntries (entries : list (string * string)) : gmap string string :=
  foldl (fun m kv => <[kv.1 := kv.2]> m) ∅ entries.

(** [v || fallback] *)
Definition or_else (v : option string) (fallback : string) : string :=
  if truthy v then default "" v else fallback.

Definition required_fields : list string :=
  ["nama"; "no_telepon"; "alamat"; "odp_terdekat"; "nama_sales"].

(** [!customerData.nama || !customerData.no_telepon || ...] *)
Definition missing_required (customerData : gmap string string) : bool :=
  negb (truthy (customerData !! "nama"))
  || negb (truthy (customerData !! "no_telepon"))
  || negb (truthy (customerData !! "alamat"))
  || negb (truthy (customerData !! "odp_terdekat"))
  || negb (truthy (customerData !! "nama_sales")).

Definition restore_save_button : Js unit :=
  saveBtn <- getElementById "saveCustomer";;
  if present saveBtn then
    update_element "saveCustomer" (with_innerHTML HtmlSaveLabel);;
    update_element "saveCustomer" (with_disabled false)
  else throw (mkError "Cannot set properties of null (setting 'innerHTML')").

(** The submit listener of [addCustomerForm].  [entries] is the content of
    the form, [get] and [update] resolve the two awaited calls; [get]
    carries [response.result.values]. *)
Definition handleAddCustomerSubmit (entries : list (string * string))
    (get : Outcome (option (list (list string)))) (update : Outcome unit) : Js unit :=
  inited <- gets gapiInited;;
  not_ready <-
    (if negb inited then ret true
     else (use_gapi;; s <- gets sheets_defined;; ret (negb s)));;
  if (not_ready : bool) then
    ErrorHandler.showUserError "Google API client not initialized. Please try again."
  else
    try_finally
      (try_catch
         (let customerData := fromEntries entries in
          if missing_required customerData then
            ErrorHandler.showUserError "Mohon lengkapi semua field yang wajib diisi"
          else
            saveBtn <- getElementById "saveCustomer";;
            (if present saveBtn then ret tt else throw (TypeError_null "innerHTML"));;
            update_element "saveCustomer" (with_innerHTML HtmlSaving);;
            update_element "saveCustomer" (with_disabled true);;
            let rowData :=
              [[or_else (customerData !! "odp_terdekat") "";
                or_else (customerData !! "nama") "";
                or_else (customerData !! "alamat") "";
                or_else (customerData !! "no_telepon") "";
                or_else (customerData !! "nama_sales") "";
                or_else (customerData !! "visit") "Not Visited";
                or_else (customerData !! "keterangan") "";
                or_else (customerData !! "status") "Baru";
                or_else (customerData !! "email") "";
                or_else (customerData !! "kelurahan") "";
                or_else (customerData !! "tanggal_visit") "";
                or_else (customerData !! "priority") "Normal"]] in
            cfg <- read_CONFIG;;
            sheetName <- sheetName_of cfg;;
            use_sheets;;
            effect (ValuesGet (SPREADSHEET_ID cfg) (DATA_RANGE cfg));;
            response_values <- await get;;
            let values := default [] response_values in
            let nextRow := Z.of_nat (length values) + 2 in
            use_sheets;;
            effect (ValuesUpdate
                      (mkUpdate (SPREADSHEET_ID cfg)
                         (row_range sheetName "A" "L" (Some nextRow))
                         "USER_ENTERED" rowData));;
            await update;;
            ErrorHandler.showUserError "Calon pelanggan berhasil ditambahkan!";;
            resetAddCustomerForm;;
            addCustomerFormContainer <- getElementById "add-customer-form-container";;
            when (present addCustomerFormContainer)
              (set_display "add-customer-form-container" "none");;
            safeRefreshData)
         (fun error => ErrorHandler.handleError error "handleAddCustomerSubmit"))
      restore_save_button.

(** ** Global handlers *)

(** [s.includes(p)] *)
Fixpoint includes (p s : string) : bool :=
  String.prefix p s ||
  match s with
  | String _ r => includes p r
  | EmptyString => false
  end.

(** The [error] listener of [window]. *)
Definition onWindowError (event_message : string) : Js unit :=
  if includes "refreshData" event_message && includes "undefined" event_message then
    console LvlWarn
      "Caught refreshData undefined error - this is expected during initialization"
  else ErrorHandler.handleError (mkError event_message) "Global Error".

(** The [unhandledrejection] listener of [window]; [reason] is the rejection
    reason as [new Error] renders it. *)
Definition onUnhandledRejection (reason : string) : Js unit :=
  ErrorHandler.handleError (mkError reason) "Unhandled Promise Rejection".

(** The [googleSheetsIntegrationReady] listener of [document]. *)
Definition onIntegrationReady : Js unit :=
  console LvlLog "googleSheetsIntegration is now ready";;
  safeRefreshData.

(** The second [DOMContentLoaded] listener. *)
Definition initializeGoogleSheetsIntegration : Js unit :=
  gsi <- gets googleSheetsIntegration;;
  match gsi with
  | Dashboard _ isInitialized =>
      console LvlLog "googleSheetsIntegration loaded successfully";;
      when isInitialized safeRefreshData
  | _ =>
      console LvlLog "Waiting for googleSheetsIntegration to load...";;
      setTimeout CbInitializeGoogleSheetsIntegration 1000
  end.

(** The third [DOMContentLoaded] listener: once the dashboard object has a
    [refreshData], it is replaced by a wrapper that refills the sales
    drop-downs after each refresh. *)
Definition setupRefreshDataOverride : Js unit :=
  gsi <- gets googleSheetsIntegration;;
  match gsi with
  | Dashboard true _ => effect RefreshDataWrapped
  | _ => setTimeout CbSetupRefreshDataOverride 100
  end.

(** ** The event loop *)

Inductive Event :=
  | EvGapiLoaded
  | EvInitializeGapiClient (init : Outcome unit)
  | EvGisLoaded
  | EvCredentialResponse (credential : option string)
  | EvSignoutClick
  | EvDOMContentLoaded
  | EvDashboardInitRejected (error : JsError)
  | EvEditSubmit (update : Outcome unit)
  | EvDelete (rowIndex : Z) (batch : Outcome unit)
  | EvAddSubmit (entries : list (string * string))
      (get : Outcome (option (list (list string)))) (update : Outcome unit)
  | EvCloseEditModal
  | EvWindowError (event_message : string)
  | EvUnhandledRejection (reason : string)
  | EvIntegrationReady
  | EvTimer (i : nat) (init : Outcome unit).

Definition run_callback (cb : Callback) (init : Outcome unit) : Js unit :=
  match cb with
  | CbInitializeGapiClient => initializeGapiClient init
  | CbSafeRefreshData => safeRefreshData
  | CbInitializeGoogleSheetsIntegration => initializeGoogleSheetsIntegration
  | CbSetupRefreshDataOverride => setupRefreshDataOverride
  end.

(** The [i]-th pending timer expires: it leaves the queue and its callback
    runs. *)
Definition fire_timer (i : nat) (init : Outcome unit) : Js unit :=
  pending <- gets timers;;
  match pending !! i with
  | Some (cb, _) =>
      modify (set_timers (delete i pending));;
      run_callback cb init
  | None => ret tt
  end.

Definition handle (ev : Event) : Js unit :=
  match ev with
  | EvGapiLoaded => gapiLoaded
  | EvInitializeGapiClient init => initializeGapiClient init
  | EvGisLoaded => gisLoaded
  | EvCredentialResponse credential => handleCredentialResponse credential
  | EvSignoutClick => handleSignoutClick
  | EvDOMContentLoaded =>
      onDOMContentLoaded;; initializeGoogleSheetsIntegration;; setupRefreshDataOverride
  | EvDashboardInitRejected error => dashboard_init_rejected error
  | EvEditSubmit update => editForm_submit update
  | EvDelete rowIndex batch => deleteCustomerRow rowIndex batch
  | EvAddSubmit entries get update => handleAddCustomerSubmit entries get update
  | EvCloseEditModal => closeEditModal
  | EvWindowError event_message => onWindowError event_message
  | EvUnhandledRejection reason => onUnhandledRejection reason
  | EvIntegrationReady => onIntegrationReady
  | EvTimer i init => fire_timer i init
  end.

(** What the page, the user and the other scripts may change between two
    handlers: anything but the script's own globals, its pending timers and
    the record of the calls it made.  The remaining listeners of the script
    (form toggles, modal buttons, drop-down filling) are steps of this
    kind: they only write to the page. *)
Record page_step (w w' : World) : Prop := mkPageStep {
  page_gapiInited : gapiInited w' = gapiInited w;
  page_gisLoadedFlag : gisLoadedFlag w' = gisLoadedFlag w;
  page_currentIdToken : currentIdToken w' = currentIdToken w;
  page_attempts : initializationAttempts w' = initializationAttempts w;
  page_timers : timers w' = timers w;
  page_trace : trace w' = trace w
}.

Inductive step : World -> World -> Prop :=
  | step_handle (ev : Event) (w : World) : step w (exec (handle ev) w)
  | step_page (w w' : World) : page_step w w' -> step w w'.

(** The script has just been loaded: globals at their initial values and
    nothing called yet. *)
Record initial (w : World) : Prop := mkInitial {
  init_gapiInited : gapiInited w = false;
  init_gisLoadedFlag : gisLoadedFlag w = false;
  init_currentIdToken : currentIdToken w = None;
  init_attempts : initializationAttempts w = 0;
  init_timers : timers w = [];
  init_trace : trace w = []
}.

Inductive reachable : World -> Prop :=
  | reachable_initial (w : World) : initial w -> reachable w
  | reachable_step (w w' : World) : reachable w -> step w w' -> reachable w'.

(** ** Observations on a world *)

Definition is_render (e : Effect) : bool :=
  match e with RenderButton _ => true | _ => false end.

(** The calls of [renderButton] made so far. *)
Definition renders (w : World) : list Effect := List.filter is_render (trace w).

Definition is_retry (e : Effect) : option Z :=
  match e with
  | SetTimeout CbInitializeGapiClient d => Some d
  | _ => None
  end.

(** The delays of the retries of [initializeGapiClient] scheduled so far. *)
Definition retry_delays (w : World) : list Z := omap is_retry (trace w).

Definition is_remote (e : Effect) : bool :=
  match e with
  | ValuesGet _ _ | ValuesUpdate _ | BatchUpdate _ => true
  | _ => false
  end.

(** The requests sent to the spreadsheet so far.  The spreadsheet is only
    reachable through them: its content is a function of this list. *)
Definition remote_calls (w : World) : list Effect := List.filter is_remote (trace w).

Definition is_setToken (e : Effect) : bool :=
  match e with SetToken _ => true | _ => false end.

Definition token_writes (w : World) : list Effect := List.filter is_setToken (trace w).

(** The [style.display] of an element of the page. *)
Definition display_of (id : string) (w : World) : option string :=
  display <$> document w !! id.

(** ** Running the retries of [initializeGapiClient]

    [run_init outcomes w] calls [initializeGapiClient]; as long as the call
    left a retry pending and an outcome remains, that timer expires and the
    retry runs.  The [k]-th call is resolved by the [k]-th outcome. *)

Definition is_init_timer (t : Callback * Z) : bool :=
  match t with (CbInitializeGapiClient, _) => true | _ => false end.

(** The queue without its first pending retry, if there is one. *)
Fixpoint take_init_timer (pending : list (Callback * Z)) : option (list (Callback * Z)) :=
  match pending with
  | [] => None
  | t :: rest =>
      if is_init_timer t then Some rest
      else cons t <$> take_init_timer rest
  end.

Fixpoint run_init (outcomes : list (Outcome unit)) (w : World) : World :=
  match outcomes with
  | [] => w
  | o :: rest =>
      let w1 := exec (initializeGapiClient o) w in
      match rest, take_init_timer (timers w1) with
      | _ :: _, Some pending => run_init rest (set_timers pending w1)
      | _, _ => w1
      end
  end.

(** Number of times [initializeGapiClient] was entered. *)
Definition init_calls (w : World) : nat :=
  length (List.filter
            (fun e => match e with
                      | Console LvlLog text =>
                          String.eqb text "initializeGapiClient called"
                      | _ => false
                      end) (trace w)).

(** ** Predicates on handlers *)

(** The handler leaves the observation [obs] of the world as it found it. *)
Definition preserves {A B} (obs : World -> B) (m : Js A) : Prop :=
  forall w, obs (exec m w) = obs w.

(** The handler always ends in an exception, or never does. *)
Definition throws {A} (m : Js A) : Prop := forall w, exists e, fst (m w) = Throw e.

Definition returns {A} (m : Js A) : Prop := forall w, exists a, fst (m w) = Normal a.

Definition flags (w : World) : bool * bool := (gapiInited w, gisLoadedFlag w).

(** Flags and rendering calls together. *)
Definition flags_renders (w : World) : (bool * bool) * list Effect :=
  (flags w, renders w).

(** Every rendering call so far was made with both flags set, and the
    flags are still set. *)
Definition render_guarded (w : World) : Prop :=
  renders w <> [] -> gapiInited w = true /\ gisLoadedFlag w = true.

Definition keeps {A} (m : Js A) : Prop :=
  forall w, render_guarded w -> render_guarded (exec m w).

(** ** Failing runs of the initialisation *)

(** The counter, the pending timers, the retries scheduled and the calls
    entered so far. *)
Definition retry_state (w : World) : Z * list (Callback * Z) * list Z * nat :=
  (initializationAttempts w, timers w, retry_delays w, init_calls w).

Definition rejected (o : Outcome unit) : Prop := exists reason, o = Rejected reason.

(** An attempt fails when it ends in the [catch] block, which is where the
    counter of failed attempts is incremented. *)
Definition attempt_fails (init : Outcome unit) (w : World) : Prop :=
  initializationAttempts (exec (initializeGapiClient init) w) =
  initializationAttempts w + 1.

(** Every attempt made by [run_init outcomes w] fails. *)
Fixpoint all_fail (outcomes : list (Outcome unit)) (w : World) : Prop :=
  match outcomes with
  | [] => True
  | o :: rest =>
      attempt_fails o w /\
      let w1 := exec (initializeGapiClient o) w in
      match rest, take_init_timer (timers w1) with
      | _ :: _, Some pending => all_fail rest (set_timers pending w1)
      | _, _ => True
      end
  end.

(** Delays of the retries that [n] failing calls schedule when the counter
    starts at [a]. *)
Fixpoint schedule (n : nat) (a : Z) : list Z :=
  match n with
  | O => []
  | S n' => if a + 1 <? 3 then 2000 * (a + 1) :: schedule n' (a + 1) else []
  end.

(** Calls entered out of [n] available outcomes when the counter starts at [a]. *)
Fixpoint calls_entered (n : nat) (a : Z) : nat :=
  match n with
  | O => O
  | S n' => S (if a + 1 <? 3 then calls_entered n' (a + 1) else O)
  end.

(** ** Conditions on the page and what it shows *)

(** A page that has its three view containers. *)
Definition has_view_containers (w : World) : Prop :=
  is_Some (document w !! "sign-in-container") /\
  is_Some (document w !! "main-content") /\
  is_Some (document w !! "sign-out-button").

(** A page on which the spreadsheet client can be reached. *)
Definition sheets_ready (w : World) : Prop :=
  gapi_defined w = true /\ sheets_defined w = true.

Definition is_disableAutoSelect (e : Effect) : bool :=
  match e with DisableAutoSelect => true | _ => false end.

(** What [errorDisplay] shows. *)
Definition banner (w : World) : option (Html * string) :=
  (fun e => (innerHTML e, display e)) <$> document w !! "errorDisplay".

(** The two messages with which the add-customer handler stops early. *)
Definition early_message (w : World) : string :=
  if gapiInited w && sheets_defined w
  then "Mohon lengkapi semua field yang wajib diisi"
  else "Google API client not initialized. Please try again.".

(** The eight inputs of the edit form, in column order A to H. *)
Definition edit_inputs : list string :=
  ["editOdp"; "editNama"; "editAlamat"; "editTelepon"; "editSales"; "editVisit";
   "editKeterangan"; "editStatus"].

(** The [value] of an input of the page. *)
Definition input_value (id : string) (w : World) : string :=
  default "" (value <$> document w !! id).

(** The world in which the gating check hands over to the view switch. *)
Definition after_render (w : World) : World :=
  set_trace
    (trace w ++
       [Console LvlLog "maybeRenderSignInButton called";
        Console LvlLog "gapiInited and gisLoadedFlag are true, rendering button";
        Console LvlLog "signInButtonContainer found";
        RenderButton "g_id_onload"]) w.

(** ** Sample worlds *)

Definition blank : Element := mkElement "" HtmlStatic "" false [].

Definition field (v : string) : Element := mkElement "" HtmlStatic v false [].

Definition sample_config : Config :=
  mkConfig (Some "api-key") (Some "https://www.googleapis.com/auth/spreadsheets")
    (Some "client-id") (Some "sheet-id") (Some "'Calon Pelanggan'!A2:L").

Definition sample_page : gmap string Element :=
  list_to_map
    [("sign-in-container", blank); ("main-content", blank);
     ("sign-out-button", blank); ("errorDisplay", blank); ("g_id_onload", blank);
     ("saveCustomer", blank);
     ("editRowIndex", field "5"); ("editOdp", field "ODP-1");
     ("editNama", field "Budi"); ("editAlamat", field "Jl. Mawar 1");
     ("editTelepon", field "0812"); ("editSales", field "Sari");
     ("editVisit", field "Visited"); ("editKeterangan", field "-");
     ("editStatus", field "Baru")].

(** The page right after the script is loaded, every library at hand. *)
Definition fresh_world : World :=
  mkWorld false false None 0 (Some sample_config) true true true
    (Dashboard true true) NoToken sample_page ∅ ∅ [] [].

(** The same page once the API client is initialised. *)
Definition ready_world : World := set_gapiInited true fresh_world.

(** A page that lacks the sign-out control. *)
Definition partial_world : World :=
  set_document (delete "sign-out-button" sample_page) fresh_world.

(** A page whose two stores both carry the session flag, as a login page
    might have left them. *)
Definition stored_world : World :=
  set_localStorage {["isLoggedIn" := "true"]}
    (set_sessionStorage {["isLoggedIn" := "true"]} fresh_world).

(** The page after a reload with the session flag stored: the view is the
    signed-in one, and the API client has just been initialised. *)
Definition restored_world : World :=
  exec (handle (EvInitializeGapiClient (Resolved tt)))
    (exec (handle EvDOMContentLoaded) stored_world).

(** A page without [config.js]. *)
Definition unconfigured_world : World :=
  mkWorld false false None 0 None true true true (Dashboard true true)
    NoToken sample_page ∅ ∅ [] [].

Definition failure : Outcome unit := Rejected (mkError "network error").

(** * Further handlers and observations *)

(** ** Relations kept by every handler *)

(** The world a handler leaves is related by [R] to the world it found. *)
Definition relates (R : World -> World -> Prop) {A} (m : Js A) : Prop :=
  forall w, R w (exec m w).

(** Once set, a readiness flag stays set. *)
Definition flags_kept (w w' : World) : Prop :=
  (gapiInited w = true -> gapiInited w' = true) /\
  (gisLoadedFlag w = true -> gisLoadedFlag w' = true).

(** The page has the same elements. *)
Definition same_elements (w w' : World) : Prop :=
  dom (document w') = dom (document w).

(** The two stores away from the session flag, and the page-scoped store
    as a whole. *)
Definition stores_framed (w w' : World) : Prop :=
  delete "isLoggedIn" (sessionStorage w') = delete "isLoggedIn" (sessionStorage w) /\
  (sessionStorage w' !! "isLoggedIn" = sessionStorage w !! "isLoggedIn" \/
   sessionStorage w' !! "isLoggedIn" = Some "true" \/
   sessionStorage w' !! "isLoggedIn" = None) /\
  localStorage w' ⊆ localStorage w.

(** [I] holds after the handler whenever it held before. *)
Definition maintains (I : World -> Prop) (w w' : World) : Prop := I w -> I w'.

(** The failure counter is not negative and every retry scheduled so far
    waits 2000 or 4000 ms. *)
Definition retries_bounded (w : World) : Prop :=
  0 <= initializationAttempts w /\
  Forall (fun d => d = 2000 \/ d = 4000) (retry_delays w).

(** The failure counter does not go down. *)
Definition attempts_grow (w w' : World) : Prop :=
  initializationAttempts w <= initializationAttempts w'.

(** A token handed to the API client is the empty string or carries a
    non-empty credential. *)
Definition good_token_write (e : Effect) : Prop :=
  match e with
  | SetToken (TokenStr s) => s = ""
  | SetToken (TokenObj c) => c <> ""
  | SetToken NoToken => False
  | _ => True
  end.

Definition tokens_well_formed (w : World) : Prop :=
  Forall good_token_write (token_writes w).

(** The spreadsheet client cannot be reached. *)
Definition sheets_blocked (w : World) : Prop :=
  gapi_defined w && sheets_defined w = false.

(** While the client cannot be reached nothing is sent to it, and the
    handler does not make it reachable. *)
Definition sends_nothing (w w' : World) : Prop :=
  sheets_blocked w -> remote_calls w' = remote_calls w /\ sheets_blocked w'.

(** A page on which the spreadsheet client has not been loaded. *)
Definition offline_world : World :=
  mkWorld true true None 0 (Some sample_config) true false true
    (Dashboard true true) NoToken sample_page ∅ ∅ [] [].

(** The row of twelve cells, columns A to L, made from the form. *)
Definition customer_row (customerData : gmap string string) : list string :=
  [or_else (customerData !! "odp_terdekat") "";
   or_else (customerData !! "nama") "";
   or_else (customerData !! "alamat") "";
   or_else (customerData !! "no_telepon") "";
   or_else (customerData !! "nama_sales") "";
   or_else (customerData !! "visit") "Not Visited";
   or_else (customerData !! "keterangan") "";
   or_else (customerData !! "status") "Baru";
   or_else (customerData !! "email") "";
   or_else (customerData !! "kelurahan") "";
   or_else (customerData !! "tanggal_visit") "";
   or_else (customerData !! "priority") "Normal"].

(** The API client is initialised and the spreadsheet client reachable. *)
Definition client_ready (w : World) : Prop :=
  gapiInited w = true /\ gapi_defined w = true /\ sheets_defined w = true.

(** A complete add-customer form. *)
Definition sample_entries : list (string * string) :=
  [("nama", "Budi"); ("no_telepon", "0812"); ("alamat", "Jl. Mawar 1");
   ("odp_terdekat", "ODP-1"); ("nama_sales", "Sari")].

(** A page with every library and a complete configuration. *)
Definition fully_loaded (w : World) (cfg : Config) : Prop :=
  CONFIG w = Some cfg /\
  truthy (API_KEY cfg) = true /\ truthy (SCOPES cfg) = true /\
  truthy (CLIENT_ID cfg) = true /\
  gapi_defined w = true /\ google_defined w = true /\
  is_Some (document w !! "g_id_onload").

(** The calls of [google.accounts.id.initialize] made so far. *)
Definition gis_initializations (w : World) : list Effect :=
  List.filter (fun e => match e with GisInitialize _ => true | _ => false end) (trace w).

(** A configuration without a client id. *)
Definition anonymous_config : Config :=
  mkConfig (Some "api-key") (Some "scope") None (Some "sheet-id") (Some "Sheet1!A2:L").

Definition anonymous_world : World :=
  mkWorld false false None 0 (Some anonymous_config) true true true
    (Dashboard true true) NoToken sample_page ∅ ∅ [] [].

(** A page on which the dashboard script has not run. *)
Definition bare_world : World :=
  mkWorld false false None 0 (Some sample_config) true true true
    Undeclared NoToken sample_page ∅ ∅ [] [].

(** ** The worlds the building blocks leave *)

(** One more call in the trace. *)
Definition emit (e : Effect) (w : World) : World := set_trace (trace w ++ [e]) w.

(** The banner carries [text], when the page has a place for it. *)
Definition alerted (text : string) (w : World) : World :=
  if present (document w !! "errorDisplay") then
    set_document
      (alter (with_display "block") "errorDisplay"
         (alter (with_innerHTML (HtmlAlert text)) "errorDisplay" (document w))) w
  else w.

(** What [ErrorHandler.handleError] leaves. *)
Definition reported (error : JsError) (context : string) (w : World) : World :=
  alerted ("Terjadi kesalahan: " +:+ message error)
    (emit (Console LvlError ("Error in " +:+ context +:+ ": " +:+ message error)) w).

(** The three view containers with the given [display] values. *)
Definition show_view (login main out : string) (w : World) : World :=
  set_document
    (alter (with_display out) "sign-out-button"
       (alter (with_display main) "main-content"
          (alter (with_display login) "sign-in-container" (document w)))) w.

(** What the signed-out view switch leaves on a page that has its
    containers, with [gapi] loaded. *)
Definition signed_out_view (w : World) : World :=
  emit (Console LvlInfo "GAPI client token cleared.")
    (set_token (TokenStr "")
       (emit (SetToken (TokenStr ""))
          (show_view "block" "none" "none"
             (emit (Console LvlInfo "Updating sign-in status: false") w)))).

(** The dashboard object is asked to initialise, when there is one. *)
Definition dashboard_started (w : World) : World :=
  match googleSheetsIntegration w with
  | Dashboard _ _ => emit DashboardInit w
  | _ => w
  end.

(** What the signed-in view switch leaves when no credential is held. *)
Definition restored_view (w : World) : World :=
  let w1 :=
    dashboard_started
      (show_view "none" "block" "block"
         (emit (Console LvlInfo "Updating sign-in status: true") w)) in
  set_sessionStorage (<["isLoggedIn" := "true"]> (sessionStorage w1)) w1.

(** The page is complete enough for the page-load handler to go on. *)
Definition page_complete (w : World) : Prop :=
  has_view_containers w /\ is_Some (document w !! "errorDisplay").

(** What the signed-in view switch leaves up to the point where it looks
    for the dashboard object, when the credential [c] is held. *)
Definition credential_view (c : string) (w : World) : World :=
  emit (Console LvlInfo "GAPI client token set.")
    (set_token (TokenObj c)
       (emit (SetToken (TokenObj c))
          (show_view "none" "block" "block"
             (emit (Console LvlInfo "Updating sign-in status: true") w)))).

(** The delay with which each polling callback re-arms itself. *)
Definition poll_delay (cb : Callback) : Z :=
  match cb with
  | CbSafeRefreshData => 500
  | CbInitializeGoogleSheetsIntegration => 1000
  | CbSetupRefreshDataOverride => 100
  | CbInitializeGapiClient => 0
  end.

(** The polling callback [cb] does not find what it waits for. *)
Definition still_waiting (cb : Callback) (gsi : Integration) : bool :=
  match cb, gsi with
  | CbSafeRefreshData, Dashboard true _ => false
  | CbSafeRefreshData, _ => true
  | CbInitializeGoogleSheetsIntegration, Dashboard _ _ => false
  | CbInitializeGoogleSheetsIntegration, _ => true
  | CbSetupRefreshDataOverride, Dashboard true _ => false
  | CbSetupRefreshDataOverride, _ => true
  | CbInitializeGapiClient, _ => false
  end.

(** A page whose dashboard script never arrives, with one refresh pending. *)
Definition waiting_world : World :=
  mkWorld false false None 0 (Some sample_config) true true true
    Undeclared NoToken sample_page ∅ ∅ [(CbSafeRefreshData, 500)] [].

(** The calls of the dashboard's [refreshData] made so far. *)
Definition refreshes (w : World) : list Effect :=
  List.filter (fun e => match e with RefreshData => true | _ => false end) (trace w).

(** [p] occurs in [s]. *)
Definition occurs_in (p s : string) : Prop :=
  exists a b : string, s = a +:+ p +:+ b.

(** The dashboard object can refresh the table. *)
Definition can_refresh (gsi : Integration) : bool :=
  match gsi with
  | Dashboard true _ => true
  | _ => false
  end.

(** What [safeRefreshData] leaves: the refresh is asked for, or postponed. *)
Definition refreshed (w : World) : World :=
  if can_refresh (googleSheetsIntegration w) then emit RefreshData w
  else
    set_timers (timers w ++ [(CbSafeRefreshData, 500)])
      (emit (SetTimeout CbSafeRefreshData 500)
         (emit (Console LvlWarn "googleSheetsIntegration not ready, retrying...") w)).

(** What [closeEditModal] leaves on a page that has the modal. *)
Definition closed_modal (w : World) : World :=
  let w1 :=
    set_document
      (alter (classList_remove "show") "editModal"
         (alter (with_display "none") "editModal" (document w))) w in
  let w2 :=
    if present (document w !! "editForm") then emit (FormReset "editForm") w1 else w1 in
  if present (document w !! "errorDisplay")
  then set_document (alter (with_display "none") "errorDisplay" (document w2)) w2
  else w2.

(** The sample page with the edit modal open and an error on display. *)
Definition modal_world : World :=
  set_document
    (<["editModal" := mkElement "block" HtmlStatic "" false ["modal"; "show"]]>
       (<["errorDisplay" := mkElement "block" (HtmlAlert "Gagal") "" false []]> sample_page))
    fresh_world.

(** ** The key listener *)

(** [el && el.classList.contains(c)] *)
Definition has_class (c : string) (el : option Element) : bool :=
  match el with
  | Some e => bool_decide (c ∈ classList e)
  | None => false
  end.

(** The [keydown] listener of [window]; [key] is [event.key].  The two
    elements are looked up first; their class lists are read when the tests
    are made, through the references. *)
Definition onKeydown (key : string) : Js unit :=
  when (bool_decide (key = "Escape"))
    (editModal <- getElementById "editModal";;
     addSalesModal <- getElementById "addSalesModal";;
     shown <- gets (fun w => present editModal && has_class "show" (document w !! "editModal"));;
     when shown closeEditModal;;
     shown <- gets (fun w =>
                present addSalesModal && has_class "show" (document w !! "addSalesModal"));;
     when shown (update_element "addSalesModal" (classList_remove "show"))).

(** No modal of the page carries the [show] class. *)
Definition no_modal_shown (w : World) : Prop :=
  has_class "show" (document w !! "editModal") = false /\
  has_class "show" (document w !! "addSalesModal") = false.

(** The same with the edit form on the page. *)
Definition edit_page_world : World :=
  set_document (<["editForm" := blank]> (document modal_world)) modal_world.

(** The sample page with both modals open. *)
Definition two_modals_world : World :=
  set_document
    (<["addSalesModal" := mkElement "" HtmlStatic "" false ["modal"; "show"]]>
       (document modal_world))
    modal_world.

(** What the listener leaves after [Escape]. *)
Definition escaped (w : World) : World :=
  let w1 := if has_class "show" (document w !! "editModal") then closed_modal w else w in
  if has_class "show" (document w1 !! "addSalesModal")
  then set_document (alter (classList_remove "show") "addSalesModal" (document w1)) w1
  else w1.

(** * Reasoning about handlers *)

(** Unfolding databases: [js] opens the monad and the primitive operations,
    [js_prim] the primitive operations only, [js_handlers] the handlers of
    the script and [js_obs] the observations. *)
Create HintDb js discriminated.
Create HintDb js_prim discriminated.
Create HintDb js_handlers discriminated.
Create HintDb js_obs discriminated.

#[global] Hint Unfold exec bind try_catch try_finally gets modify ret throw when
  effect console getElementById update_element set_display value_of read_CONFIG
  use_gapi use_sheets use_google gapi_client_setToken setTimeout await renderButton
  ErrorHandler.log ErrorHandler.showUserError ErrorHandler.handleError
  sheetName_of initializeUIComponents restore_save_button : js.

#[global] Hint Unfold effect console getElementById update_element set_display
  value_of read_CONFIG use_gapi use_sheets use_google gapi_client_setToken
  setTimeout await ErrorHandler.log ErrorHandler.showUserError
  ErrorHandler.handleError sheetName_of initializeUIComponents
  restore_save_button : js_prim.

#[global] Hint Unfold updateSigninStatus dashboard_init_rejected maybeRenderSignInButton
  gapiLoaded initializeGapiClient gisLoaded handleCredentialResponse
  handleSignoutClick safeRefreshData closeEditModal onDOMContentLoaded
  editForm_submit deleteCustomerRow resetAddCustomerForm handleAddCustomerSubmit
  onWindowError onUnhandledRejection onIntegrationReady
  initializeGoogleSheetsIntegration setupRefreshDataOverride : js_handlers.

#[global] Hint Unfold renders retry_delays remote_calls token_writes init_calls
  display_of flags flags_renders retry_state : js_obs.

(** Symbolic evaluation that leaves maps, strings and numerals alone. *)
Ltac js_simpl :=
  cbn -[lookup alter insert delete truthy show_Z show_num parseInt String.append
        Z.add Z.mul Z.sub Z.ltb].

Ltac js_unfold := autounfold with js; js_simpl.

(** The same in the hypotheses too. *)
Ltac js_simpl_all :=
  cbn -[lookup alter insert delete truthy show_Z show_num parseInt String.append
        Z.add Z.mul Z.sub Z.ltb] in *.

(** Uses a hypothesis that settles a test the goal is stuck on. *)
Ltac js_rewrite :=
  match goal with
  | H : ?l = _ |- context [?l] => rewrite H
  end.

(** Runs a handler along the one path the hypotheses select. *)
Ltac js_run :=
  autounfold with js_handlers; autounfold with js; js_simpl;
  repeat (js_rewrite; js_simpl).

(** Pushes an observation of the trace through the effects appended to it. *)
Ltac trace_simpl :=
  repeat (first [ rewrite List.filter_app | rewrite omap_app | rewrite length_app ];
          js_simpl);
  repeat rewrite app_nil_r;
  repeat rewrite <- app_assoc;
  js_simpl.

Lemma try_catch_bind_normal {A C} (m : Js A) (k : A -> Js C) (h : JsError -> Js C)
    (w w1 : World) (a : A) :
  m w = (Normal a, w1) -> try_catch (bind m k) h w = try_catch (k a) h w1.
Proof. intros Hm. unfold try_catch, bind. rewrite Hm. reflexivity. Qed.

(** Runs the first statement of a [try] block when the hypotheses decide
    that it completes normally. *)
Ltac js_step :=
  erewrite try_catch_bind_normal
    by (autounfold with js; js_simpl; repeat (js_rewrite; js_simpl); reflexivity);
  cbv beta zeta.

(** Runs a handler along every path. *)
Ltac js_cases :=
  autounfold with js_handlers; autounfold with js; js_simpl;
  repeat (first [ js_rewrite | case_match ]; js_simpl_all; simplify_eq).

(** ** Handlers that leave an observation alone *)

Section Preserves.
Context {B : Type} (obs : World -> B).

Lemma preserves_ret {A} (a : A) : preserves obs (ret a).
Proof. intros w. reflexivity. Qed.

Lemma preserves_throw {A} (e : JsError) : preserves obs (@throw A e).
Proof. intros w. reflexivity. Qed.

Lemma preserves_gets {A} (f : World -> A) : preserves obs (gets f).
Proof. intros w. reflexivity. Qed.

Lemma preserves_modify (f : World -> World) :
  (forall w, obs (f w) = obs w) -> preserves obs (modify f).
Proof. intros Hf w. apply Hf. Qed.

Lemma preserves_bind {A C} (m : Js A) (k : A -> Js C) :
  preserves obs m -> (forall a, preserves obs (k a)) -> preserves obs (bind m k).
Proof.
  intros Hm Hk w. specialize (Hm w). unfold exec, bind in *.
  destruct (m w) as [[a|e] w1]; simpl in *.
  - rewrite <- Hm. apply (Hk a w1).
  - exact Hm.
Qed.

Lemma preserves_try_catch {A} (m : Js A) (h : JsError -> Js A) :
  preserves obs m -> (forall e, preserves obs (h e)) -> preserves obs (try_catch m h).
Proof.
  intros Hm Hh w. specialize (Hm w). unfold exec, try_catch in *.
  destruct (m w) as [[a|e] w1]; simpl in *.
  - exact Hm.
  - rewrite <- Hm. apply (Hh e w1).
Qed.

Lemma preserves_try_finally {A} (m : Js A) (f : Js unit) :
  preserves obs m -> preserves obs f -> preserves obs (try_finally m f).
Proof.
  intros Hm Hf w. specialize (Hm w). specialize (Hf (snd (m w))).
  unfold exec, try_finally in *.
  destruct (m w) as [r w1]; simpl in *.
  destruct (f w1) as [[u|e] w2]; simpl in *; congruence.
Qed.

Lemma preserves_when (b : bool) (m : Js unit) :
  preserves obs m -> preserves obs (when b m).
Proof. intros Hm. destruct b; [exact Hm | apply preserves_ret]. Qed.

End Preserves.

Ltac preserves_leaf :=
  intros ?; autounfold with js_obs; js_simpl;
  rewrite ?List.filter_app, ?omap_app; js_simpl; rewrite ?app_nil_r;
  reflexivity.

Ltac preserves_step :=
  first
    [ assumption
    | apply preserves_ret
    | apply preserves_throw
    | apply preserves_gets
    | apply preserves_bind; [| intros ?]
    | apply preserves_try_catch; [| intros ?]
    | apply preserves_try_finally
    | apply preserves_when
    | apply preserves_modify; preserves_leaf
    | progress autounfold with js_prim
    | case_match ].

Ltac solve_preserves := repeat preserves_step.

(** ** [renderButton] is only reached with both flags set *)

(** Tries the structural rules first and opens a handler only when none
    applies. *)
Ltac solve_preserves_deep :=
  repeat first [ preserves_step | progress autounfold with js_handlers ].

Lemma keeps_preserves {A} (m : Js A) : preserves flags_renders m -> keeps m.
Proof.
  intros Hm w Hw Hr. specialize (Hm w). unfold flags_renders, flags in Hm.
  injection Hm as Hi Hg Hrs. rewrite Hi, Hg. apply Hw. rewrite <- Hrs. exact Hr.
Qed.

Lemma keeps_bind {A C} (m : Js A) (k : A -> Js C) :
  keeps m -> (forall a, keeps (k a)) -> keeps (bind m k).
Proof.
  intros Hm Hk w Hw. specialize (Hm w Hw). unfold exec, bind in *.
  destruct (m w) as [[a|e] w1]; simpl in *.
  - apply (Hk a w1 Hm).
  - exact Hm.
Qed.

Lemma keeps_try_catch {A} (m : Js A) (h : JsError -> Js A) :
  keeps m -> (forall e, keeps (h e)) -> keeps (try_catch m h).
Proof.
  intros Hm Hh w Hw. specialize (Hm w Hw). unfold exec, try_catch in *.
  destruct (m w) as [[a|e] w1]; simpl in *.
  - exact Hm.
  - apply (Hh e w1 Hm).
Qed.

Lemma keeps_set_gapiInited : keeps (modify (set_gapiInited true)).
Proof. intros w Hw Hr. destruct (Hw Hr) as [_ Hg]. split; [reflexivity | exact Hg]. Qed.

Lemma keeps_set_gisLoadedFlag : keeps (modify (set_gisLoadedFlag true)).
Proof. intros w Hw Hr. destruct (Hw Hr) as [Hi _]. split; [exact Hi | reflexivity]. Qed.

(** A branch taken under [gapiInited && gisLoadedFlag] may render, as long
    as it never writes a flag: the flags it tested still hold when it ends. *)
Lemma keeps_flag_guard (m1 m2 : Js unit) :
  preserves flags m1 -> keeps m2 ->
  keeps (inited <- gets gapiInited;;
         gis <- gets gisLoadedFlag;;
         if inited && gis then m1 else m2).
Proof.
  intros H1 H2 w Hw.
  change (render_guarded
            (exec (if gapiInited w && gisLoadedFlag w then m1 else m2) w)).
  destruct (gapiInited w) eqn:Hi, (gisLoadedFlag w) eqn:Hg; cbn [andb];
    try (apply H2, Hw).
  intros _. specialize (H1 w). unfold flags in H1.
  injection H1 as Hi' Hg'. split; congruence.
Qed.

(** The one place that renders. *)
Lemma keeps_maybeRenderSignInButton : keeps maybeRenderSignInButton.
Proof.
  unfold maybeRenderSignInButton.
  apply keeps_bind; [apply keeps_preserves; solve_preserves | intros _].
  apply keeps_try_catch;
    [| intros e; apply keeps_preserves; solve_preserves ].
  apply keeps_flag_guard.
  - solve_preserves_deep.
  - apply keeps_preserves; solve_preserves.
Qed.

Ltac keeps_step :=
  first
    [ apply keeps_maybeRenderSignInButton
    | apply keeps_set_gapiInited
    | apply keeps_set_gisLoadedFlag
    | apply keeps_preserves; solve [solve_preserves_deep]
    | apply keeps_bind; [| intros ?]
    | apply keeps_try_catch; [| intros ?]
    | case_match ].

Lemma keeps_initializeGapiClient init : keeps (initializeGapiClient init).
Proof. unfold initializeGapiClient. repeat keeps_step. Qed.

Lemma keeps_gisLoaded : keeps gisLoaded.
Proof. unfold gisLoaded. repeat keeps_step. Qed.

Lemma keeps_fire_timer i init : keeps (fire_timer i init).
Proof.
  unfold fire_timer. apply keeps_bind; [apply keeps_preserves; solve_preserves | intros pending].
  destruct (pending !! i) as [[cb d]|]; [| apply keeps_preserves; solve_preserves].
  apply keeps_bind; [apply keeps_preserves; solve_preserves | intros _].
  destruct cb; cbn [run_callback].
  - apply keeps_initializeGapiClient.
  - apply keeps_preserves; solve_preserves_deep.
  - apply keeps_preserves; solve_preserves_deep.
  - apply keeps_preserves; solve_preserves_deep.
Qed.

Lemma keeps_handle ev : keeps (handle ev).
Proof.
  destruct ev; cbn [handle].
  - apply keeps_preserves; solve_preserves_deep.
  - apply keeps_initializeGapiClient.
  - apply keeps_gisLoaded.
  - apply keeps_preserves; solve_preserves_deep.
  - apply keeps_preserves; solve_preserves_deep.
  - apply keeps_preserves; solve_preserves_deep.
  - apply keeps_preserves; solve_preserves_deep.
  - apply keeps_preserves; solve_preserves_deep.
  - apply keeps_preserves; solve_preserves_deep.
  - apply keeps_preserves; solve_preserves_deep.
  - apply keeps_preserves; solve_preserves_deep.
  - apply keeps_preserves; solve_preserves_deep.
  - apply keeps_preserves; solve_preserves_deep.
  - apply keeps_preserves; solve_preserves_deep.
  - apply keeps_fire_timer.
Qed.

Lemma step_render_guarded w w' : step w w' -> render_guarded w -> render_guarded w'.
Proof.
  intros [ev w0 | w0 w1 Hp] Hw.
  - apply keeps_handle, Hw.
  - destruct Hp as [Hi Hg _ _ _ Ht]. intros Hr. rewrite Hi, Hg. apply Hw.
    unfold renders in *. rewrite <- Ht. exact Hr.
Qed.

Lemma reachable_render_guarded w : reachable w -> render_guarded w.
Proof.
  induction 1 as [w Hi | w w' _ IH Hs].
  - intros Hr. destruct Hi as [_ _ _ _ _ Ht]. unfold renders in Hr.
    rewrite Ht in Hr. done.
  - eapply step_render_guarded; eassumption.
Qed.

Lemma fresh_world_initial : initial fresh_world.
Proof. constructor; reflexivity. Qed.

(** * Initialisation sequencing *)

(** [C9] In every reachable state in which the two readiness flags are not
    both true, [renderButton] has never been called. *)
Theorem render_only_when_both_ready (w : World) :
  reachable w ->
  gapiInited w && gisLoadedFlag w = false ->
  renders w = [].
Proof.
  intros Hr Hf. pose proof (reachable_render_guarded w Hr) as Hg.
  destruct (renders w) as [|r rs] eqn:E; [reflexivity | exfalso].
  destruct Hg as [Hi Hl]; [rewrite E; discriminate |].
  rewrite Hi, Hl in Hf. discriminate.
Qed.

Lemma render_only_when_both_ready_witness :
  renders (exec (handle EvGisLoaded) fresh_world) = [].
Proof.
  apply (render_only_when_both_ready (exec (handle EvGisLoaded) fresh_world)).
  - eapply reachable_step.
    + apply reachable_initial, fresh_world_initial.
    + apply step_handle.
  - vm_compute. reflexivity.
Defined.

(** ** Retries of [initializeGapiClient] *)

Lemma throws_bind_l {A C} (m : Js A) (k : A -> Js C) : throws m -> throws (bind m k).
Proof.
  intros Hm w. destruct (Hm w) as [e He]. exists e. unfold bind.
  destruct (m w) as [[a|e'] w1]; simpl in *; congruence.
Qed.

Lemma throws_bind_r {A C} (m : Js A) (k : A -> Js C) :
  (forall a, throws (k a)) -> throws (bind m k).
Proof.
  intros Hk w. unfold bind. destruct (m w) as [[a|e] w1].
  - apply Hk.
  - exists e. reflexivity.
Qed.

Lemma exec_bind_returns (m : Js unit) {C} (k : unit -> Js C) (w : World) :
  returns m -> exec (bind m k) w = exec (k tt) (exec m w).
Proof.
  intros Hm. destruct (Hm w) as [a Ha]. unfold exec, bind.
  destruct (m w) as [[[]|e] w1]; simpl in *; [reflexivity | discriminate].
Qed.

Lemma exec_try_catch_throws {A} (m : Js A) (h : JsError -> Js A) (w : World) :
  throws m -> exists e, exec (try_catch m h) w = exec (h e) (exec m w).
Proof.
  intros Hm. destruct (Hm w) as [e He]. exists e. unfold exec, try_catch.
  destruct (m w) as [[a|e'] w1]; simpl in *; congruence.
Qed.

Lemma returns_console level text : returns (console level text).
Proof. intros w. exists tt. reflexivity. Qed.

Lemma returns_handleError error context :
  returns (ErrorHandler.handleError error context).
Proof.
  intros w. exists tt. js_unfold.
  destruct (document w !! "errorDisplay"); reflexivity.
Qed.

(** Observation of the retry state right after the first console line. *)
Lemma retry_state_entered (w : World) :
  retry_state (exec (console LvlLog "initializeGapiClient called") w) =
  (initializationAttempts w, timers w, retry_delays w, S (init_calls w)).
Proof.
  unfold retry_state, retry_delays, init_calls. js_unfold.
  rewrite omap_app, List.filter_app, length_app. js_simpl.
  rewrite app_nil_r, Nat.add_1_r. reflexivity.
Qed.

(** When [gapi.client.init] is rejected the [try] block ends in the [catch]
    block: the attempt fails. *)
Lemma rejected_attempt_fails (reason : JsError) (w : World) :
  attempt_fails (Rejected reason) w.
Proof.
  unfold attempt_fails, initializeGapiClient.
  rewrite exec_bind_returns by apply returns_console.
  pose proof (retry_state_entered w) as H0.
  set (w0 := exec (console LvlLog "initializeGapiClient called") w) in *.
  match goal with
  | |- context [exec (try_catch ?body ?h) w0] =>
      assert (Hthrows : throws body);
      [| assert (Hbody : preserves retry_state body) by solve_preserves_deep;
         destruct (exec_try_catch_throws body h w0 Hthrows) as [e ->];
         specialize (Hbody w0); set (w1 := exec body w0) in * ]
  end.
  { do 5 (apply throws_bind_r; intros ?). apply throws_bind_l.
    intros w'. exists reason. reflexivity. }
  rewrite exec_bind_returns by apply returns_handleError.
  assert (Hh : preserves retry_state (ErrorHandler.handleError e "initializeGapiClient"))
    by solve_preserves.
  specialize (Hh w1). rewrite Hbody, H0 in Hh. unfold retry_state in Hh.
  injection Hh as Ha _ _ _.
  set (w2 := exec (ErrorHandler.handleError e "initializeGapiClient") w1) in *.
  js_unfold. rewrite Ha. unfold MAX_INITIALIZATION_ATTEMPTS.
  destruct (initializationAttempts w + 1 <? 3); js_simpl; rewrite ?Ha; reflexivity.
Qed.

Lemma exec_try_catch_normal {A} (m : Js A) (h : JsError -> Js A) (w w1 : World) (a : A) :
  m w = (Normal a, w1) -> exec (try_catch m h) w = w1.
Proof. intros Hm. unfold exec, try_catch. rewrite Hm. reflexivity. Qed.

Lemma exec_try_catch_throw {A} (m : Js A) (h : JsError -> Js A) (w w1 : World)
    (e : JsError) :
  m w = (Throw e, w1) -> exec (try_catch m h) w = exec (h e) w1.
Proof. intros Hm. unfold exec, try_catch. rewrite Hm. reflexivity. Qed.

(** A failed attempt, whatever made it fail (no configuration, no [gapi],
    a rejected [init]), counts once and schedules a retry while the counter
    is below the cap. *)
Lemma initializeGapiClient_failed (init : Outcome unit) (w : World) :
  attempt_fails init w ->
  let w1 := exec (initializeGapiClient init) w in
  let a := initializationAttempts w + 1 in
  timers w1 =
    timers w ++ (if a <? 3 then [(CbInitializeGapiClient, 2000 * a)] else []) /\
  retry_delays w1 = retry_delays w ++ (if a <? 3 then [2000 * a] else []) /\
  init_calls w1 = S (init_calls w).
Proof.
  unfold attempt_fails. cbv zeta. unfold initializeGapiClient.
  rewrite exec_bind_returns by apply returns_console.
  pose proof (retry_state_entered w) as H0.
  set (w0 := exec (console LvlLog "initializeGapiClient called") w) in *.
  match goal with
  | |- context [exec (try_catch ?body ?h) w0] =>
      assert (Hbody : preserves retry_state body) by solve_preserves_deep;
      specialize (Hbody w0); unfold exec in Hbody;
      destruct (body w0) as [[[]|e] wb] eqn:Hrun; cbn [snd] in Hbody;
      [ rewrite (exec_try_catch_normal body h w0 wb tt Hrun)
      | rewrite (exec_try_catch_throw body h w0 wb e Hrun) ]
  end.
  - rewrite H0 in Hbody. unfold retry_state in Hbody. injection Hbody as Ha _ _ _.
    intros Hf. lia.
  - intros _.
    rewrite exec_bind_returns by apply returns_handleError.
    assert (Hh : preserves retry_state (ErrorHandler.handleError e "initializeGapiClient"))
      by solve_preserves.
    specialize (Hh wb).
    set (w2 := exec (ErrorHandler.handleError e "initializeGapiClient") wb) in *.
    rewrite Hbody, H0 in Hh. unfold retry_state in Hh.
    injection Hh as Ha Ht Hd Hc.
    js_unfold. rewrite Ha. unfold MAX_INITIALIZATION_ATTEMPTS.
    destruct (initializationAttempts w + 1 <? 3); js_simpl;
      unfold retry_delays, init_calls in *; js_simpl;
      rewrite ?omap_app, ?List.filter_app, ?length_app; js_simpl;
      rewrite ?app_nil_r, ?Nat.add_0_r; rewrite ?Ht, ?Hd, ?Hc; auto.
Qed.

Lemma rejected_all_fail (outcomes : list (Outcome unit)) :
  Forall rejected outcomes -> forall w, all_fail outcomes w.
Proof.
  induction 1 as [|o rest [reason ->] _ IH]; intros w; cbn [all_fail]; [exact I |].
  split; [apply rejected_attempt_fails |].
  destruct rest; [exact I |].
  destruct (take_init_timer _); [apply IH | exact I].
Qed.

Lemma take_init_timer_snoc (pending : list (Callback * Z)) (d : Z) :
  take_init_timer pending = None ->
  take_init_timer (pending ++ [(CbInitializeGapiClient, d)]) = Some pending.
Proof.
  induction pending as [|t rest IH]; intros H; [reflexivity |].
  cbn in *. destruct (is_init_timer t); [discriminate |].
  destruct (take_init_timer rest); [discriminate |].
  rewrite IH by reflexivity. reflexivity.
Qed.

Lemma run_init_failing (outcomes : list (Outcome unit)) :
  forall w,
    all_fail outcomes w ->
    take_init_timer (timers w) = None ->
    let w' := run_init outcomes w in
    retry_delays w' =
      retry_delays w ++ schedule (length outcomes) (initializationAttempts w) /\
    init_calls w' =
      (init_calls w + calls_entered (length outcomes) (initializationAttempts w))%nat.
Proof.
  induction outcomes as [|o rest IH]; intros w Hall Hnone; cbv zeta.
  - cbn. rewrite app_nil_r, Nat.add_0_r. auto.
  - cbn [all_fail] in Hall. destruct Hall as [Hfail Hrest].
    destruct (initializeGapiClient_failed o w Hfail) as (Ht & Hd & Hc).
    unfold attempt_fails in Hfail. cbv zeta in Hrest.
    cbn [run_init length schedule calls_entered].
    set (w1 := exec (initializeGapiClient o) w) in *.
    destruct (initializationAttempts w + 1 <? 3) eqn:Hlt.
    + rewrite Ht, (take_init_timer_snoc _ _ Hnone) in *.
      destruct rest as [|o' rest'].
      * cbn. rewrite Hd, Hc. split; [reflexivity | lia].
      * specialize (IH (set_timers (timers w) w1) Hrest Hnone).
        cbv zeta in IH. destruct IH as [IHd IHc].
        rewrite IHd, IHc.
        change (retry_delays (set_timers (timers w) w1)) with (retry_delays w1).
        change (init_calls (set_timers (timers w) w1)) with (init_calls w1).
        change (initializationAttempts (set_timers (timers w) w1))
          with (initializationAttempts w1).
        rewrite Hd, Hc, Hfail, <- app_assoc. split; [reflexivity | lia].
    + rewrite Ht, app_nil_r, Hnone.
      assert (Hw : (match rest with
                    | [] => w1
                    | _ :: _ => w1
                    end) = w1) by (destruct rest; reflexivity).
      rewrite Hw, Hd, Hc. split; [reflexivity | lia].
Qed.

(** [C1] (amended) When initialisation fails on every attempt, the script
    makes at most three attempts in all: out of [n] failing attempts it
    schedules [min n 2] retries, the [k]-th after [2000 * k] ms (2000 and
    4000 ms), and the third failure schedules nothing. *)
Theorem init_retry_schedule (outcomes : list (Outcome unit)) (w : World) :
  initial w ->
  all_fail outcomes w ->
  let w' := run_init outcomes w in
  let n := length outcomes in
  retry_delays w' = (fun k => 2000 * Z.of_nat k) <$> seq 1 (min n 2) /\
  init_calls w' = min n 3.
Proof.
  intros [_ _ _ Ha Ht Htr] Hall. cbv zeta.
  destruct (run_init_failing outcomes w Hall) as [Hd Hc].
  { rewrite Ht. reflexivity. }
  rewrite Hd, Hc, Ha. unfold retry_delays, init_calls. rewrite Htr.
  destruct (length outcomes) as [|[|[|[|n]]]]; split; reflexivity.
Qed.

Lemma init_retry_schedule_witness :
  let w' := run_init [failure; failure; failure; failure] fresh_world in
  retry_delays w' = [2000; 4000] /\ init_calls w' = 3%nat.
Proof.
  apply (init_retry_schedule [failure; failure; failure; failure] fresh_world).
  - apply fresh_world_initial.
  - apply rejected_all_fail. repeat constructor; eexists; reflexivity.
Defined.

(** A page without [config.js]: every attempt fails before [gapi] is
    called, and is retried on the same schedule. *)
Example init_retry_without_config :
  let w := unconfigured_world in
  let w' := run_init [Resolved tt; Resolved tt; Resolved tt; Resolved tt] w in
  all_fail [Resolved tt; Resolved tt; Resolved tt; Resolved tt] w /\
  retry_delays w' = [2000; 4000] /\ init_calls w' = 3%nat.
Proof. vm_compute. repeat split. Qed.

(** [C1] as stated fails where the cap is reached: after three failed
    attempts the counter is 3, yet only two retries were scheduled and no
    delay of 6000 ms occurs. *)
Lemma init_retry_three_counterexample :
  let w' := run_init [failure; failure; failure] fresh_world in
  all_fail [failure; failure; failure] fresh_world /\
  initializationAttempts w' = 3 /\
  retry_delays w' = [2000; 4000] /\
  length (retry_delays w') <> Z.to_nat (Z.min (initializationAttempts w') 3) /\
  retry_delays w' <> [2000; 4000; 6000].
Proof. vm_compute. repeat split; discriminate. Qed.

(** * The view switch *)

Lemma truthy_Some (s : string) : s <> "" -> truthy (Some s) = true.
Proof. intros Hs. cbn. destruct (String.eqb_spec s ""); [contradiction | reflexivity]. Qed.

(** [C8] When one of the three containers of the view switch is missing,
    the switch only logs: the world it leaves differs from the one it found
    by two console lines, so no container changes its visibility, no token
    is written or cleared and no session flag is written. *)
Theorem view_switch_without_containers (isSignedIn : bool) (w : World) :
  document w !! "sign-in-container" = None \/
  document w !! "main-content" = None \/
  document w !! "sign-out-button" = None ->
  exec (updateSigninStatus isSignedIn) w =
    set_trace
      (trace w ++
         [Console LvlInfo ("Updating sign-in status: " +:+ show_bool isSignedIn);
          Console LvlInfo "Required DOM elements not found"]) w.
Proof.
  intros H. unfold updateSigninStatus. js_unfold.
  assert (Hmiss :
    negb (present (document w !! "sign-in-container"))
    || negb (present (document w !! "main-content"))
    || negb (present (document w !! "sign-out-button")) = true).
  { destruct H as [-> | [-> | ->]]; cbn; rewrite ?orb_true_r; reflexivity. }
  rewrite Hmiss. js_simpl. unfold set_trace. js_simpl.
  rewrite <- app_assoc. reflexivity.
Qed.

Lemma view_switch_without_containers_witness :
  exec (updateSigninStatus true) partial_world =
    set_trace
      (trace partial_world ++
         [Console LvlInfo "Updating sign-in status: true";
          Console LvlInfo "Required DOM elements not found"]) partial_world.
Proof.
  apply (view_switch_without_containers true partial_world).
  right. right. vm_compute. reflexivity.
Defined.

(** [C4] Receiving a credential on a page that has its view containers,
    with the API client loaded, stores the credential, hands it to the API
    client as its token and writes the session flag ["true"]. *)
Theorem sign_in_sets_token_and_flag (credential : string) (w : World) :
  credential <> "" ->
  has_view_containers w ->
  gapi_defined w = true ->
  googleSheetsIntegration w <> Undeclared ->
  let w' := exec (handleCredentialResponse (Some credential)) w in
  currentIdToken w' = Some credential /\
  token w' = TokenObj credential /\
  token_writes w' = token_writes w ++ [SetToken (TokenObj credential)] /\
  sessionStorage w' !! "isLoggedIn" = Some "true".
Proof.
  intros Hc ([e1 H1] & [e2 H2] & [e3 H3]) Hg Hd.
  pose proof (truthy_Some credential Hc) as Ht. unfold token_writes.
  destruct (googleSheetsIntegration w) eqn:Hi; [contradiction | |];
    js_run; rewrite lookup_insert_eq; trace_simpl; auto.
Qed.

Lemma sign_in_sets_token_and_flag_witness :
  let w' := exec (handleCredentialResponse (Some "id-token")) fresh_world in
  currentIdToken w' = Some "id-token" /\
  token w' = TokenObj "id-token" /\
  token_writes w' = token_writes fresh_world ++ [SetToken (TokenObj "id-token")] /\
  sessionStorage w' !! "isLoggedIn" = Some "true".
Proof.
  apply (sign_in_sets_token_and_flag "id-token" fresh_world).
  - discriminate.
  - repeat split; eexists; vm_compute; reflexivity.
  - reflexivity.
  - discriminate.
Defined.

(** [C5] An explicit sign-out always clears the held credential.  With the
    identity service loaded it disables auto-select, and on a page that has
    its view containers, with the API client loaded, it sets the API client
    token to the empty string: the calls it makes are exactly the ones
    listed. *)
Theorem sign_out_clears_token (w : World) :
  let w' := exec handleSignoutClick w in
  currentIdToken w' = None /\
  (google_defined w = true ->
   List.filter is_disableAutoSelect (trace w') =
     List.filter is_disableAutoSelect (trace w) ++ [DisableAutoSelect]) /\
  (google_defined w = true -> has_view_containers w -> gapi_defined w = true ->
   token w' = TokenStr "" /\
   trace w' =
     trace w ++
       [Console LvlLog "handleSignoutClick called";
        Console LvlLog "google.accounts.id is defined. Attempting disableAutoSelect.";
        DisableAutoSelect;
        Console LvlInfo "Updating sign-in status: false";
        SetToken (TokenStr "");
        Console LvlInfo "GAPI client token cleared.";
        Console LvlInfo "User signed out"]).
Proof.
  cbv zeta. split; [| split].
  - js_cases; reflexivity.
  - intros Hg. js_cases; trace_simpl; reflexivity.
  - intros Hg ([e1 H1] & [e2 H2] & [e3 H3]) Ha. js_run.
    rewrite <- !app_assoc. auto.
Qed.

Lemma sign_out_clears_token_witness :
  let w := exec (handleCredentialResponse (Some "id-token")) fresh_world in
  let w' := exec handleSignoutClick w in
  currentIdToken w = Some "id-token" /\ token w = TokenObj "id-token" /\
  currentIdToken w' = None /\ token w' = TokenStr "" /\
  List.filter is_disableAutoSelect (trace w') = [DisableAutoSelect].
Proof.
  cbv zeta.
  destruct (sign_out_clears_token
              (exec (handleCredentialResponse (Some "id-token")) fresh_world))
    as (Hc & Hd & Ht).
  destruct Ht as [Ht _].
  - reflexivity.
  - repeat split; eexists; vm_compute; reflexivity.
  - reflexivity.
  - refine (conj eq_refl (conj eq_refl (conj Hc (conj Ht _)))).
    rewrite Hd by reflexivity. reflexivity.
Defined.

(** * The two stores of the session flag *)

(** [C2] (amended) Signing in writes the session flag to the session store
    only and leaves the page-scoped store as it was; signing out removes
    the flag from both stores. *)
Theorem session_flag_stores (credential : string) (w : World) :
  credential <> "" ->
  has_view_containers w ->
  gapi_defined w = true ->
  googleSheetsIntegration w <> Undeclared ->
  let w1 := exec (handleCredentialResponse (Some credential)) w in
  let w2 := exec handleSignoutClick w1 in
  sessionStorage w1 = <["isLoggedIn" := "true"]> (sessionStorage w) /\
  localStorage w1 = localStorage w /\
  sessionStorage w2 = delete "isLoggedIn" (sessionStorage w1) /\
  localStorage w2 = delete "isLoggedIn" (localStorage w1).
Proof.
  intros Hc ([e1 H1] & [e2 H2] & [e3 H3]) Hg Hd. cbv zeta.
  pose proof (truthy_Some credential Hc) as Ht.
  split; [| split; [| split]].
  - destruct (googleSheetsIntegration w) eqn:Hi; [contradiction | |];
      js_run; reflexivity.
  - assert (Hp : preserves localStorage (handleCredentialResponse (Some credential)))
      by solve_preserves_deep.
    apply Hp.
  - generalize (exec (handleCredentialResponse (Some credential)) w). intros w1.
    js_cases; reflexivity.
  - generalize (exec (handleCredentialResponse (Some credential)) w). intros w1.
    js_cases; reflexivity.
Qed.

Lemma session_flag_stores_witness :
  let w1 := exec (handleCredentialResponse (Some "id-token")) stored_world in
  let w2 := exec handleSignoutClick w1 in
  sessionStorage w1 = <["isLoggedIn" := "true"]> (sessionStorage stored_world) /\
  localStorage w1 = localStorage stored_world /\
  sessionStorage w2 = delete "isLoggedIn" (sessionStorage w1) /\
  localStorage w2 = delete "isLoggedIn" (localStorage w1).
Proof.
  apply (session_flag_stores "id-token" stored_world).
  - discriminate.
  - repeat split; eexists; vm_compute; reflexivity.
  - reflexivity.
  - discriminate.
Defined.

(** [C2] as stated fails on both counts: after a sign-in on a fresh page the
    page-scoped store holds no flag, and after a sign-out on a page whose
    two stores held the flag neither store holds it. *)
Lemma session_flag_stores_counterexample :
  localStorage (exec (handleCredentialResponse (Some "id-token")) fresh_world)
    !! "isLoggedIn" = None /\
  sessionStorage stored_world !! "isLoggedIn" = Some "true" /\
  localStorage stored_world !! "isLoggedIn" = Some "true" /\
  sessionStorage (exec handleSignoutClick stored_world) !! "isLoggedIn" = None /\
  localStorage (exec handleSignoutClick stored_world) !! "isLoggedIn" = None.
Proof. vm_compute. repeat split. Qed.

(** * Decimal numerals *)

Example parseInt_samples :
  parseInt "12" = Some 12 /\ parseInt "  42px" = Some 42 /\
  parseInt "-7" = Some (-7) /\ parseInt "0x1f" = Some 31 /\
  parseInt "007" = Some 7 /\ parseInt "" = None /\ parseInt "row" = None.
Proof. repeat split. Qed.

(** A no-break space (U+00A0) and an ideographic space (U+3000) in front of
    the digits are skipped like a blank. *)
Example parseInt_unicode_space :
  let nbsp := String (ascii_of_nat 194) (String (ascii_of_nat 160) "") in
  let wide := String (ascii_of_nat 227) (String (ascii_of_nat 128)
                (String (ascii_of_nat 128) "")) in
  parseInt (nbsp +:+ wide +:+ " 12") = Some 12.
Proof. reflexivity. Qed.

Example sheet_name_sample :
  remove_apostrophes (split_bang_0 "'Calon Pelanggan'!A2:L") = "Calon Pelanggan".
Proof. reflexivity. Qed.

Lemma parse_digits_uint_acc (d : Decimal.uint) (acc : positive) :
  parse_digits 10 (NilEmpty.string_of_uint d) (Z.pos acc) =
  Z.pos (Pos.of_uint_acc d acc).
Proof.
  revert acc. induction d as [|d IH|d IH|d IH|d IH|d IH|d IH|d IH|d IH|d IH|d IH];
    intros acc; cbn [NilEmpty.string_of_uint parse_digits Pos.of_uint_acc];
    [reflexivity | ..];
    match goal with
    | |- context [digit_value 10 ?c] =>
        let v := eval vm_compute in (digit_value 10 c) in
        change (digit_value 10 c) with v
    end; cbv beta iota; rewrite <- IH; f_equal; lia.
Qed.

Lemma parse_digits_uint (d : Decimal.uint) :
  parse_digits 10 (NilEmpty.string_of_uint d) 0 = Z.of_N (Pos.of_uint d).
Proof.
  induction d as [|d IH|d IH|d IH|d IH|d IH|d IH|d IH|d IH|d IH|d IH];
    cbn [NilEmpty.string_of_uint parse_digits Pos.of_uint];
    [reflexivity | ..];
    match goal with
    | |- context [digit_value 10 ?c] =>
        let v := eval vm_compute in (digit_value 10 c) in
        change (digit_value 10 c) with v
    end; cbv beta iota; [exact IH | ..];
    cbn [Z.of_N]; rewrite <- parse_digits_uint_acc; reflexivity.
Qed.

Lemma parseInt_uint (d : Decimal.uint) :
  d <> Decimal.Nil ->
  parseInt (NilEmpty.string_of_uint d) = Some (Z.of_N (Pos.of_uint d)).
Proof.
  intros Hd. rewrite <- parse_digits_uint.
  destruct d as [|d|d|d|d|d|d|d|d|d|d]; [contradiction | ..];
    try reflexivity.
  destruct d; reflexivity.
Qed.

Lemma parseInt_show_Z (i : Z) : 0 <= i -> parseInt (show_Z i) = Some i.
Proof.
  intros Hi. destruct i as [|p|p]; [reflexivity | | lia].
  unfold show_Z. cbn [Z.to_int NilZero.string_of_int].
  pose proof (DecimalPos.Unsigned.to_uint_nonnil p) as Hn.
  pose proof (DecimalPos.Unsigned.of_to p) as Hp.
  unfold NilZero.string_of_uint.
  destruct (Pos.to_uint p) eqn:E; [contradiction | ..];
    rewrite parseInt_uint by discriminate; rewrite Hp; reflexivity.
Qed.

(** * Row operations *)

(** [C3] For a displayed-row index [i >= 0] with [i + 2] a safe integer,
    deleting issues exactly one request to the spreadsheet: a [batchUpdate]
    with one [deleteDimension] over [ROWS] from [i + 1] (inclusive) to
    [i + 2] (exclusive); for [i = 0] the range is 1 to 2.  The bound keeps
    the index arithmetic of the source, done on doubles, exact. *)
Theorem delete_issues_one_range (i : Z) (batch : Outcome unit) (cfg : Config) (w : World) :
  0 <= i ->
  i + 2 <= MAX_SAFE_INTEGER ->
  CONFIG w = Some cfg ->
  sheets_ready w ->
  let request := mkDelete (SPREADSHEET_ID cfg) 0 "ROWS" (i + 1) (i + 2) in
  remote_calls (exec (deleteCustomerRow i batch) w) =
    remote_calls w ++ [BatchUpdate [request]] /\
  del_endIndex request - del_startIndex request = 1 /\
  (i = 0 -> del_startIndex request = 1 /\ del_endIndex request = 2).
Proof.
  intros Hi _ Hcfg [Hg Hs]. cbv zeta. split; [| cbn; lia].
  replace (i + 1) with (i + 2 - 1) by lia.
  destruct batch; js_cases; autounfold with js_obs; trace_simpl; reflexivity.
Qed.

Lemma delete_issues_one_range_witness :
  remote_calls (exec (deleteCustomerRow 0 (Resolved tt)) fresh_world) =
    [BatchUpdate [mkDelete (Some "sheet-id") 0 "ROWS" 1 2]].
Proof.
  destruct (delete_issues_one_range 0 (Resolved tt) sample_config fresh_world)
    as [H _].
  - lia.
  - unfold MAX_SAFE_INTEGER. lia.
  - reflexivity.
  - split; reflexivity.
  - exact H.
Defined.

(** A field entered last with an empty value is an empty field. *)
Lemma fromEntries_snoc (entries : list (string * string)) (name v : string) :
  fromEntries (entries ++ [(name, v)]) !! name = Some v.
Proof. unfold fromEntries. rewrite foldl_app. cbn. apply lookup_insert_eq. Qed.

(** A field the form does not have is an empty field. *)
Lemma fromEntries_absent (entries : list (string * string)) (name : string) :
  name ∉ entries.*1 -> fromEntries entries !! name = None.
Proof.
  unfold fromEntries. induction entries as [|[k v] rest IH] using rev_ind;
    intros Hn; [apply lookup_empty |].
  rewrite fmap_app, not_elem_of_app in Hn. destruct Hn as [Hrest Hk].
  rewrite foldl_app. cbn. rewrite lookup_insert_ne.
  - apply IH, Hrest.
  - intros ->. apply Hk. cbn. left.
Qed.

Lemma missing_required_intro (customerData : gmap string string) (f : string) :
  f ∈ required_fields ->
  truthy (customerData !! f) = false ->
  missing_required customerData = true.
Proof.
  unfold required_fields, missing_required. intros Hf Ht.
  repeat (apply elem_of_cons in Hf as [-> | Hf];
          [rewrite Ht; cbn; rewrite ?orb_true_r; reflexivity |]).
  apply elem_of_nil in Hf. contradiction.
Qed.

(** [C6] When one of the five required fields of the add-customer form is
    empty or absent, the handler stops early: it sends nothing to the
    spreadsheet, neither the read nor the write, and it leaves a message on
    display, the validation message once the API client is initialised. *)
Theorem add_requires_fields (entries : list (string * string))
    (get : Outcome (option (list (list string)))) (update : Outcome unit)
    (f : string) (w : World) :
  f ∈ required_fields ->
  truthy (fromEntries entries !! f) = false ->
  let w' := exec (handleAddCustomerSubmit entries get update) w in
  remote_calls w' = remote_calls w /\
  (gapi_defined w = true -> is_Some (document w !! "errorDisplay") ->
   banner w' = Some (HtmlAlert (early_message w), "block")).
Proof.
  intros Hf Ht. pose proof (missing_required_intro _ f Hf Ht) as Hm.
  cbv zeta. split.
  - assert (Hp : preserves remote_calls (handleAddCustomerSubmit entries get update)).
    { unfold handleAddCustomerSubmit. rewrite Hm. cbn beta iota. solve_preserves. }
    apply Hp.
  - intros Hg [e He]. unfold banner, early_message, handleAddCustomerSubmit.
    rewrite Hm. cbn beta iota.
    destruct (gapiInited w) eqn:Hi, (sheets_defined w) eqn:Hs; js_cases; js_simpl;
      repeat first [ rewrite lookup_alter_ne by discriminate
                   | rewrite lookup_alter_eq ];
      rewrite ?He; reflexivity.
Qed.

Lemma add_requires_fields_witness :
  let entries :=
    [("nama", "Budi"); ("no_telepon", ""); ("alamat", "Jl. Mawar 1");
     ("odp_terdekat", "ODP-1"); ("nama_sales", "Sari")] in
  let w' := exec (handleAddCustomerSubmit entries (Resolved None) (Resolved tt))
              ready_world in
  remote_calls w' = [] /\
  banner w' = Some (HtmlAlert "Mohon lengkapi semua field yang wajib diisi", "block").
Proof.
  cbv zeta.
  destruct (add_requires_fields
              [("nama", "Budi"); ("no_telepon", ""); ("alamat", "Jl. Mawar 1");
               ("odp_terdekat", "ODP-1"); ("nama_sales", "Sari")]
              (Resolved None) (Resolved tt) "no_telepon" ready_world)
    as [Hr Hb].
  - unfold required_fields. set_solver.
  - vm_compute. reflexivity.
  - split; [exact Hr |]. apply Hb.
    + reflexivity.
    + eexists. vm_compute. reflexivity.
Defined.

(** [C7] Submitting the edit form for displayed-row index [i], with
    [i + 2] a safe integer, issues exactly one request to the spreadsheet: a
    values update whose range is columns A to H of row [i + 2] of the
    configured sheet and whose values are one row of eight cells, the eight
    inputs of the form.  The bound keeps [parseInt(index) + 2], computed on
    doubles in the source, exact and printed in plain decimal. *)
Theorem edit_targets_row (i : Z) (update : Outcome unit) (cfg : Config)
    (data_range : string) (w : World) :
  0 <= i ->
  i + 2 <= MAX_SAFE_INTEGER ->
  is_Some (document w !! "editRowIndex") ->
  input_value "editRowIndex" w = show_Z i ->
  Forall (fun id => is_Some (document w !! id)) edit_inputs ->
  CONFIG w = Some cfg ->
  DATA_RANGE cfg = Some data_range ->
  sheets_ready w ->
  let sheetName := remove_apostrophes (split_bang_0 data_range) in
  let row := (fun id => input_value id w) <$> edit_inputs in
  let request :=
    mkUpdate (SPREADSHEET_ID cfg)
      (sheetName +:+ "!" +:+ "A" +:+ show_Z (i + 2) +:+ ":" +:+ "H" +:+ show_Z (i + 2))
      "USER_ENTERED" [row] in
  remote_calls (exec (editForm_submit update) w) =
    remote_calls w ++ [ValuesUpdate request] /\
  length row = 8%nat.
Proof.
  intros Hi _ [e0 H0] Hv Hall Hcfg Hrange [Hg Hs]. cbv zeta.
  split; [| reflexivity].
  unfold input_value in Hv. rewrite H0 in Hv. cbn in Hv.
  unfold edit_inputs in Hall.
  repeat (apply Forall_cons in Hall as [[? ?] Hall]).
  unfold edit_inputs, input_value. cbn [fmap list_fmap].
  pose proof (parseInt_show_Z i Hi) as Hp.
  unfold editForm_submit, row_range, exec.
  do 13 js_step.
  match goal with
  | |- context [try_catch ?tail ?h ?w1] =>
      assert (Htail : preserves remote_calls (try_catch tail h))
        by solve_preserves_deep;
      change (remote_calls (snd (try_catch tail h w1)))
        with (remote_calls (exec (try_catch tail h) w1));
      rewrite (Htail w1)
  end.
  repeat js_rewrite. unfold remote_calls. js_simpl. trace_simpl. reflexivity.
Qed.

Lemma edit_targets_row_witness :
  remote_calls (exec (editForm_submit (Resolved tt)) fresh_world) =
    [ValuesUpdate
       (mkUpdate (Some "sheet-id") "Calon Pelanggan!A7:H7" "USER_ENTERED"
          [["ODP-1"; "Budi"; "Jl. Mawar 1"; "0812"; "Sari"; "Visited"; "-"; "Baru"]])].
Proof.
  destruct (edit_targets_row 5 (Resolved tt) sample_config "'Calon Pelanggan'!A2:L"
              fresh_world) as [H _].
  - lia.
  - unfold MAX_SAFE_INTEGER. lia.
  - eexists. vm_compute. reflexivity.
  - vm_compute. reflexivity.
  - unfold edit_inputs. repeat constructor; eexists; vm_compute; reflexivity.
  - reflexivity.
  - reflexivity.
  - split; reflexivity.
  - exact H.
Defined.

(** An index field that holds no number: the request is still sent, with
    [NaN] for the row. *)
Example edit_with_unreadable_index :
  let w := set_document (<["editRowIndex" := field "row"]> sample_page) fresh_world in
  remote_calls (exec (editForm_submit (Resolved tt)) w) =
    [ValuesUpdate
       (mkUpdate (Some "sheet-id") "Calon Pelanggan!ANaN:HNaN" "USER_ENTERED"
          [["ODP-1"; "Budi"; "Jl. Mawar 1"; "0812"; "Sari"; "Visited"; "-"; "Baru"]])].
Proof. vm_compute. reflexivity. Qed.

(** * The gating check after a restored session *)

Lemma returns_try_catch {A} (m : Js A) (h : JsError -> Js A) :
  (forall e, returns (h e)) -> returns (try_catch m h).
Proof.
  intros Hh w. unfold try_catch. destruct (m w) as [[a|e] w1].
  - exists a. reflexivity.
  - apply Hh.
Qed.

Lemma returns_updateSigninStatus b : returns (updateSigninStatus b).
Proof. apply returns_try_catch. intros e. apply returns_handleError. Qed.

(** [C10] With both readiness flags set and the button container on the
    page, the gating check renders the button and goes straight on to the
    signed-out view switch; on a page that has its view containers this
    sets the API client token to the empty string and hides the main
    content, whatever the view was before, a restored session included. *)
Theorem gating_check_signs_out (w : World) :
  gapiInited w = true ->
  gisLoadedFlag w = true ->
  is_Some (document w !! "g_id_onload") ->
  google_defined w = true ->
  let w' := exec maybeRenderSignInButton w in
  w' = exec (updateSigninStatus false) (after_render w) /\
  (has_view_containers w -> gapi_defined w = true ->
   token w' = TokenStr "" /\
   display_of "main-content" w' = Some "none" /\
   display_of "sign-in-container" w' = Some "block" /\
   display_of "sign-out-button" w' = Some "none" /\
   sessionStorage w' = sessionStorage w).
Proof.
  intros Hi Hl [e0 H0] Hgoogle. cbv zeta.
  assert (Hrun : exec maybeRenderSignInButton w =
                 exec (updateSigninStatus false) (after_render w)).
  { unfold maybeRenderSignInButton. autounfold with js. js_simpl.
    rewrite Hi, Hl. js_simpl. rewrite H0. js_simpl. rewrite Hgoogle. js_simpl.
    repeat rewrite <- app_assoc. js_simpl.
    match goal with
    | |- context [updateSigninStatus false ?x] => change x with (after_render w)
    end.
    destruct (returns_updateSigninStatus false (after_render w)) as [[] Hr].
    destruct (updateSigninStatus false (after_render w)) as [[[]|e] w1];
      [reflexivity | discriminate]. }
  split; [exact Hrun |].
  intros ([e1 H1] & [e2 H2] & [e3 H3]) Hgapi. rewrite Hrun.
  unfold after_render, display_of. js_run.
  repeat first [ rewrite lookup_alter_ne by discriminate
               | rewrite lookup_alter_eq ].
  rewrite H1, H2, H3. auto.
Qed.

Lemma gating_check_signs_out_witness :
  let w := set_gisLoadedFlag true restored_world in
  let w' := exec maybeRenderSignInButton w in
  display_of "main-content" w = Some "block" /\
  sessionStorage w !! "isLoggedIn" = Some "true" /\
  token w' = TokenStr "" /\
  display_of "main-content" w' = Some "none" /\
  sessionStorage w' !! "isLoggedIn" = Some "true".
Proof.
  cbv zeta.
  destruct (gating_check_signs_out (set_gisLoadedFlag true restored_world))
    as [_ H].
  - reflexivity.
  - reflexivity.
  - eexists. vm_compute. reflexivity.
  - reflexivity.
  - destruct H as (Ht & Hm & _ & _ & Hs).
    + repeat split; eexists; vm_compute; reflexivity.
    + reflexivity.
    + refine (conj _ (conj _ (conj Ht (conj Hm _)))).
      * vm_compute. reflexivity.
      * vm_compute. reflexivity.
      * rewrite Hs. vm_compute. reflexivity.
Defined.

(** The same on the handler that sets the second flag: when the identity
    service finishes loading after a restored session, the main content is
    hidden again and the token is cleared, while the stored flag stays. *)
Example restored_session_is_signed_out :
  let w' := exec (handle EvGisLoaded) restored_world in
  display_of "main-content" restored_world = Some "block" /\
  display_of "main-content" w' = Some "none" /\
  token w' = TokenStr "" /\
  sessionStorage w' !! "isLoggedIn" = Some "true".
Proof. vm_compute. repeat split. Qed.

(** * Further properties of the handlers *)

Lemma returns_ret {A} (a : A) : returns (ret a).
Proof. intros w. exists a. reflexivity. Qed.

Lemma returns_gets {A} (f : World -> A) : returns (gets f).
Proof. intros w. eexists. reflexivity. Qed.

Lemma returns_modify (f : World -> World) : returns (modify f).
Proof. intros w. exists tt. reflexivity. Qed.

Lemma returns_bind {A C} (m : Js A) (k : A -> Js C) :
  returns m -> (forall a, returns (k a)) -> returns (bind m k).
Proof.
  intros Hm Hk w. destruct (Hm w) as [a Ha]. unfold bind.
  destruct (m w) as [[a'|e] w1]; cbn in Ha; [apply Hk | discriminate].
Qed.

Lemma returns_when (b : bool) (m : Js unit) : returns m -> returns (when b m).
Proof. intros Hm. destruct b; [exact Hm | apply returns_ret]. Qed.

Ltac returns_step :=
  lazymatch goal with
  | |- returns (ret _) => apply returns_ret
  | |- returns (gets _) => apply returns_gets
  | |- returns (modify _) => apply returns_modify
  | |- returns (ErrorHandler.handleError _ _) => apply returns_handleError
  | |- returns (try_catch _ _) => apply returns_try_catch; intros ?
  | |- returns (bind _ _) => apply returns_bind; [| intros ?]
  | |- returns (when _ _) => apply returns_when
  | |- returns (match _ with _ => _ end) => case_match
  | |- returns _ =>
      first
        [ progress unfold effect, console, getElementById, update_element,
            set_display, setTimeout, ErrorHandler.log, ErrorHandler.showUserError,
            initializeUIComponents
        | progress autounfold with js_handlers ]
  end.

Ltac solve_returns := repeat returns_step.

(** [X1] Each function whose body is one try/catch completes normally in
    every world and for every outcome of the call it awaits: what is thrown
    inside is caught, and the catch block does not throw.  These are the
    eleven functions listed; nothing is stated of the listeners that have no
    try/catch. *)
Theorem no_exception_escapes :
  (forall init, returns (initializeGapiClient init)) /\
  returns gisLoaded /\
  (forall credential, returns (handleCredentialResponse credential)) /\
  returns handleSignoutClick /\
  (forall isSignedIn, returns (updateSigninStatus isSignedIn)) /\
  returns maybeRenderSignInButton /\
  returns closeEditModal /\
  returns onDOMContentLoaded /\
  (forall update, returns (editForm_submit update)) /\
  (forall rowIndex batch, returns (deleteCustomerRow rowIndex batch)) /\
  returns resetAddCustomerForm.
Proof.
  repeat match goal with |- _ /\ _ => split end; intros; solve_returns.
Qed.

Section Relates.
Context (R : World -> World -> Prop) `{!PreOrder R}.

Lemma relates_ret {A} (a : A) : relates R (ret a).
Proof. intros w. reflexivity. Qed.

Lemma relates_throw {A} (e : JsError) : relates R (@throw A e).
Proof. intros w. reflexivity. Qed.

Lemma relates_gets {A} (f : World -> A) : relates R (gets f).
Proof. intros w. reflexivity. Qed.

Lemma relates_modify (f : World -> World) :
  (forall w, R w (f w)) -> relates R (modify f).
Proof. intros Hf w. apply Hf. Qed.

Lemma relates_bind {A C} (m : Js A) (k : A -> Js C) :
  relates R m -> (forall a, relates R (k a)) -> relates R (bind m k).
Proof.
  intros Hm Hk w. specialize (Hm w). unfold exec, bind in *.
  destruct (m w) as [[a|e] w1]; cbn in *.
  - etransitivity; [exact Hm | apply (Hk a w1)].
  - exact Hm.
Qed.

Lemma relates_try_catch {A} (m : Js A) (h : JsError -> Js A) :
  relates R m -> (forall e, relates R (h e)) -> relates R (try_catch m h).
Proof.
  intros Hm Hh w. specialize (Hm w). unfold exec, try_catch in *.
  destruct (m w) as [[a|e] w1]; cbn in *.
  - exact Hm.
  - etransitivity; [exact Hm | apply (Hh e w1)].
Qed.

Lemma relates_try_finally {A} (m : Js A) (f : Js unit) :
  relates R m -> relates R f -> relates R (try_finally m f).
Proof.
  intros Hm Hf w. specialize (Hm w). specialize (Hf (snd (m w))).
  unfold exec, try_finally in *.
  destruct (m w) as [r w1]; cbn in *.
  destruct (f w1) as [[u|e] w2]; cbn in *; etransitivity; eassumption.
Qed.

End Relates.

(** Follows the structure of a handler; [leaf] settles the writes. *)
Ltac relates_step leaf :=
  lazymatch goal with
  | |- relates _ (ret _) => apply relates_ret; tc_solve
  | |- relates _ (throw _) => apply relates_throw; tc_solve
  | |- relates _ (gets _) => apply relates_gets; tc_solve
  | |- relates _ (modify _) => apply relates_modify; leaf
  | |- relates _ (bind _ _) => apply relates_bind; [tc_solve | | intros ?]
  | |- relates _ (try_catch _ _) => apply relates_try_catch; [tc_solve | | intros ?]
  | |- relates _ (try_finally _ _) => apply relates_try_finally; [tc_solve | |]
  | |- relates _ (when ?b _) => unfold when; destruct b eqn:?
  | |- relates _ (match _ with _ => _ end) => case_match
  | |- relates _ (handle ?ev) => destruct ev; cbn [handle]
  | |- relates _ (run_callback ?cb _) => destruct cb; cbn [run_callback]
  | |- relates _ _ =>
      first
        [ progress autounfold with js_prim
        | progress unfold renderButton, fire_timer
        | progress autounfold with js_handlers ]
  end.

Ltac solve_relates leaf := repeat relates_step leaf.

Lemma flags_kept_preorder : PreOrder flags_kept.
Proof.
  split; [intros w; split; auto |].
  intros a b c [H1 H2] [H3 H4]. split; auto.
Qed.

#[global] Existing Instance flags_kept_preorder.

Lemma same_elements_preorder : PreOrder same_elements.
Proof. split; [intros w; reflexivity | intros a b c H1 H2; unfold same_elements in *; congruence]. Qed.

#[global] Existing Instance same_elements_preorder.

Lemma stores_framed_preorder : PreOrder stores_framed.
Proof.
  split; [intros w; repeat split; auto |].
  intros a b c (H1 & H2 & H3) (H4 & H5 & H6). split; [congruence |].
  split; [| etransitivity; eassumption].
  destruct H5 as [H5 | [H5 | H5]]; [rewrite H5; exact H2 | auto | auto].
Qed.

#[global] Existing Instance stores_framed_preorder.

(** [X2] Once set, a readiness flag stays set across every handler. *)
Theorem flags_never_reset (ev : Event) (w : World) :
  flags_kept w (exec (handle ev) w).
Proof.
  revert w. change (relates flags_kept (handle ev)).
  solve_relates ltac:(intros ?; split; cbn; auto).
Qed.

Lemma maintains_preorder (I : World -> Prop) : PreOrder (maintains I).
Proof. split; [intros w H; exact H | intros a b c H1 H2 H; auto]. Qed.

#[global] Existing Instance maintains_preorder.

Lemma attempts_grow_preorder : PreOrder attempts_grow.
Proof. split; [intros w; unfold attempts_grow; lia | intros a b c; unfold attempts_grow; lia]. Qed.

#[global] Existing Instance attempts_grow_preorder.

Lemma sends_nothing_preorder : PreOrder sends_nothing.
Proof.
  split; [intros w H; auto |].
  intros a b c H1 H2 H. destruct (H1 H) as [H3 H4]. destruct (H2 H4) as [H5 H6].
  split; [congruence | exact H6].
Qed.

#[global] Existing Instance sends_nothing_preorder.

(** [X4] Every handler leaves all keys of sessionStorage other than isLoggedIn
    alone, leaves isLoggedIn as it was, set to [true] or removed, and never
    adds to localStorage. *)
Theorem stores_keep_other_keys (ev : Event) (w : World) :
  let w' := exec (handle ev) w in
  delete "isLoggedIn" (sessionStorage w') = delete "isLoggedIn" (sessionStorage w) /\
  (sessionStorage w' !! "isLoggedIn" = sessionStorage w !! "isLoggedIn" \/
   sessionStorage w' !! "isLoggedIn" = Some "true" \/
   sessionStorage w' !! "isLoggedIn" = None) /\
  localStorage w' ⊆ localStorage w.
Proof.
  cbv zeta. revert w. change (relates stores_framed (handle ev)).
  solve_relates
    ltac:(intros ?; unfold stores_framed; cbn;
          rewrite ?delete_insert_eq, ?delete_delete_eq, ?lookup_insert_eq,
            ?lookup_delete_eq;
          split; [reflexivity | split; [auto | first [reflexivity | apply delete_subseteq]]]).
Qed.

(** [X5] initializationAttempts does not decrease across any handler. *)
Theorem attempts_never_decrease (ev : Event) (w : World) :
  initializationAttempts w <= initializationAttempts (exec (handle ev) w).
Proof.
  revert w. change (relates attempts_grow (handle ev)).
  solve_relates ltac:(intros ?; unfold attempts_grow; cbn; lia).
Qed.

(** The tail of the [catch] block of [initializeGapiClient]. *)
Lemma retry_tail_bounded :
  relates (maintains retries_bounded)
    (modify (fun w => set_initializationAttempts (initializationAttempts w + 1) w);;
     attempts <- gets initializationAttempts;;
     when (attempts <? MAX_INITIALIZATION_ATTEMPTS)
       (ErrorHandler.log
          ("Retrying initialization... (" +:+ show_Z attempts +:+ "/"
             +:+ show_Z MAX_INITIALIZATION_ATTEMPTS +:+ ")") LvlInfo;;
        setTimeout CbInitializeGapiClient (2000 * attempts))).
Proof.
  intros w [H0 Hd]. unfold retries_bounded, retry_delays in *. js_unfold.
  unfold MAX_INITIALIZATION_ATTEMPTS.
  destruct (initializationAttempts w + 1 <? 3) eqn:Hlt; js_simpl.
  - split; [lia |]. rewrite !omap_app. cbn. rewrite app_nil_r.
    apply Forall_app. split; [exact Hd |]. constructor; [| constructor].
    apply Z.ltb_lt in Hlt. lia.
  - split; [lia | exact Hd].
Qed.

Ltac retries_leaf :=
  intros ? [? ?]; unfold retries_bounded, retry_delays in *; cbn;
  rewrite ?omap_app; cbn; rewrite ?app_nil_r; split; assumption.

Ltac retries_step :=
  lazymatch goal with
  | |- relates _ (bind (modify (fun w => set_initializationAttempts _ w)) _) =>
      apply retry_tail_bounded
  | |- _ => relates_step retries_leaf
  end.

Lemma handle_retries_bounded (ev : Event) : relates (maintains retries_bounded) (handle ev).
Proof. repeat retries_step. Qed.

(** [X6] In every reachable world the failure counter is not negative and each
    retry of the client initialisation was scheduled with a delay of 2000 or
    4000 ms. *)
Theorem retry_delays_bounded (w : World) :
  reachable w -> retries_bounded w.
Proof.
  induction 1 as [w Hi | w w' _ IH Hs].
  - destruct Hi as [_ _ _ Ha _ Ht]. unfold retries_bounded, retry_delays.
    rewrite Ha, Ht. split; [lia | constructor].
  - destruct Hs as [ev w | w w' Hp].
    + apply (handle_retries_bounded ev w IH).
    + destruct Hp as [_ _ _ Ha _ Ht]. unfold retries_bounded, retry_delays in *.
      rewrite Ha, Ht. exact IH.
Qed.

Lemma truthy_default (tok : option string) : truthy tok = true -> default "" tok <> "".
Proof.
  destruct tok as [s|]; cbn; [| discriminate].
  destruct (String.eqb_spec s ""); [discriminate | auto].
Qed.

Ltac tokens_leaf :=
  intros ? ?; unfold tokens_well_formed, token_writes in *; cbn;
  rewrite ?List.filter_app; cbn; rewrite ?app_nil_r;
  first [ assumption
        | apply Forall_app; split; [assumption |];
          constructor; [cbn; first [reflexivity | apply truthy_default; assumption]
                       | constructor] ].

Lemma handle_tokens_well_formed (ev : Event) :
  relates (maintains tokens_well_formed) (handle ev).
Proof. solve_relates tokens_leaf. Qed.

(** [X7] In every reachable world every token handed to gapi.client.setToken
    is the empty string or carries a non-empty credential. *)
Theorem token_writes_well_formed (w : World) :
  reachable w -> tokens_well_formed w.
Proof.
  induction 1 as [w Hi | w w' _ IH Hs].
  - destruct Hi as [_ _ _ _ _ Ht]. unfold tokens_well_formed, token_writes.
    rewrite Ht. constructor.
  - destruct Hs as [ev w | w w' Hp].
    + apply (handle_tokens_well_formed ev w IH).
    + destruct Hp as [_ _ _ _ _ Ht]. unfold tokens_well_formed, token_writes in *.
      rewrite Ht. exact IH.
Qed.

Lemma use_sheets_sends_nothing {C} (k : unit -> Js C) :
  relates sends_nothing (bind use_sheets k).
Proof.
  intros w Hb. unfold sheets_blocked in *. js_unfold.
  destruct (gapi_defined w) eqn:Hg, (sheets_defined w) eqn:Hs;
    try discriminate; js_simpl; rewrite ?Hg, ?Hs; js_simpl; rewrite ?Hg, ?Hs; auto.
Qed.

Ltac sends_leaf :=
  intros ? ?; unfold sheets_blocked, remote_calls in *; cbn;
  rewrite ?List.filter_app; cbn; rewrite ?app_nil_r; split; [reflexivity | assumption].

Ltac sends_step :=
  lazymatch goal with
  | |- relates _ (bind use_sheets _) => apply use_sheets_sends_nothing
  | |- _ => relates_step sends_leaf
  end.

(** [X8] On a page where the spreadsheet client cannot be reached no handler
    sends a request to the spreadsheet. *)
Theorem nothing_sent_while_unreachable (ev : Event) (w : World) :
  sheets_blocked w ->
  remote_calls (exec (handle ev) w) = remote_calls w.
Proof.
  intros Hb. assert (H : relates sends_nothing (handle ev)) by (repeat sends_step).
  apply (H w Hb).
Qed.

Lemma nothing_sent_while_unreachable_witness :
  remote_calls (exec (handle (EvDelete 0 (Resolved tt))) offline_world) = [].
Proof.
  apply (nothing_sent_while_unreachable (EvDelete 0 (Resolved tt)) offline_world).
  reflexivity.
Defined.

(** * The add-customer handler *)

Lemma bind_normal {A C} (m : Js A) (k : A -> Js C) (w w1 : World) (a : A) :
  m w = (Normal a, w1) -> bind m k w = k a w1.
Proof. intros Hm. unfold bind. rewrite Hm. reflexivity. Qed.

Lemma exec_try_finally {A} (m : Js A) (f : Js unit) (w : World) :
  exec (try_finally m f) w = exec f (exec m w).
Proof.
  unfold exec, try_finally. destruct (m w) as [r w1]. cbn.
  destruct (f w1) as [[u|e] w2]; reflexivity.
Qed.

Lemma try_finally_throws {A} (m : Js A) (f : Js unit) (w : World) (e : JsError) :
  fst (f (exec m w)) = Throw e -> fst (try_finally m f w) = Throw e.
Proof.
  unfold exec, try_finally. destruct (m w) as [r w1]. cbn.
  destruct (f w1) as [[u|e'] w2]; cbn; congruence.
Qed.

Lemma exec_try_catch_throw' {A} (m : Js A) (h : JsError -> Js A) (w w1 : World)
    (e : JsError) :
  m w = (Throw e, w1) -> try_catch m h w = h e w1.
Proof. intros Hm. unfold try_catch. rewrite Hm. reflexivity. Qed.

(** Runs the first statement of a handler when the hypotheses decide that
    it completes normally. *)
Ltac js_bind_step :=
  erewrite bind_normal
    by (autounfold with js; js_simpl; repeat (js_rewrite; js_simpl); reflexivity);
  cbv beta iota zeta.

(** Past its guard the handler is its [try] block followed by the
    [finally] block. *)
Ltac enter_add_submit Hi Hg Hs :=
  unfold handleAddCustomerSubmit;
  match goal with
  | |- context [bind (gets gapiInited) ?k ?w] =>
      change (bind (gets gapiInited) k w) with (k (gapiInited w) w)
  end;
  cbv beta; rewrite Hi; cbn [negb]; cbv iota;
  js_bind_step; rewrite ?Hs; cbn [negb]; cbv iota.

(** [X9] The add-customer handler reads the data range and then writes the new
    row of twelve cells to columns A to L of row (rows read) + 2; after a
    failed read it writes nothing. *)
Theorem add_writes_after_last_row (entries : list (string * string))
    (get : Outcome (option (list (list string)))) (update : Outcome unit)
    (cfg : Config) (data_range : string) (w : World) :
  client_ready w ->
  missing_required (fromEntries entries) = false ->
  is_Some (document w !! "saveCustomer") ->
  CONFIG w = Some cfg ->
  DATA_RANGE cfg = Some data_range ->
  let sheetName := remove_apostrophes (split_bang_0 data_range) in
  let row := customer_row (fromEntries entries) in
  let write (values : option (list (list string))) :=
    let nextRow := Z.of_nat (length (default [] values)) + 2 in
    ValuesUpdate
      (mkUpdate (SPREADSHEET_ID cfg)
         (sheetName +:+ "!" +:+ "A" +:+ show_Z nextRow +:+ ":" +:+ "L" +:+ show_Z nextRow)
         "USER_ENTERED" [row]) in
  remote_calls (exec (handleAddCustomerSubmit entries get update) w) =
    remote_calls w ++
      ValuesGet (SPREADSHEET_ID cfg) (Some data_range) ::
      match get with
      | Resolved values => [write values]
      | Rejected _ => []
      end /\
  length row = 12%nat.
Proof.
  intros (Hi & Hg & Hs) Hm [btn Hbtn] Hcfg Hrange. cbv zeta.
  split; [| reflexivity].
  unfold exec. enter_add_submit Hi Hg Hs.
  change (snd (try_finally ?m ?f w)) with (exec (try_finally m f) w).
  rewrite exec_try_finally.
  assert (Hrestore : preserves remote_calls restore_save_button) by solve_preserves.
  rewrite Hrestore. unfold exec. rewrite Hm. cbv iota.
  do 8 js_step.
  destruct get as [values | reason].
  - do 3 js_step.
    match goal with
    | |- context [try_catch ?tail ?h ?w1] =>
        assert (Htail : preserves remote_calls (try_catch tail h))
          by solve_preserves_deep;
        change (remote_calls (snd (try_catch tail h w1)))
          with (remote_calls (exec (try_catch tail h) w1));
        rewrite (Htail w1)
    end.
    repeat js_rewrite. unfold remote_calls, row_range, customer_row. js_simpl.
    trace_simpl. reflexivity.
  - match goal with
    | |- context [try_catch ?tail ?h ?w1] =>
        assert (Htail : preserves remote_calls (try_catch tail h))
          by solve_preserves_deep;
        change (remote_calls (snd (try_catch tail h w1)))
          with (remote_calls (exec (try_catch tail h) w1));
        rewrite (Htail w1)
    end.
    repeat js_rewrite. unfold remote_calls. js_simpl. trace_simpl. reflexivity.
Qed.

Lemma add_writes_after_last_row_witness :
  remote_calls
    (exec (handleAddCustomerSubmit sample_entries
             (Resolved (Some [["a"]; ["b"]; ["c"]])) (Resolved tt)) ready_world) =
    [ValuesGet (Some "sheet-id") (Some "'Calon Pelanggan'!A2:L");
     ValuesUpdate
       (mkUpdate (Some "sheet-id") "Calon Pelanggan!A5:L5" "USER_ENTERED"
          [["ODP-1"; "Budi"; "Jl. Mawar 1"; "0812"; "Sari"; "Not Visited"; "";
            "Baru"; ""; ""; ""; "Normal"]])].
Proof.
  destruct (add_writes_after_last_row sample_entries
              (Resolved (Some [["a"]; ["b"]; ["c"]])) (Resolved tt) sample_config
              "'Calon Pelanggan'!A2:L" ready_world) as [H _].
  - repeat split.
  - vm_compute. reflexivity.
  - eexists. vm_compute. reflexivity.
  - reflexivity.
  - reflexivity.
  - exact H.
Defined.

Ltac elements_leaf :=
  intros ?; unfold same_elements; js_simpl; rewrite ?dom_alter_L; reflexivity.

(** [X10] Once the handler is past its guard, whatever happens in the [try]
    block, the [finally] block leaves the save button enabled and carrying
    the fixed label it assigns, [HtmlSaveLabel]; this need not be the label
    the button had before, which the handler reads into [originalText] and
    never uses. *)
Theorem add_restores_save_button (entries : list (string * string))
    (get : Outcome (option (list (list string)))) (update : Outcome unit)
    (w : World) :
  client_ready w ->
  is_Some (document w !! "saveCustomer") ->
  let w' := exec (handleAddCustomerSubmit entries get update) w in
  innerHTML <$> document w' !! "saveCustomer" = Some HtmlSaveLabel /\
  disabled <$> document w' !! "saveCustomer" = Some false.
Proof.
  intros (Hi & Hg & Hs) Hbtn. cbv zeta.
  unfold exec. enter_add_submit Hi Hg Hs.
  change (snd (try_finally ?m ?f w)) with (exec (try_finally m f) w).
  rewrite exec_try_finally.
  match goal with
  | |- context [exec restore_save_button (exec ?m w)] =>
      assert (Hdom : relates same_elements m) by solve_relates elements_leaf;
      specialize (Hdom w); set (w1 := exec m w) in *
  end.
  assert (Hbtn1 : is_Some (document w1 !! "saveCustomer")).
  { apply elem_of_dom. rewrite Hdom. apply elem_of_dom. exact Hbtn. }
  destruct Hbtn1 as [btn Hbtn1]. js_unfold. rewrite Hbtn1. js_simpl.
  rewrite lookup_alter_eq, lookup_alter_eq, Hbtn1. auto.
Qed.

Lemma add_restores_save_button_witness :
  let w' := exec (handleAddCustomerSubmit sample_entries
                    (Rejected (mkError "quota exceeded")) (Resolved tt)) ready_world in
  innerHTML <$> document w' !! "saveCustomer" = Some HtmlSaveLabel /\
  disabled <$> document w' !! "saveCustomer" = Some false.
Proof.
  apply (add_restores_save_button sample_entries (Rejected (mkError "quota exceeded"))
           (Resolved tt) ready_world).
  - repeat split.
  - eexists. vm_compute. reflexivity.
Defined.

(** [X11] On a page without the save button the add-customer handler ends
    with an exception once the API client is initialised and the spreadsheet
    client reachable, for every form content and every outcome of the two
    calls: the [finally] block reads the missing button.  Before the client
    is initialised the handler stops at its guard and completes normally. *)
Theorem add_fails_without_save_button (entries : list (string * string))
    (get : Outcome (option (list (list string)))) (update : Outcome unit)
    (w : World) :
  document w !! "saveCustomer" = None ->
  (client_ready w ->
   exists error, fst (handleAddCustomerSubmit entries get update w) = Throw error) /\
  (gapiInited w = false ->
   fst (handleAddCustomerSubmit entries get update w) = Normal tt).
Proof.
  intros Hbtn. split.
  - intros (Hi & Hg & Hs). eexists.
    enter_add_submit Hi Hg Hs.
    apply try_finally_throws.
    match goal with
    | |- context [restore_save_button (exec ?m w)] =>
        assert (Hdom : relates same_elements m) by solve_relates elements_leaf;
        specialize (Hdom w); set (w1 := exec m w) in *
    end.
    assert (Hbtn1 : document w1 !! "saveCustomer" = None).
    { apply not_elem_of_dom. rewrite Hdom. apply not_elem_of_dom. exact Hbtn. }
    js_unfold. rewrite Hbtn1. reflexivity.
  - intros Hi. unfold handleAddCustomerSubmit.
    match goal with
    | |- context [bind (gets gapiInited) ?k ?w] =>
        change (bind (gets gapiInited) k w) with (k (gapiInited w) w)
    end.
    cbv beta. rewrite Hi. cbn [negb]. cbv iota. js_bind_step.
    js_unfold. destruct (document w !! "errorDisplay"); reflexivity.
Qed.

Lemma add_fails_without_save_button_witness :
  (exists error,
     fst (handleAddCustomerSubmit sample_entries (Resolved None) (Resolved tt)
            (set_document (delete "saveCustomer" sample_page) ready_world)) =
     Throw error) /\
  fst (handleAddCustomerSubmit sample_entries (Resolved None) (Resolved tt)
         (set_document (delete "saveCustomer" sample_page) fresh_world)) = Normal tt.
Proof.
  split.
  - apply (add_fails_without_save_button sample_entries (Resolved None) (Resolved tt)
             (set_document (delete "saveCustomer" sample_page) ready_world)).
    + vm_compute. reflexivity.
    + repeat split.
  - apply (add_fails_without_save_button sample_entries (Resolved None) (Resolved tt)
             (set_document (delete "saveCustomer" sample_page) fresh_world)).
    + vm_compute. reflexivity.
    + reflexivity.
Defined.

(** * Sign-in sequencing, further cases *)

Lemma lookup_after_alert (m : gmap string Element) (f g : Element -> Element)
    (id : string) :
  id <> "errorDisplay" ->
  alter f "errorDisplay" (alter g "errorDisplay" m) !! id = m !! id.
Proof. intros Hid. rewrite !lookup_alter_ne by congruence. reflexivity. Qed.

(** Final look-ups through the writes of the view switch and the banner. *)
Ltac lookup_simpl :=
  repeat first [ rewrite lookup_alter_ne by discriminate | rewrite lookup_alter_eq ].

(** [X12] With no client id configured gisLoaded initialises nothing, sets no
    flag, arms no timer and shows the configuration error. *)
Theorem gis_failure_is_not_retried (cfg : Config) (w : World) :
  CONFIG w = Some cfg ->
  truthy (CLIENT_ID cfg) = false ->
  is_Some (document w !! "errorDisplay") ->
  let w' := exec gisLoaded w in
  gisLoadedFlag w' = gisLoadedFlag w /\
  timers w' = timers w /\
  gis_initializations w' = gis_initializations w /\
  banner w' =
    Some (HtmlAlert "Terjadi kesalahan: CLIENT_ID missing in configuration", "block").
Proof.
  intros Hcfg Hid [e He]. cbv zeta. unfold banner, gis_initializations.
  js_run. lookup_simpl. rewrite He. trace_simpl. auto.
Qed.

Lemma gis_failure_is_not_retried_witness :
  let w' := exec gisLoaded anonymous_world in
  gisLoadedFlag w' = false /\ timers w' = [] /\ gis_initializations w' = [] /\
  banner w' =
    Some (HtmlAlert "Terjadi kesalahan: CLIENT_ID missing in configuration", "block").
Proof.
  apply (gis_failure_is_not_retried anonymous_config anonymous_world).
  - reflexivity.
  - reflexivity.
  - eexists. vm_compute. reflexivity.
Defined.

(** * Building blocks *)

Lemma showUserError_run (text : string) (w : World) :
  ErrorHandler.showUserError text w = (Normal tt, alerted text w).
Proof.
  unfold alerted. js_unfold. destruct (document w !! "errorDisplay"); reflexivity.
Qed.

Lemma handleError_run (error : JsError) (context : string) (w : World) :
  ErrorHandler.handleError error context w = (Normal tt, reported error context w).
Proof.
  unfold ErrorHandler.handleError, reported, bind.
  change (ErrorHandler.log ?t ?l w) with (Normal tt, emit (Console l t) w).
  cbv beta iota. apply showUserError_run.
Qed.

Lemma lookup_alerted (text id : string) (w : World) :
  id <> "errorDisplay" ->
  document (alerted text w) !! id = document w !! id.
Proof.
  intros Hid. unfold alerted. destruct (present _); [| reflexivity].
  cbn. rewrite !lookup_alter_ne by congruence. reflexivity.
Qed.

Lemma lookup_reported (error : JsError) (context id : string) (w : World) :
  id <> "errorDisplay" ->
  document (reported error context w) !! id = document w !! id.
Proof. intros Hid. unfold reported. rewrite lookup_alerted by exact Hid. reflexivity. Qed.

Lemma banner_alerted (text : string) (w : World) :
  is_Some (document w !! "errorDisplay") ->
  banner (alerted text w) = Some (HtmlAlert text, "block").
Proof.
  intros [e He]. unfold banner, alerted. rewrite He. cbn.
  rewrite !lookup_alter_eq, He. reflexivity.
Qed.

Lemma gapi_defined_reported (error : JsError) (context : string) (w : World) :
  gapi_defined (reported error context w) = gapi_defined w.
Proof. unfold reported, alerted. destruct (present _); reflexivity. Qed.

(** Reporting an error writes to the banner and the console only. *)
Lemma reported_frame (error : JsError) (context : string) (w : World) :
  exists doc,
    reported error context w =
    set_document doc
      (emit (Console LvlError ("Error in " +:+ context +:+ ": " +:+ message error)) w).
Proof.
  unfold reported, alerted. destruct (present _); eexists; [reflexivity |].
  destruct w; reflexivity.
Qed.

Lemma has_view_containers_reported (error : JsError) (context : string) (w : World) :
  has_view_containers w -> has_view_containers (reported error context w).
Proof.
  unfold has_view_containers. rewrite !lookup_reported by discriminate. auto.
Qed.

Lemma updateSigninStatus_false_run (w : World) :
  has_view_containers w ->
  gapi_defined w = true ->
  updateSigninStatus false w = (Normal tt, signed_out_view w).
Proof.
  intros ([e1 H1] & [e2 H2] & [e3 H3]) Hg. js_run. reflexivity.
Qed.

Lemma banner_signed_out_view (w : World) : banner (signed_out_view w) = banner w.
Proof. unfold banner, signed_out_view, show_view. cbn. lookup_simpl. reflexivity. Qed.

Lemma display_signed_out_view (w : World) :
  is_Some (document w !! "main-content") ->
  display_of "main-content" (signed_out_view w) = Some "none".
Proof.
  intros [e He]. unfold display_of, signed_out_view, show_view. cbn.
  lookup_simpl. rewrite He. reflexivity.
Qed.

(** [X13] A credential response without a credential ends in the signed-out
    view, with the token cleared, the stores untouched and the error on
    display. *)
Theorem missing_credential_signs_out (credential : option string) (w : World) :
  truthy credential = false ->
  has_view_containers w ->
  is_Some (document w !! "errorDisplay") ->
  gapi_defined w = true ->
  let w' := exec (handleCredentialResponse credential) w in
  currentIdToken w' = currentIdToken w /\
  token w' = TokenStr "" /\
  display_of "main-content" w' = Some "none" /\
  sessionStorage w' = sessionStorage w /\
  banner w' = Some (HtmlAlert "Terjadi kesalahan: No credential in response", "block").
Proof.
  intros Hc Hv He Hg. cbv zeta.
  assert (Hrun : exec (handleCredentialResponse credential) w =
                 signed_out_view
                   (reported (mkError "No credential in response")
                      "handleCredentialResponse"
                      (emit (Console LvlInfo "Credential response received")
                         (emit (Console LvlLog "handleCredentialResponse called") w)))).
  { unfold handleCredentialResponse, exec. js_bind_step. js_step.
    rewrite Hc. cbv iota.
    erewrite exec_try_catch_throw' by reflexivity.
    unfold bind. rewrite handleError_run.
    rewrite updateSigninStatus_false_run; [reflexivity | |].
    - apply has_view_containers_reported. exact Hv.
    - rewrite gapi_defined_reported. exact Hg. }
  rewrite Hrun. clear Hrun.
  assert (Hd : display_of "main-content" (signed_out_view
            (reported (mkError "No credential in response") "handleCredentialResponse"
               (emit (Console LvlInfo "Credential response received")
                  (emit (Console LvlLog "handleCredentialResponse called") w)))) =
               Some "none").
  { apply display_signed_out_view. rewrite lookup_reported by discriminate. apply Hv. }
  assert (Hb : banner (signed_out_view
            (reported (mkError "No credential in response") "handleCredentialResponse"
               (emit (Console LvlInfo "Credential response received")
                  (emit (Console LvlLog "handleCredentialResponse called") w)))) =
               Some (HtmlAlert "Terjadi kesalahan: No credential in response", "block")).
  { rewrite banner_signed_out_view. unfold reported. apply banner_alerted. exact He. }
  refine (conj _ (conj eq_refl (conj Hd (conj _ Hb))));
    destruct (reported_frame (mkError "No credential in response")
                "handleCredentialResponse"
                (emit (Console LvlInfo "Credential response received")
                   (emit (Console LvlLog "handleCredentialResponse called") w)))
      as [doc ->]; reflexivity.
Qed.

Lemma missing_credential_signs_out_witness :
  let w := exec (handleCredentialResponse (Some "id-token")) fresh_world in
  let w' := exec (handleCredentialResponse None) w in
  token w = TokenObj "id-token" /\
  currentIdToken w' = Some "id-token" /\
  token w' = TokenStr "" /\
  display_of "main-content" w' = Some "none" /\
  sessionStorage w' !! "isLoggedIn" = Some "true".
Proof.
  cbv zeta.
  destruct (missing_credential_signs_out None
              (exec (handleCredentialResponse (Some "id-token")) fresh_world))
    as (Hc & Ht & Hm & Hs & _).
  - reflexivity.
  - repeat split; eexists; vm_compute; reflexivity.
  - eexists. vm_compute. reflexivity.
  - reflexivity.
  - refine (conj eq_refl (conj _ (conj Ht (conj Hm _)))).
    + rewrite Hc. reflexivity.
    + rewrite Hs. vm_compute. reflexivity.
Defined.

(** * Page load *)

Lemma try_catch_normal {A} (m : Js A) (h : JsError -> Js A) (w w1 : World) (a : A) :
  m w = (Normal a, w1) -> try_catch m h w = (Normal a, w1).
Proof. intros Hm. unfold try_catch. rewrite Hm. reflexivity. Qed.

Lemma updateSigninStatus_restore_run (w : World) :
  has_view_containers w ->
  currentIdToken w = None ->
  googleSheetsIntegration w <> Undeclared ->
  updateSigninStatus true w = (Normal tt, restored_view w).
Proof.
  intros ([e1 H1] & [e2 H2] & [e3 H3]) Ht Hd.
  unfold restored_view, dashboard_started.
  destruct (googleSheetsIntegration w) eqn:Hi; [contradiction | |];
    js_run; cbn [truthy]; js_simpl; repeat (js_rewrite; js_simpl); reflexivity.
Qed.

(** The three required elements of the page-load handler are there. *)
Lemma required_elements_present (w : World) :
  page_complete w ->
  filter (fun id => negb (present (document w !! id)) = true)
    ["sign-in-container"; "main-content"; "errorDisplay"] = [].
Proof.
  intros (([e1 H1] & [e2 H2] & _) & [e4 H4]).
  rewrite !filter_cons, filter_nil, H1, H2, H4. reflexivity.
Qed.

Lemma onDOMContentLoaded_restore_run (w : World) :
  page_complete w ->
  sessionStorage w !! "isLoggedIn" = Some "true" ->
  currentIdToken w = None ->
  googleSheetsIntegration w <> Undeclared ->
  exec onDOMContentLoaded w =
    emit ListenersWired
      (restored_view
         (emit (Console LvlInfo ("Login status: " +:+ "true"))
            (emit (Console LvlInfo
                     "DOM Content Loaded - Initializing application...") w))).
Proof.
  intros Hp Hf Ht Hd.
  pose proof (required_elements_present w Hp) as Hreq.
  destruct Hp as [Hv He].
  unfold onDOMContentLoaded, exec. do 2 js_step. rewrite Hreq. cbn [length].
  change (0 <? Z.of_nat 0) with false. cbv iota. js_step.
  rewrite bool_decide_true by reflexivity. js_step.
  erewrite try_catch_bind_normal
    by (unfold when; apply updateSigninStatus_restore_run; assumption).
  erewrite try_catch_normal by reflexivity. reflexivity.
Qed.

Lemma token_writes_emit (e : Effect) (w : World) :
  is_setToken e = false -> token_writes (emit e w) = token_writes w.
Proof.
  intros He. unfold token_writes, emit. cbn. rewrite List.filter_app. cbn.
  rewrite He. apply app_nil_r.
Qed.

Lemma display_restored_view (w : World) :
  has_view_containers w ->
  display_of "main-content" (restored_view w) = Some "block" /\
  display_of "sign-in-container" (restored_view w) = Some "none" /\
  display_of "sign-out-button" (restored_view w) = Some "block".
Proof.
  intros ([e1 H1] & [e2 H2] & [e3 H3]).
  unfold restored_view, dashboard_started, display_of, show_view.
  destruct (googleSheetsIntegration _); cbn; lookup_simpl; rewrite H1, H2, H3; auto.
Qed.

Lemma token_restored_view (w : World) :
  currentIdToken (restored_view w) = currentIdToken w /\
  token (restored_view w) = token w /\
  token_writes (restored_view w) = token_writes w.
Proof.
  unfold restored_view, dashboard_started, token_writes.
  destruct (googleSheetsIntegration _); cbn; trace_simpl; auto.
Qed.

(** [X14] A page load with the session flag stored shows the signed-in view
    without handing any token to the API client. *)
Theorem reload_restores_view_without_token (w : World) :
  page_complete w ->
  sessionStorage w !! "isLoggedIn" = Some "true" ->
  currentIdToken w = None ->
  googleSheetsIntegration w <> Undeclared ->
  let w' := exec onDOMContentLoaded w in
  display_of "main-content" w' = Some "block" /\
  display_of "sign-in-container" w' = Some "none" /\
  display_of "sign-out-button" w' = Some "block" /\
  currentIdToken w' = None /\
  token w' = token w /\
  token_writes w' = token_writes w.
Proof.
  intros Hp Hf Ht Hd. cbv zeta.
  rewrite (onDOMContentLoaded_restore_run w Hp Hf Ht Hd).
  set (w1 := emit (Console LvlInfo ("Login status: " +:+ "true")) _).
  destruct (display_restored_view w1) as (Hm & Hs & Ho); [apply Hp |].
  destruct (token_restored_view w1) as (Hc & Hk & Hw).
  change (display_of ?id (emit ListenersWired ?x)) with (display_of id x).
  change (currentIdToken (emit ListenersWired ?x)) with (currentIdToken x).
  change (token (emit ListenersWired ?x)) with (token x).
  rewrite Hm, Hs, Ho, Hc, Hk. repeat split; try assumption.
  rewrite token_writes_emit by reflexivity. rewrite Hw. unfold w1.
  rewrite !token_writes_emit by reflexivity. reflexivity.
Qed.

Lemma reload_restores_view_without_token_witness :
  let w' := exec onDOMContentLoaded stored_world in
  display_of "main-content" w' = Some "block" /\
  display_of "sign-in-container" w' = Some "none" /\
  display_of "sign-out-button" w' = Some "block" /\
  currentIdToken w' = None /\
  token w' = NoToken /\
  token_writes w' = [].
Proof.
  apply (reload_restores_view_without_token stored_world).
  - repeat split; eexists; vm_compute; reflexivity.
  - vm_compute. reflexivity.
  - reflexivity.
  - discriminate.
Defined.

(** Without the stored flag the page-load handler adds to the record of
    calls: console lines and the call of [initializeUIComponents]. *)
Lemma page_load_without_flag (w : World) :
  sessionStorage w !! "isLoggedIn" <> Some "true" ->
  exists tr, exec onDOMContentLoaded w = set_trace (trace w ++ tr) w.
Proof.
  intros Hf. unfold onDOMContentLoaded, exec. do 2 js_step.
  match goal with
  | |- context [if ?b then _ else _] => destruct b
  end.
  - erewrite try_catch_normal by reflexivity. eexists. cbn [snd].
    unfold set_trace at 1. cbn [trace set_trace gapiInited gisLoadedFlag currentIdToken
      initializationAttempts CONFIG gapi_defined sheets_defined google_defined
      googleSheetsIntegration token document sessionStorage localStorage timers].
    rewrite <- !app_assoc. reflexivity.
  - js_step. rewrite bool_decide_false by exact Hf. js_step.
    erewrite try_catch_normal by reflexivity. eexists. cbn [snd].
    unfold set_trace at 1. cbn [trace set_trace gapiInited gisLoadedFlag currentIdToken
      initializationAttempts CONFIG gapi_defined sheets_defined google_defined
      googleSheetsIntegration token document sessionStorage localStorage timers].
    rewrite <- !app_assoc. reflexivity.
Qed.

(** [X15] A page load without the session flag leaves every element of the
    page other than the two sales drop-downs, the token and both stores as
    they were. *)
Theorem reload_without_flag_keeps_view (w : World) :
  sessionStorage w !! "isLoggedIn" <> Some "true" ->
  let w' := exec onDOMContentLoaded w in
  (forall id, id <> "assignedSales" -> id <> "editSales" ->
     document w' !! id = document w !! id) /\
  token w' = token w /\
  sessionStorage w' = sessionStorage w /\ localStorage w' = localStorage w.
Proof.
  intros Hf. cbv zeta.
  destruct (page_load_without_flag w Hf) as [tr ->]. repeat split.
Qed.

Lemma reload_without_flag_keeps_view_witness :
  let w' := exec onDOMContentLoaded fresh_world in
  display_of "main-content" w' = display_of "main-content" fresh_world /\
  display_of "sign-in-container" w' = display_of "sign-in-container" fresh_world /\
  token w' = token fresh_world /\
  sessionStorage w' = sessionStorage fresh_world /\
  localStorage w' = localStorage fresh_world.
Proof.
  cbv zeta.
  destruct (reload_without_flag_keeps_view fresh_world) as (Hd & Ht & Hs & Hl).
  - vm_compute. discriminate.
  - unfold display_of. rewrite !Hd by discriminate. auto.
Defined.

(** After a sign-out the flag is gone from the session store. *)
Lemma sign_out_removes_flag (w : World) :
  sessionStorage (exec handleSignoutClick w) !! "isLoggedIn" = None.
Proof.
  unfold handleSignoutClick, exec. js_step. js_step.
  match goal with
  | |- context [try_catch (bind ?m ?k) ?h ?w1] =>
      assert (Hm : exists w2, m w1 = (Normal tt, w2))
        by (destruct (google_defined w); eexists; reflexivity);
      destruct Hm as [w2 Hm];
      rewrite (try_catch_bind_normal m k h w1 w2 tt Hm)
  end.
  js_step.
  match goal with
  | |- context [try_catch (bind (updateSigninStatus false) ?k) ?h ?w1] =>
      destruct (returns_updateSigninStatus false w1) as [[] Hu];
      destruct (updateSigninStatus false w1) as [r w3] eqn:Hrun;
      cbn in Hu; subst r;
      rewrite (try_catch_bind_normal (updateSigninStatus false) k h w1 w3 tt Hrun)
  end.
  do 2 js_step. erewrite try_catch_normal by reflexivity.
  cbn. apply lookup_delete_eq.
Qed.

(** [X16] After a sign-out a page load does not bring the signed-in view
    back: every element other than the two sales drop-downs, and the token,
    are as the sign-out left them. *)
Theorem reload_after_sign_out_stays_signed_out (w : World) :
  let w1 := exec handleSignoutClick w in
  let w2 := exec onDOMContentLoaded w1 in
  (forall id, id <> "assignedSales" -> id <> "editSales" ->
     document w2 !! id = document w1 !! id) /\
  token w2 = token w1.
Proof.
  cbv zeta. pose proof (sign_out_removes_flag w) as Hs.
  generalize dependent (exec handleSignoutClick w). intros x Hs.
  destruct (page_load_without_flag x) as [tr ->]; [rewrite Hs; discriminate |].
  split; [intros id _ _ |]; reflexivity.
Qed.

(** * Rendering the sign-in button *)

Lemma returns_maybeRenderSignInButton : returns maybeRenderSignInButton.
Proof. solve_returns. Qed.

Lemma try_catch_returns {A} (m : Js A) (h : JsError -> Js A) (w : World) :
  returns m -> try_catch m h w = m w.
Proof.
  intros Hm. destruct (Hm w) as [a Ha]. unfold try_catch.
  destruct (m w) as [[a'|e] w1]; cbn in Ha; [reflexivity | discriminate].
Qed.

Lemma renders_emit (e : Effect) (w : World) :
  renders (emit e w) = renders w ++ (if is_render e then [e] else []).
Proof.
  unfold renders, emit. cbn. rewrite List.filter_app. cbn.
  destruct (is_render e); reflexivity.
Qed.

Lemma signed_out_switch_flags_renders (c : string) :
  preserves flags_renders
    (try_catch (updateSigninStatus false)
       (fun error => ErrorHandler.handleError error c)).
Proof. solve_preserves_deep. Qed.

(** With both flags set the gating check is three console lines, the
    render call and the switch to the signed-out view. *)
Lemma maybeRenderSignInButton_ready_run (w : World) :
  is_Some (document w !! "g_id_onload") ->
  google_defined w = true ->
  gapiInited w = true ->
  gisLoadedFlag w = true ->
  maybeRenderSignInButton w =
    try_catch (updateSigninStatus false)
      (fun error => ErrorHandler.handleError error "maybeRenderSignInButton")
      (emit (RenderButton "g_id_onload")
         (emit (Console LvlLog "signInButtonContainer found")
            (emit (Console LvlLog "gapiInited and gisLoadedFlag are true, rendering button")
               (emit (Console LvlLog "maybeRenderSignInButton called") w)))).
Proof.
  intros [e0 H0] Hg Hi Hl. unfold maybeRenderSignInButton. js_bind_step.
  do 2 js_step. rewrite ?Hi, ?Hl. cbn [andb]. cbv iota.
  do 2 js_step. cbn [present]. cbv iota. do 2 js_step. reflexivity.
Qed.

Lemma maybeRenderSignInButton_waiting_run (w : World) :
  gapiInited w && gisLoadedFlag w = false ->
  maybeRenderSignInButton w =
    (Normal tt,
     emit (Console LvlLog "gapiInited or gisLoadedFlag is false")
       (emit (Console LvlLog "maybeRenderSignInButton called") w)).
Proof.
  intros Hb. unfold maybeRenderSignInButton. js_bind_step.
  do 2 js_step. rewrite ?Hb. cbv iota.
  erewrite try_catch_normal by reflexivity. reflexivity.
Qed.

Lemma exec_run {A} (m m' : Js A) (w w' : World) :
  m w = m' w' -> exec m w = exec m' w'.
Proof. intros H. unfold exec. rewrite H. reflexivity. Qed.

Lemma exec_normal {A} (m : Js A) (w w1 : World) (a : A) :
  m w = (Normal a, w1) -> exec m w = w1.
Proof. intros H. unfold exec. rewrite H. reflexivity. Qed.

Lemma flags_renders_renders (w w' : World) :
  flags_renders w = flags_renders w' -> renders w = renders w'.
Proof. unfold flags_renders. intros H. injection H as _ _ H. exact H. Qed.

(** The gating check renders once when both flags are set, and not at all
    otherwise. *)
Lemma maybeRenderSignInButton_renders (w : World) :
  is_Some (document w !! "g_id_onload") ->
  google_defined w = true ->
  renders (exec maybeRenderSignInButton w) =
    renders w ++
      (if gapiInited w && gisLoadedFlag w then [RenderButton "g_id_onload"] else []).
Proof.
  intros H0 Hg.
  destruct (gapiInited w && gisLoadedFlag w) eqn:Hb.
  - apply andb_true_iff in Hb as [Hi Hl].
    rewrite (exec_run _ _ _ _ (maybeRenderSignInButton_ready_run w H0 Hg Hi Hl)).
    rewrite (flags_renders_renders _ _
               (signed_out_switch_flags_renders "maybeRenderSignInButton" _)).
    rewrite !renders_emit. cbn [is_render]. rewrite !app_nil_r. reflexivity.
  - rewrite (exec_normal _ _ _ _ (maybeRenderSignInButton_waiting_run w Hb)).
    rewrite !renders_emit. cbn [is_render]. rewrite !app_nil_r. reflexivity.
Qed.

Lemma gisLoaded_run (cfg : Config) (w : World) :
  CONFIG w = Some cfg ->
  truthy (CLIENT_ID cfg) = true ->
  google_defined w = true ->
  gisLoaded w =
    maybeRenderSignInButton
      (emit (Console LvlInfo "GIS initialized successfully")
         (set_gisLoadedFlag true
            (emit (GisInitialize (default "" (CLIENT_ID cfg)))
               (emit (Console LvlInfo "gisLoaded: Google Identity Services loaded.")
                  (emit (Console LvlLog "gisLoaded called") w))))).
Proof.
  intros Hcfg Hc Hg. unfold gisLoaded. js_bind_step. do 2 js_step.
  rewrite ?Hc. cbn [negb]. cbv iota. do 5 js_step.
  rewrite try_catch_returns by apply returns_maybeRenderSignInButton. reflexivity.
Qed.

Lemma initializeGapiClient_run (cfg : Config) (w : World) :
  CONFIG w = Some cfg ->
  truthy (API_KEY cfg) = true ->
  truthy (SCOPES cfg) = true ->
  gapi_defined w = true ->
  initializeGapiClient (Resolved tt) w =
    maybeRenderSignInButton
      (emit (Console LvlInfo "GAPI client initialized successfully")
         (set_gapiInited true
            (emit (GapiClientInit (default "" (API_KEY cfg)) (default "" (SCOPES cfg)))
               (emit (Console LvlInfo "initializeGapiClient: Initializing gapi.client...")
                  (emit (Console LvlLog "initializeGapiClient called") w))))).
Proof.
  intros Hcfg Hk Hs Hg. unfold initializeGapiClient. js_bind_step. do 2 js_step.
  rewrite ?Hk, ?Hs. cbn [negb orb]. cbv iota. do 6 js_step.
  rewrite try_catch_returns by apply returns_maybeRenderSignInButton. reflexivity.
Qed.

Lemma renders_set_gisLoadedFlag (b : bool) (w : World) :
  renders (set_gisLoadedFlag b w) = renders w.
Proof. reflexivity. Qed.

Lemma renders_set_gapiInited (b : bool) (w : World) :
  renders (set_gapiInited b w) = renders w.
Proof. reflexivity. Qed.

(** [X17] Each of the two initialisations renders the sign-in button exactly
    once when the other one is already done, and not at all when it is not. *)
Theorem completing_readiness_renders_once (cfg : Config) (w : World) :
  fully_loaded w cfg ->
  renders (exec gisLoaded w) =
    renders w ++ (if gapiInited w then [RenderButton "g_id_onload"] else []) /\
  renders (exec (initializeGapiClient (Resolved tt)) w) =
    renders w ++ (if gisLoadedFlag w then [RenderButton "g_id_onload"] else []).
Proof.
  intros (Hcfg & Hk & Hs & Hc & Hgapi & Hgoogle & Hbtn). split.
  - rewrite (exec_run _ _ _ _ (gisLoaded_run cfg w Hcfg Hc Hgoogle)).
    rewrite maybeRenderSignInButton_renders by assumption.
    rewrite renders_emit, renders_set_gisLoadedFlag, !renders_emit.
    cbn [is_render gapiInited gisLoadedFlag emit set_trace set_gisLoadedFlag].
    rewrite andb_true_r, !app_nil_r. reflexivity.
  - rewrite (exec_run _ _ _ _ (initializeGapiClient_run cfg w Hcfg Hk Hs Hgapi)).
    rewrite maybeRenderSignInButton_renders by assumption.
    rewrite renders_emit, renders_set_gapiInited, !renders_emit.
    cbn [is_render gapiInited gisLoadedFlag emit set_trace set_gapiInited].
    cbn [andb]. rewrite !app_nil_r. reflexivity.
Qed.

Lemma completing_readiness_renders_once_witness :
  let w1 := exec (initializeGapiClient (Resolved tt)) fresh_world in
  renders w1 = [] /\ renders (exec gisLoaded w1) = [RenderButton "g_id_onload"].
Proof.
  cbv zeta. split.
  - destruct (completing_readiness_renders_once sample_config fresh_world) as [_ H].
    + repeat split. eexists. vm_compute. reflexivity.
    + exact H.
  - destruct (completing_readiness_renders_once sample_config
                (exec (initializeGapiClient (Resolved tt)) fresh_world)) as [H _].
    + repeat split. eexists. vm_compute. reflexivity.
    + exact H.
Defined.

(** * Signing in before the dashboard script has run *)

Lemma updateSigninStatus_undeclared_run (c : string) (w : World) :
  has_view_containers w ->
  gapi_defined w = true ->
  currentIdToken w = Some c ->
  c <> "" ->
  googleSheetsIntegration w = Undeclared ->
  updateSigninStatus true w =
    (Normal tt,
     reported (ReferenceError "googleSheetsIntegration") "updateSigninStatus"
       (credential_view c w)).
Proof.
  intros ([e1 H1] & [e2 H2] & [e3 H3]) Hg Ht Hc Hd.
  assert (Htr : truthy (Some c) = true) by (apply truthy_Some; exact Hc).
  unfold updateSigninStatus. do 4 js_step. cbn [present negb orb]. cbv iota.
  do 4 js_step. rewrite ?Htr. unfold when. cbv iota.
  do 2 js_step. rewrite ?Hd.
  erewrite exec_try_catch_throw' by reflexivity.
  rewrite handleError_run. reflexivity.
Qed.

Lemma display_credential_view (c : string) (w : World) :
  is_Some (document w !! "main-content") ->
  display_of "main-content" (credential_view c w) = Some "block".
Proof.
  intros [e He]. unfold display_of, credential_view, show_view. cbn.
  lookup_simpl. rewrite He. reflexivity.
Qed.

Lemma errorDisplay_credential_view (c : string) (w : World) :
  document (credential_view c w) !! "errorDisplay" = document w !! "errorDisplay".
Proof. unfold credential_view, show_view. cbn. lookup_simpl. reflexivity. Qed.

Lemma handleCredentialResponse_undeclared_run (credential : string) (w : World) :
  credential <> "" ->
  has_view_containers w ->
  gapi_defined w = true ->
  googleSheetsIntegration w = Undeclared ->
  handleCredentialResponse (Some credential) w =
    (Normal tt,
     emit (Console LvlInfo "Login successful")
       (reported (ReferenceError "googleSheetsIntegration") "updateSigninStatus"
          (credential_view credential
             (set_currentIdToken (Some credential)
                (emit (Console LvlInfo "Credential response received")
                   (emit (Console LvlLog "handleCredentialResponse called") w)))))).
Proof.
  intros Hc Hv Hg Hd.
  assert (Htr : truthy (Some credential) = true) by (apply truthy_Some; exact Hc).
  unfold handleCredentialResponse. js_bind_step. js_step.
  rewrite ?Htr. cbv iota. js_step.
  erewrite try_catch_bind_normal
    by (apply (updateSigninStatus_undeclared_run credential);
        [exact Hv | exact Hg | reflexivity | exact Hc | exact Hd]).
  erewrite try_catch_normal by reflexivity. reflexivity.
Qed.

Lemma sign_in_projections (credential : string) (e : Effect) (err : JsError)
    (c : string) (w : World) :
  let w' := emit e (reported err c (credential_view credential
                      (set_currentIdToken (Some credential) w))) in
  currentIdToken w' = Some credential /\
  token w' = TokenObj credential /\
  sessionStorage w' = sessionStorage w.
Proof.
  cbv zeta.
  destruct (reported_frame err c (credential_view credential
              (set_currentIdToken (Some credential) w))) as [doc ->].
  repeat split.
Qed.

Lemma document_emit (e : Effect) (w : World) : document (emit e w) = document w.
Proof. reflexivity. Qed.

Lemma display_of_emit (id : string) (e : Effect) (w : World) :
  display_of id (emit e w) = display_of id w.
Proof. reflexivity. Qed.

Lemma banner_emit (e : Effect) (w : World) : banner (emit e w) = banner w.
Proof. reflexivity. Qed.

(** [X18] A sign-in on a page where the dashboard object is not declared shows
    the signed-in view and sets the token but does not store the session flag,
    and shows the ReferenceError. *)
Theorem sign_in_without_dashboard_stores_no_flag (credential : string) (w : World) :
  credential <> "" ->
  has_view_containers w ->
  is_Some (document w !! "errorDisplay") ->
  gapi_defined w = true ->
  googleSheetsIntegration w = Undeclared ->
  let w' := exec (handleCredentialResponse (Some credential)) w in
  currentIdToken w' = Some credential /\
  token w' = TokenObj credential /\
  display_of "main-content" w' = Some "block" /\
  sessionStorage w' = sessionStorage w /\
  banner w' =
    Some (HtmlAlert "Terjadi kesalahan: googleSheetsIntegration is not defined", "block").
Proof.
  intros Hc Hv He Hg Hd. cbv zeta.
  rewrite (exec_normal _ _ _ _
             (handleCredentialResponse_undeclared_run credential w Hc Hv Hg Hd)).
  match goal with
  | |- context [set_currentIdToken _ ?w0] =>
      destruct (sign_in_projections credential (Console LvlInfo "Login successful")
                  (ReferenceError "googleSheetsIntegration") "updateSigninStatus" w0)
        as (H1 & H2 & H3)
  end.
  split; [exact H1 |]. split; [exact H2 |]. split; [| split; [rewrite H3; reflexivity |]].
  - rewrite display_of_emit. unfold display_of. rewrite lookup_reported by discriminate.
    apply display_credential_view. apply Hv.
  - rewrite banner_emit. unfold reported. apply banner_alerted.
    rewrite document_emit, errorDisplay_credential_view. exact He.
Qed.

Lemma sign_in_without_dashboard_stores_no_flag_witness :
  let w' := exec (handleCredentialResponse (Some "eyJhbGciOi")) bare_world in
  token w' = TokenObj "eyJhbGciOi" /\ sessionStorage w' = sessionStorage bare_world.
Proof.
  cbv zeta.
  destruct (sign_in_without_dashboard_stores_no_flag "eyJhbGciOi" bare_world)
    as (_ & Ht & _ & Hs & _).
  - discriminate.
  - repeat split; eexists; vm_compute; reflexivity.
  - eexists; vm_compute; reflexivity.
  - reflexivity.
  - reflexivity.
  - exact (conj Ht Hs).
Defined.

(** * Polling for the dashboard object *)

(** [X19] A polling callback that does not find the dashboard object re-arms
    itself with its own delay and changes nothing else but the console. *)
Theorem waiting_poller_rearms (cb : Callback) (d : Z) (i : nat)
    (init : Outcome unit) (w : World) :
  timers w !! i = Some (cb, d) ->
  still_waiting cb (googleSheetsIntegration w) = true ->
  let w' := exec (fire_timer i init) w in
  timers w' = delete i (timers w) ++ [(cb, poll_delay cb)] /\
  length (timers w') = length (timers w) /\
  googleSheetsIntegration w' = googleSheetsIntegration w /\
  document w' = document w /\
  refreshes w' = refreshes w.
Proof.
  intros Hi Hw. cbv zeta.
  assert (Hlen : length (delete i (timers w) ++ [(cb, poll_delay cb)])
                 = length (timers w)).
  { rewrite length_app, length_delete by (rewrite Hi; eauto). cbn.
    apply lookup_lt_Some in Hi. lia. }
  assert (Hrun : exists tr,
            exec (fire_timer i init) w =
            set_timers (delete i (timers w) ++ [(cb, poll_delay cb)])
              (set_trace (trace w ++ tr) w) /\
            List.filter (fun e => match e with RefreshData => true | _ => false end) tr
              = []).
  { unfold fire_timer, exec. js_bind_step. rewrite Hi. js_bind_step.
    destruct cb; cbn [run_callback still_waiting] in *;
      [ discriminate | | | ];
      destruct (googleSheetsIntegration w) as [| | [] ?] eqn:Hg;
      try discriminate;
      js_run; eexists; (split; [rewrite <- ?app_assoc; reflexivity | reflexivity]). }
  destruct Hrun as (tr & -> & Htr).
  refine (conj eq_refl (conj Hlen (conj eq_refl (conj eq_refl _)))).
  unfold refreshes. cbn. rewrite List.filter_app, Htr. apply app_nil_r.
Qed.

Lemma waiting_poller_rearms_witness :
  timers (exec (fire_timer 0 (Resolved tt)) waiting_world) = [(CbSafeRefreshData, 500)].
Proof.
  destruct (waiting_poller_rearms CbSafeRefreshData 500 0 (Resolved tt) waiting_world)
    as [H _]; [reflexivity | reflexivity |].
  exact H.
Defined.

(** * Outcome of the row operations *)

Lemma safeRefreshData_run (w : World) :
  safeRefreshData w = (Normal tt, refreshed w).
Proof.
  unfold safeRefreshData, refreshed. js_bind_step.
  destruct (googleSheetsIntegration w) as [| | [] ?]; reflexivity.
Qed.

Lemma alerted_frame (text : string) (w : World) :
  exists doc, alerted text w = set_document doc w.
Proof.
  unfold alerted. destruct (present _); [eexists; reflexivity |].
  exists (document w). destruct w; reflexivity.
Qed.

Lemma errorDisplay_alerted (text : string) (w : World) :
  is_Some (document w !! "errorDisplay") ->
  is_Some (document (alerted text w) !! "errorDisplay").
Proof.
  intros [e He]. unfold alerted. rewrite He. cbn.
  rewrite !lookup_alter_eq, He. cbn. eauto.
Qed.

Lemma banner_refreshed (w : World) : banner (refreshed w) = banner w.
Proof. unfold refreshed. destruct (can_refresh _); reflexivity. Qed.

Lemma deleteCustomerRow_resolved_run (i : Z) (cfg : Config) (w : World) :
  CONFIG w = Some cfg ->
  sheets_ready w ->
  deleteCustomerRow i (Resolved tt) w =
    (Normal tt,
     refreshed
       (alerted "Data pelanggan berhasil dihapus!"
          (emit (Console LvlInfo
                   ("Row " +:+ show_Z (i + 2) +:+ " deleted successfully from Google Sheets."))
             (emit (BatchUpdate
                      [mkDelete (SPREADSHEET_ID cfg) 0 "ROWS" (i + 2 - 1) (i + 2)])
                (emit (Console LvlInfo
                         ("Attempting to delete row at index: " +:+ show_Z i)) w))))).
Proof.
  intros Hcfg [Hg Hs]. unfold deleteCustomerRow. do 6 js_step.
  erewrite try_catch_bind_normal by apply showUserError_run.
  erewrite try_catch_normal by apply safeRefreshData_run. reflexivity.
Qed.

Lemma deleteCustomerRow_rejected_run (i : Z) (err : JsError) (cfg : Config) (w : World) :
  CONFIG w = Some cfg ->
  sheets_ready w ->
  deleteCustomerRow i (Rejected err) w =
    (Normal tt,
     alerted ("Gagal menghapus data: " +:+ message err)
       (reported err ("deleteCustomerRow for index " +:+ show_Z i)
          (emit (BatchUpdate
                   [mkDelete (SPREADSHEET_ID cfg) 0 "ROWS" (i + 2 - 1) (i + 2)])
             (emit (Console LvlInfo
                      ("Attempting to delete row at index: " +:+ show_Z i)) w)))).
Proof.
  intros Hcfg [Hg Hs]. unfold deleteCustomerRow. do 4 js_step.
  erewrite exec_try_catch_throw' by reflexivity.
  unfold bind. rewrite handleError_run. apply showUserError_run.
Qed.

Lemma refreshes_emit (e : Effect) (w : World) :
  refreshes (emit e w) =
    refreshes w ++ (match e with RefreshData => [e] | _ => [] end).
Proof.
  unfold refreshes, emit. cbn. rewrite List.filter_app. cbn. destruct e; reflexivity.
Qed.

Lemma refreshes_refreshed (w : World) :
  refreshes (refreshed w) =
    refreshes w ++ (if can_refresh (googleSheetsIntegration w) then [RefreshData] else []).
Proof.
  unfold refreshed. destruct (can_refresh _).
  - rewrite refreshes_emit. reflexivity.
  - change (refreshes (set_timers ?t ?x)) with (refreshes x).
    rewrite !refreshes_emit. cbn. rewrite !app_nil_r. reflexivity.
Qed.

Lemma timers_refreshed (w : World) :
  timers (refreshed w) =
    timers w ++
      (if can_refresh (googleSheetsIntegration w) then [] else [(CbSafeRefreshData, 500)]).
Proof.
  unfold refreshed. destruct (can_refresh _); [| reflexivity].
  rewrite app_nil_r. reflexivity.
Qed.

(** [X20] An accepted delete ends with the success message and a refresh; a
    rejected one with the failure message and no refresh. *)
Theorem delete_reports_outcome (i : Z) (batch : Outcome unit) (cfg : Config)
    (w : World) :
  CONFIG w = Some cfg ->
  sheets_ready w ->
  is_Some (document w !! "errorDisplay") ->
  let w' := exec (deleteCustomerRow i batch) w in
  match batch with
  | Resolved _ =>
      banner w' = Some (HtmlAlert "Data pelanggan berhasil dihapus!", "block") /\
      refreshes w' =
        refreshes w ++
          (if can_refresh (googleSheetsIntegration w) then [RefreshData] else []) /\
      timers w' =
        timers w ++
          (if can_refresh (googleSheetsIntegration w) then []
           else [(CbSafeRefreshData, 500)])
  | Rejected err =>
      banner w' = Some (HtmlAlert ("Gagal menghapus data: " +:+ message err), "block") /\
      refreshes w' = refreshes w /\
      timers w' = timers w
  end.
Proof.
  intros Hcfg Hr He. cbv zeta. destruct batch as [[] | err].
  - rewrite (exec_normal _ _ _ _ (deleteCustomerRow_resolved_run i cfg w Hcfg Hr)).
    rewrite banner_refreshed, refreshes_refreshed, timers_refreshed.
    match goal with
    | |- context [alerted ?t ?x] =>
        pose proof (banner_alerted t x He) as Hb;
        destruct (alerted_frame t x) as [doc Hdoc]
    end.
    split; [exact Hb |]. rewrite Hdoc. split; [| reflexivity].
    change (refreshes (set_document ?d ?x)) with (refreshes x).
    rewrite !refreshes_emit. cbn. rewrite !app_nil_r. reflexivity.
  - rewrite (exec_normal _ _ _ _ (deleteCustomerRow_rejected_run i err cfg w Hcfg Hr)).
    match goal with
    | |- context [alerted ?t (reported ?e ?c ?x)] =>
        assert (Hb : banner (alerted t (reported e c x)) = Some (HtmlAlert t, "block"))
          by (apply banner_alerted; unfold reported; apply errorDisplay_alerted; exact He);
        destruct (alerted_frame t (reported e c x)) as [doc Hdoc];
        destruct (reported_frame e c x) as [doc' Hdoc']
    end.
    split; [exact Hb |]. rewrite Hdoc, Hdoc'. split; [| reflexivity].
    change (refreshes (set_document ?d ?x)) with (refreshes x).
    change (refreshes (set_document ?d ?x)) with (refreshes x).
    rewrite !refreshes_emit. cbn. rewrite !app_nil_r. reflexivity.
Qed.

Lemma delete_reports_outcome_witness :
  banner (exec (deleteCustomerRow 3 (Rejected (mkError "403")) ) fresh_world) =
    Some (HtmlAlert "Gagal menghapus data: 403", "block") /\
  refreshes (exec (deleteCustomerRow 3 (Resolved tt)) fresh_world) = [RefreshData].
Proof.
  split.
  - destruct (delete_reports_outcome 3 (Rejected (mkError "403")) sample_config fresh_world)
      as [H _]; [reflexivity | split; reflexivity | eexists; vm_compute; reflexivity |].
    exact H.
  - destruct (delete_reports_outcome 3 (Resolved tt) sample_config fresh_world)
      as (_ & H & _); [reflexivity | split; reflexivity | eexists; vm_compute; reflexivity |].
    exact H.
Defined.

(** * Closing the edit modal *)

Lemma closeEditModal_run (w : World) :
  is_Some (document w !! "editModal") ->
  closeEditModal w = (Normal tt, closed_modal w).
Proof.
  intros [e He]. unfold closeEditModal, closed_modal. js_step.
  rewrite ?He. cbn [present]. unfold when. cbv iota. do 3 js_step.
  rewrite !lookup_alter_ne by discriminate.
  destruct (document w !! "editForm") as [f |] eqn:Hf; cbn [present]; cbv iota.
  - do 2 js_step. rewrite !lookup_alter_ne by discriminate.
    destruct (document w !! "errorDisplay") as [d |] eqn:Hd; cbn [present]; cbv iota;
      erewrite try_catch_normal by reflexivity; reflexivity.
  - do 2 js_step. rewrite !lookup_alter_ne by discriminate.
    destruct (document w !! "errorDisplay") as [d |] eqn:Hd; cbn [present]; cbv iota;
      erewrite try_catch_normal by reflexivity; reflexivity.
Qed.

Lemma closed_modal_frame (w : World) :
  exists doc tr,
    closed_modal w = set_document doc (set_trace (trace w ++ tr) w) /\
    refreshes (set_trace tr w) = [].
Proof.
  unfold closed_modal.
  destruct (present (document w !! "editForm")), (present (document w !! "errorDisplay"));
    cbv zeta iota.
  - eexists _, [FormReset "editForm"]. split; reflexivity.
  - eexists _, [FormReset "editForm"]. split; reflexivity.
  - eexists _, []. rewrite app_nil_r. split; [| reflexivity]. destruct w; reflexivity.
  - eexists _, []. rewrite app_nil_r. split; [| reflexivity]. destruct w; reflexivity.
Qed.

Lemma document_closed_modal (w : World) :
  document (closed_modal w) =
    (if present (document w !! "errorDisplay")
     then alter (with_display "none") "errorDisplay" else id)
      (alter (classList_remove "show") "editModal"
         (alter (with_display "none") "editModal" (document w))).
Proof.
  unfold closed_modal.
  destruct (present (document w !! "editForm")), (present (document w !! "errorDisplay"));
    reflexivity.
Qed.

Lemma lookup_closed_modal_modal (m : Element) (w : World) :
  document w !! "editModal" = Some m ->
  document (closed_modal w) !! "editModal" =
    Some (classList_remove "show" (with_display "none" m)).
Proof.
  intros Hm. rewrite document_closed_modal.
  destruct (present _); [rewrite lookup_alter_ne by discriminate |];
    cbn [id]; rewrite !lookup_alter_eq, Hm; reflexivity.
Qed.

Lemma display_closed_modal_banner (w : World) :
  is_Some (document w !! "errorDisplay") ->
  display_of "errorDisplay" (closed_modal w) = Some "none".
Proof.
  intros [d Hd]. unfold display_of. rewrite document_closed_modal, Hd. cbn [present].
  rewrite lookup_alter_eq, !lookup_alter_ne, Hd by discriminate. reflexivity.
Qed.

Lemma trace_closed_modal (w : World) :
  trace (closed_modal w) =
    trace w ++
      (if present (document w !! "editForm") then [FormReset "editForm"] else []).
Proof.
  unfold closed_modal.
  destruct (present (document w !! "editForm")), (present (document w !! "errorDisplay"));
    cbv zeta iota; cbn [trace set_document emit set_trace]; rewrite ?app_nil_r;
    reflexivity.
Qed.

(** [X21] Closing the edit modal hides the modal and the error banner, takes
    the class show off the modal, calls [reset] on the edit form when there
    is one and makes no other call, and neither hides, shows nor re-classes
    any other element. *)
Theorem close_modal_hides_modal_and_banner (w : World) :
  is_Some (document w !! "editModal") ->
  let w' := exec closeEditModal w in
  display_of "editModal" w' = Some "none" /\
  (forall e, document w' !! "editModal" = Some e -> "show" ∉ classList e) /\
  (is_Some (document w !! "errorDisplay") -> display_of "errorDisplay" w' = Some "none") /\
  (forall id, id <> "editModal" -> id <> "errorDisplay" ->
     display_of id w' = display_of id w /\
     classList <$> document w' !! id = classList <$> document w !! id) /\
  trace w' =
    trace w ++
      (if present (document w !! "editForm") then [FormReset "editForm"] else []).
Proof.
  intros Hm. cbv zeta.
  rewrite (exec_normal _ _ _ _ (closeEditModal_run w Hm)).
  destruct Hm as [m Hm]. unfold display_of.
  rewrite (lookup_closed_modal_modal m w Hm).
  split; [reflexivity |]. split; [| split; [| split]].
  - intros e [= <-]. cbn. intros Hin.
    apply list_elem_of_filter in Hin as [Hne _]. contradiction.
  - apply display_closed_modal_banner.
  - intros i Hi1 Hi2. rewrite document_closed_modal.
    destruct (present _); cbn [id]; rewrite !lookup_alter_ne by congruence;
      split; reflexivity.
  - apply trace_closed_modal.
Qed.

Lemma close_modal_hides_modal_and_banner_witness :
  let w' := exec closeEditModal edit_page_world in
  display_of "editModal" w' = Some "none" /\
  display_of "errorDisplay" w' = Some "none" /\
  display_of "main-content" w' = display_of "main-content" edit_page_world /\
  trace w' = [FormReset "editForm"].
Proof.
  cbv zeta.
  destruct (close_modal_hides_modal_and_banner edit_page_world) as (H1 & _ & H2 & H3 & H4).
  - eexists. vm_compute. reflexivity.
  - split; [exact H1 |]. split; [apply H2; eexists; vm_compute; reflexivity |].
    split; [apply H3; discriminate | exact H4].
Defined.

(** [X22] On a page without the edit modal closeEditModal leaves the world as
    it is. *)
Theorem close_without_modal_changes_nothing (w : World) :
  document w !! "editModal" = None ->
  exec closeEditModal w = w.
Proof.
  intros Hm. apply exec_normal with (a := tt).
  unfold closeEditModal. js_step. rewrite ?Hm. cbn [present]. unfold when. cbv iota.
  erewrite try_catch_normal by reflexivity. reflexivity.
Qed.

Lemma close_without_modal_changes_nothing_witness :
  exec closeEditModal fresh_world = fresh_world.
Proof. apply close_without_modal_changes_nothing. reflexivity. Defined.

(** * Outcome of an edit *)

Lemma display_of_refreshed (id : string) (w : World) :
  display_of id (refreshed w) = display_of id w.
Proof. unfold refreshed. destruct (can_refresh _); reflexivity. Qed.

Lemma refreshes_set_trace_app (tr : list Effect) (w : World) :
  refreshes (set_trace (trace w ++ tr) w) = refreshes w ++ refreshes (set_trace tr w).
Proof. unfold refreshes. cbn. apply List.filter_app. Qed.

Lemma refreshes_set_document (doc : gmap string Element) (w : World) :
  refreshes (set_document doc w) = refreshes w.
Proof. reflexivity. Qed.

Lemma timers_set_document (doc : gmap string Element) (w : World) :
  timers (set_document doc w) = timers w.
Proof. reflexivity. Qed.

Lemma googleSheetsIntegration_closed_modal (w : World) :
  googleSheetsIntegration (closed_modal w) = googleSheetsIntegration w.
Proof. destruct (closed_modal_frame w) as (doc & tr & -> & _). reflexivity. Qed.

Lemma timers_closed_modal (w : World) : timers (closed_modal w) = timers w.
Proof. destruct (closed_modal_frame w) as (doc & tr & -> & _). reflexivity. Qed.

Lemma refreshes_closed_modal (w : World) : refreshes (closed_modal w) = refreshes w.
Proof.
  destruct (closed_modal_frame w) as (doc & tr & -> & Htr).
  rewrite refreshes_set_document, refreshes_set_trace_app, Htr. apply app_nil_r.
Qed.

Lemma editForm_submit_resolved_run (cfg : Config) (data_range : string) (w : World) :
  is_Some (document w !! "editRowIndex") ->
  Forall (fun id => is_Some (document w !! id)) edit_inputs ->
  CONFIG w = Some cfg ->
  DATA_RANGE cfg = Some data_range ->
  sheets_ready w ->
  is_Some (document w !! "editModal") ->
  exists request : UpdateRequest,
    editForm_submit (Resolved tt) w =
      (Normal tt,
       refreshed
         (closed_modal
            (emit (Console LvlLog "✅ Row updated successfully in Google Sheets")
               (emit (ValuesUpdate request) w)))).
Proof.
  intros [e0 H0] Hall Hcfg Hrange [Hg Hs] Hm.
  unfold edit_inputs in Hall.
  repeat (apply Forall_cons in Hall as [[? ?] Hall]).
  unfold editForm_submit. do 13 js_step. eexists. do 2 js_step.
  erewrite try_catch_bind_normal by (apply closeEditModal_run; exact Hm).
  erewrite try_catch_normal by apply safeRefreshData_run. reflexivity.
Qed.

Lemma editForm_submit_rejected_run (err : JsError) (cfg : Config) (data_range : string)
    (w : World) :
  is_Some (document w !! "editRowIndex") ->
  Forall (fun id => is_Some (document w !! id)) edit_inputs ->
  CONFIG w = Some cfg ->
  DATA_RANGE cfg = Some data_range ->
  sheets_ready w ->
  exists request : UpdateRequest,
    editForm_submit (Rejected err) w =
      (Normal tt,
       reported err "editForm.submit"
         (emit (Console LvlError "❌ Update row error:")
            (emit (ValuesUpdate request) w))).
Proof.
  intros [e0 H0] Hall Hcfg Hrange [Hg Hs].
  unfold edit_inputs in Hall.
  repeat (apply Forall_cons in Hall as [[? ?] Hall]).
  unfold editForm_submit. do 13 js_step. eexists.
  erewrite exec_try_catch_throw' by reflexivity.
  js_bind_step. apply handleError_run.
Qed.

(** [X23] An accepted edit closes the modal, hides the banner and refreshes; a
    rejected one keeps the modal and shows the error. *)
Theorem edit_reports_outcome (update : Outcome unit) (cfg : Config)
    (data_range : string) (w : World) :
  is_Some (document w !! "editRowIndex") ->
  Forall (fun id => is_Some (document w !! id)) edit_inputs ->
  CONFIG w = Some cfg ->
  DATA_RANGE cfg = Some data_range ->
  sheets_ready w ->
  is_Some (document w !! "editModal") ->
  is_Some (document w !! "errorDisplay") ->
  let w' := exec (editForm_submit update) w in
  match update with
  | Resolved _ =>
      display_of "editModal" w' = Some "none" /\
      display_of "errorDisplay" w' = Some "none" /\
      refreshes w' =
        refreshes w ++
          (if can_refresh (googleSheetsIntegration w) then [RefreshData] else []) /\
      timers w' =
        timers w ++
          (if can_refresh (googleSheetsIntegration w) then []
           else [(CbSafeRefreshData, 500)])
  | Rejected err =>
      document w' !! "editModal" = document w !! "editModal" /\
      banner w' = Some (HtmlAlert ("Terjadi kesalahan: " +:+ message err), "block") /\
      refreshes w' = refreshes w /\
      timers w' = timers w
  end.
Proof.
  intros H0 Hall Hcfg Hrange Hr Hm He. cbv zeta. destruct update as [[] | err].
  - destruct (editForm_submit_resolved_run cfg data_range w H0 Hall Hcfg Hrange Hr Hm)
      as [request Hrun].
    rewrite (exec_normal _ _ _ _ Hrun).
    rewrite !display_of_refreshed, refreshes_refreshed, timers_refreshed.
    rewrite googleSheetsIntegration_closed_modal, refreshes_closed_modal,
      timers_closed_modal, !refreshes_emit, !app_nil_r.
    destruct Hm as [m Hm]. repeat split.
    + unfold display_of.
      rewrite (lookup_closed_modal_modal m) by (rewrite !document_emit; exact Hm).
      reflexivity.
    + apply display_closed_modal_banner. rewrite !document_emit. exact He.
  - destruct (editForm_submit_rejected_run err cfg data_range w H0 Hall Hcfg Hrange Hr)
      as [request Hrun].
    rewrite (exec_normal _ _ _ _ Hrun).
    match goal with
    | |- context [reported ?e ?c ?x] =>
        assert (Hb : banner (reported e c x) =
                     Some (HtmlAlert ("Terjadi kesalahan: " +:+ message e), "block"))
          by (unfold reported; apply banner_alerted; rewrite !document_emit; exact He);
        pose proof (lookup_reported e c "editModal" x ltac:(discriminate)) as Hl;
        destruct (reported_frame e c x) as [doc Hdoc]
    end.
    split; [rewrite Hl, !document_emit; reflexivity |].
    split; [exact Hb |]. rewrite Hdoc, refreshes_set_document, timers_set_document.
    rewrite !refreshes_emit, !app_nil_r. split; reflexivity.
Qed.

Lemma edit_reports_outcome_witness :
  display_of "editModal" (exec (editForm_submit (Resolved tt)) modal_world) = Some "none" /\
  banner (exec (editForm_submit (Rejected (mkError "quota"))) modal_world) =
    Some (HtmlAlert "Terjadi kesalahan: quota", "block").
Proof.
  split.
  - destruct (edit_reports_outcome (Resolved tt) sample_config "'Calon Pelanggan'!A2:L"
                modal_world) as [H _].
    + eexists. vm_compute. reflexivity.
    + unfold edit_inputs. repeat constructor; eexists; vm_compute; reflexivity.
    + reflexivity.
    + reflexivity.
    + split; reflexivity.
    + eexists. vm_compute. reflexivity.
    + eexists. vm_compute. reflexivity.
    + exact H.
  - destruct (edit_reports_outcome (Rejected (mkError "quota")) sample_config
                "'Calon Pelanggan'!A2:L" modal_world) as (_ & H & _).
    + eexists. vm_compute. reflexivity.
    + unfold edit_inputs. repeat constructor; eexists; vm_compute; reflexivity.
    + reflexivity.
    + reflexivity.
    + split; reflexivity.
    + eexists. vm_compute. reflexivity.
    + eexists. vm_compute. reflexivity.
    + exact H.
Defined.

(** * The key listener *)

Lemma has_class_removed (c : string) (e : Element) :
  has_class c (Some (classList_remove c e)) = false.
Proof.
  cbn. apply bool_decide_eq_false. intros Hin.
  apply list_elem_of_filter in Hin as [Hne _]. contradiction.
Qed.

Lemma present_has_class (c : string) (el : option Element) :
  present el && has_class c el = has_class c el.
Proof. destruct el; reflexivity. Qed.

Lemma lookup_closed_modal_other (name : string) (w : World) :
  name <> "editModal" -> name <> "errorDisplay" ->
  document (closed_modal w) !! name = document w !! name.
Proof.
  intros H1 H2. rewrite document_closed_modal.
  destruct (present _); cbn [id]; rewrite !lookup_alter_ne by congruence; reflexivity.
Qed.


Lemma onKeydown_escape_run (w : World) :
  onKeydown "Escape" w = (Normal tt, escaped w).
Proof.
  unfold onKeydown, escaped. rewrite bool_decide_true by reflexivity.
  unfold when at 1. do 3 js_bind_step. rewrite !present_has_class.
  destruct (has_class "show" (document w !! "editModal")) eqn:Hm; cbv zeta iota.
  - assert (Hs : is_Some (document w !! "editModal")).
    { destruct (document w !! "editModal"); [eauto | discriminate]. }
    unfold when at 1. erewrite bind_normal by (apply closeEditModal_run; exact Hs).
    js_bind_step. rewrite (lookup_closed_modal_other "addSalesModal") by discriminate.
    rewrite !present_has_class.
    destruct (has_class "show" (document w !! "addSalesModal")); reflexivity.
  - unfold when at 1. js_bind_step. js_bind_step. rewrite !present_has_class.
    destruct (has_class "show" (document w !! "addSalesModal")); [reflexivity |].
    reflexivity.
Qed.

Lemma has_class_fmap_removed (c : string) (el : option Element) :
  has_class c (classList_remove c <$> el) = false.
Proof. destruct el as [e |]; [apply has_class_removed | reflexivity]. Qed.

Lemma no_modal_shown_escaped (w : World) : no_modal_shown (escaped w).
Proof.
  unfold no_modal_shown, escaped.
  destruct (has_class "show" (document w !! "editModal")) eqn:Hm; cbv zeta iota.
  - assert (Hedit : has_class "show" (document (closed_modal w) !! "editModal") = false).
    { destruct (document w !! "editModal") as [m |] eqn:Hl; [| discriminate].
      rewrite (lookup_closed_modal_modal m w Hl).
      change (Some (classList_remove "show" ?e))
        with (classList_remove "show" <$> Some e).
      apply has_class_fmap_removed. }
    destruct (has_class "show" (document (closed_modal w) !! "addSalesModal")) eqn:Ha.
    + cbn [document set_document].
      rewrite lookup_alter_ne by discriminate. rewrite lookup_alter_eq.
      split; [exact Hedit | apply has_class_fmap_removed].
    + split; [exact Hedit | exact Ha].
  - destruct (has_class "show" (document w !! "addSalesModal")) eqn:Ha.
    + cbn [document set_document].
      rewrite lookup_alter_ne by discriminate. rewrite lookup_alter_eq.
      split; [exact Hm | apply has_class_fmap_removed].
    + split; [exact Hm | exact Ha].
Qed.

(** [X24] After Escape neither modal carries the class show. *)
Theorem escape_leaves_no_modal_shown (w : World) :
  no_modal_shown (exec (onKeydown "Escape") w).
Proof.
  rewrite (exec_normal _ _ _ _ (onKeydown_escape_run w)). apply no_modal_shown_escaped.
Qed.

(** [X25] The key listener is idempotent, and ignores every key other than
    Escape. *)
Theorem keydown_is_idempotent (key : string) (w : World) :
  exec (onKeydown key) (exec (onKeydown key) w) = exec (onKeydown key) w /\
  (key <> "Escape" -> exec (onKeydown key) w = w).
Proof.
  destruct (decide (key = "Escape")) as [-> | Hk].
  - split; [| contradiction].
    rewrite !(exec_normal _ _ _ _ (onKeydown_escape_run _)).
    destruct (no_modal_shown_escaped w) as [H1 H2].
    unfold escaped at 1. rewrite H1. cbv zeta iota. rewrite H2. reflexivity.
  - assert (Hrun : forall x, exec (onKeydown key) x = x).
    { intros x. apply exec_normal with (a := tt). unfold onKeydown.
      rewrite bool_decide_false by exact Hk. reflexivity. }
    split; [rewrite !Hrun; reflexivity | intros _; apply Hrun].
Qed.

(** * The global error listener *)

Lemma append_cons (c : ascii) (a b : string) : String c a +:+ b = String c (a +:+ b).
Proof. reflexivity. Qed.

Lemma prefix_spec (p s : string) :
  String.prefix p s = true <-> exists b, s = p +:+ b.
Proof.
  revert s. induction p as [| c p IH]; intros s.
  - split; [intros _; exists s; reflexivity | intros _; destruct s; reflexivity].
  - destruct s as [| d s]; cbn [String.prefix].
    + split; [discriminate | intros [b Hb]; rewrite append_cons in Hb; discriminate].
    + destruct (Ascii.ascii_dec c d) as [-> | Hne].
      * rewrite IH. split; intros [b Hb]; exists b; rewrite append_cons in *; congruence.
      * split; [discriminate | intros [b Hb]; rewrite append_cons in Hb; congruence].
Qed.

Lemma includes_spec (p s : string) : includes p s = true <-> occurs_in p s.
Proof.
  unfold occurs_in. induction s as [| d s IH].
  - cbn [includes]. rewrite orb_false_r, prefix_spec. split.
    + intros [b Hb]. exists "", b. exact Hb.
    + intros (a & b & Hab). destruct a as [| c a];
        [exists b; exact Hab | rewrite append_cons in Hab; discriminate].
  - cbn [includes]. rewrite orb_true_iff, prefix_spec, IH. split.
    + intros [[b Hb] | (a & b & Hab)].
      * exists "", b. exact Hb.
      * exists (String d a), b. rewrite append_cons. congruence.
    + intros (a & b & Hab). destruct a as [| c a].
      * left. exists b. exact Hab.
      * right. exists a, b. rewrite append_cons in Hab. congruence.
Qed.

(** [X26] An uncaught error whose message mentions refreshData and undefined
    leaves the page alone; any other one is shown in the banner. *)
Theorem window_error_filter (event_message : string) (w : World) :
  is_Some (document w !! "errorDisplay") ->
  let w' := exec (onWindowError event_message) w in
  let expected :=
    occurs_in "refreshData" event_message /\ occurs_in "undefined" event_message in
  (expected -> document w' = document w) /\
  (~ expected ->
   banner w' = Some (HtmlAlert ("Terjadi kesalahan: " +:+ event_message), "block")).
Proof.
  intros He. cbv zeta. rewrite <- !includes_spec, <- andb_true_iff.
  unfold onWindowError.
  destruct (includes "refreshData" event_message && includes "undefined" event_message).
  - split; [intros _; reflexivity | intros H; contradiction H; reflexivity].
  - split; [discriminate | intros _].
    rewrite (exec_normal _ _ _ _ (handleError_run _ _ _)).
    unfold reported. apply banner_alerted. rewrite document_emit. exact He.
Qed.

Lemma window_error_filter_witness :
  document (exec (onWindowError
                    "Uncaught TypeError: Cannot read properties of undefined (reading 'refreshData')")
              fresh_world) = document fresh_world /\
  banner (exec (onWindowError "Script error.") fresh_world) =
    Some (HtmlAlert "Terjadi kesalahan: Script error.", "block").
Proof.
  split.
  - destruct (window_error_filter
                "Uncaught TypeError: Cannot read properties of undefined (reading 'refreshData')"
                fresh_world) as [H _].
    + eexists. vm_compute. reflexivity.
    + apply H. split; apply includes_spec; vm_compute; reflexivity.
  - destruct (window_error_filter "Script error." fresh_world) as [_ H].
    + eexists. vm_compute. reflexivity.
    + apply H. intros [H1 _]. apply includes_spec in H1. vm_compute in H1. discriminate.
Defined.

(** * Resetting the add-customer form *)

(** [X27] Without the add-customer form the reset handler resets nothing and
    shows the TypeError of querySelectorAll on null. *)
Theorem reset_without_form_shows_type_error (w : World) :
  document w !! "addCustomerForm" = None ->
  is_Some (document w !! "errorDisplay") ->
  let w' := exec resetAddCustomerForm w in
  banner w' =
    Some (HtmlAlert
            "Terjadi kesalahan: Cannot read properties of null (reading 'querySelectorAll')",
          "block") /\
  trace w' =
    trace w ++
      [Console LvlError
         "Error in resetAddCustomerForm: Cannot read properties of null (reading 'querySelectorAll')"].
Proof.
  intros Hf He. cbv zeta.
  assert (Hrun : resetAddCustomerForm w =
                 (Normal tt,
                  reported (TypeError_null "querySelectorAll") "resetAddCustomerForm" w)).
  { unfold resetAddCustomerForm. js_step. rewrite ?Hf. cbn [present]. unfold when.
    erewrite exec_try_catch_throw' by reflexivity. apply handleError_run. }
  rewrite (exec_normal _ _ _ _ Hrun). split.
  - unfold reported. apply banner_alerted. rewrite document_emit. exact He.
  - destruct (reported_frame (TypeError_null "querySelectorAll")
                "resetAddCustomerForm" w) as [doc ->]. reflexivity.
Qed.

Lemma reset_without_form_shows_type_error_witness :
  banner (exec resetAddCustomerForm fresh_world) =
    Some (HtmlAlert
            "Terjadi kesalahan: Cannot read properties of null (reading 'querySelectorAll')",
          "block").
Proof.
  destruct (reset_without_form_shows_type_error fresh_world) as [H _].
  - reflexivity.
  - eexists. vm_compute. reflexivity.
  - exact H.
Defined.

(** * Sample runs *)

Lemma retry_delays_bounded_witness :
  retries_bounded (exec (handle (EvInitializeGapiClient failure)) fresh_world).
Proof.
  apply retry_delays_bounded.
  apply (reachable_step fresh_world).
  - apply reachable_initial. apply fresh_world_initial.
  - apply step_handle.
Defined.

Lemma token_writes_well_formed_witness :
  tokens_well_formed (exec (handle (EvCredentialResponse (Some "eyJhbGciOi"))) fresh_world).
Proof.
  apply token_writes_well_formed.
  apply (reachable_step fresh_world).
  - apply reachable_initial. apply fresh_world_initial.
  - apply step_handle.
Defined.

(** [Escape] with both modals open. *)
Example escape_closes_both_modals :
  let w' := exec (onKeydown "Escape") two_modals_world in
  display_of "editModal" w' = Some "none" /\
  classList <$> document w' !! "editModal" = Some ["modal"] /\
  classList <$> document w' !! "addSalesModal" = Some ["modal"] /\
  display_of "errorDisplay" w' = Some "none".
Proof. vm_compute. repeat split. Qed.
